(** * PeakRDL-opentitan: the OpenTitan register-description importer

    A shallow embedding of [src/peakrdl_opentitan/importer.py] (class
    [OpenTitanImporter]) and the properties of its translation.

    The importer walks a parsed Hjson document (nested mappings, sequences and
    scalars) and builds a SystemRDL component tree through the primitives of
    the [systemrdl] library.  The embedding has three layers:

    - [Py]: the Python values a parsed document is made of and the built-ins
      the importer applies to them ([int], [str.split], [str.lower],
      subscripting, [in], [len], truthiness), each with the exceptions it
      raises;
    - the target model: records for the components the [systemrdl] primitives
      create (definitions are instantiated, properties are recorded in
      assignment order, children are appended);
    - the importer's methods, in a state-and-exception monad over the
      importer's file-scoped attributes ([regwidth], [__addroffset]), the
      message sink and the registered root components.

    Characters are ASCII: a string is a [string] of the Standard Library.
    Document numbers are integers. *)

From Stdlib Require Import ZArith List String Ascii Bool Lia.
Import ListNotations.

Local Open Scope string_scope.
Local Open Scope list_scope.
Local Open Scope Z_scope.

(** ** Document values *)

(** What a parsed document is made of.  [VSym] is a constant of the target
    library (an access kind, a side effect): the access tables return such
    objects and the importer hands them on unopened. *)
#[local] Set Warnings "-register-all".
Inductive value : Type :=
| VNone
| VBool (b : bool)
| VInt (z : Z)
| VStr (s : string)
| VSym (s : string)
| VList (l : list value)
| VDict (d : list (string * value)).

(** ** Exceptions *)

(** The exceptions an import can end with.  [TypeError] stands for every
    operation applied to a value of the wrong Python type (Python raises
    [TypeError] or [AttributeError] there).  [RDLCompileError] is what
    [msg.fatal] raises after it has printed its message; [AssertionError]
    carries the subject of the assertion message. *)
Inductive error : Type :=
| KeyError (key : string)
| TypeError
| ValueError
| IndexError
| AssertionError (subject : value)
| RDLCompileError (text : string).

Inductive result (A : Type) : Type :=
| Ok (a : A)
| Raise (e : error).
Arguments Ok {A} a.
Arguments Raise {A} e.

Definition rbind {A B} (r : result A) (k : A -> result B) : result B :=
  match r with
  | Ok a => k a
  | Raise e => Raise e
  end.

Definition is_ok {A} (r : result A) : bool :=
  match r with Ok _ => true | Raise _ => false end.

(** ** Python values and built-ins *)

Module Py.

(** A mapping keeps its keys in insertion order. *)
Definition dict := list (string * value).

Fixpoint get (k : string) (d : dict) : option value :=
  match d with
  | [] => None
  | (k', v) :: d' => if String.eqb k k' then Some v else get k d'
  end.

(** [k in d] *)
Definition contains (k : string) (d : dict) : bool :=
  match get k d with Some _ => true | None => false end.

(** [d[k] = v]: the value is replaced in place when the key is there, and
    the pair is appended otherwise. *)
Fixpoint set (k : string) (v : value) (d : dict) : dict :=
  match d with
  | [] => [(k, v)]
  | (k', v') :: d' =>
      if String.eqb k k' then (k', v) :: d' else (k', v') :: set k v d'
  end.

(** [d[k]] *)
Definition item (k : string) (d : dict) : result value :=
  match get k d with
  | Some v => Ok v
  | None => Raise (KeyError k)
  end.

(** [v[k]] for a string key, on any value: only a mapping can be subscripted
    with a string. *)
Definition subscript (v : value) (k : string) : result value :=
  match v with
  | VDict d => item k d
  | _ => Raise TypeError
  end.

Definition as_dict (v : value) : result dict :=
  match v with
  | VDict d => Ok d
  | _ => Raise TypeError
  end.

(** [v == "s"] *)
Definition eq_str (v : value) (s : string) : bool :=
  match v with
  | VStr t => String.eqb t s
  | _ => false
  end.

(** [v is None] *)
Definition is_none (v : value) : bool :=
  match v with VNone => true | _ => false end.

(** [bool(v)] *)
Definition truthy (v : value) : bool :=
  match v with
  | VNone => false
  | VBool b => b
  | VInt z => negb (z =? 0)
  | VStr s => negb (String.eqb s EmptyString)
  | VSym _ => true
  | VList l => match l with [] => false | _ => true end
  | VDict d => match d with [] => false | _ => true end
  end.

Fixpoint chars (s : string) : list value :=
  match s with
  | EmptyString => []
  | String c s' => VStr (String c EmptyString) :: chars s'
  end.

(** [for x in v]: the values a [for] loop visits. *)
Definition iter (v : value) : result (list value) :=
  match v with
  | VList l => Ok l
  | VDict d => Ok (map (fun kv => VStr (fst kv)) d)
  | VStr s => Ok (chars s)
  | _ => Raise TypeError
  end.

(** [len(v)] *)
Definition len (v : value) : result nat :=
  match v with
  | VList l => Ok (List.length l)
  | VDict d => Ok (List.length d)
  | VStr s => Ok (String.length s)
  | _ => Raise TypeError
  end.

(** *** Strings *)

Definition is_upper (c : ascii) : bool :=
  let n := N_of_ascii c in ((65 <=? n) && (n <=? 90))%N.

Definition lower_char (c : ascii) : ascii :=
  if is_upper c then ascii_of_N (N_of_ascii c + 32) else c.

(** [s.lower()] *)
Fixpoint lower (s : string) : string :=
  match s with
  | EmptyString => EmptyString
  | String c s' => String (lower_char c) (lower s')
  end.

(** [v.lower()] *)
Definition lower_of (v : value) : result string :=
  match v with
  | VStr s => Ok (lower s)
  | _ => Raise TypeError
  end.


(** [s.split(sep)] for a one-character separator. *)
Fixpoint split (sep : ascii) (s : string) : list string :=
  match s with
  | EmptyString => [EmptyString]
  | String c s' =>
      if Ascii.eqb c sep then EmptyString :: split sep s'
      else match split sep s' with
           | [] => [String c EmptyString]
           | p :: ps => String c p :: ps
           end
  end.

(** [s.startswith(p)] *)
Definition startswith (p s : string) : bool := String.prefix p s.

Definition is_digit (c : ascii) : bool :=
  let n := N_of_ascii c in ((48 <=? n) && (n <=? 57))%N.

(** *** Integers and their text *)

Definition digit_char (d : Z) : ascii := ascii_of_N (48 + Z.to_N d).

Fixpoint str_digits (fuel : nat) (n : Z) (acc : string) : string :=
  match fuel with
  | O => acc
  | S fuel' =>
      let acc' := String (digit_char (n mod 10)) acc in
      if n <? 10 then acc' else str_digits fuel' (n / 10) acc'
  end.

(** [str(n)] for a count [n]. *)
Definition str (n : nat) : string :=
  str_digits (S n) (Z.of_nat n) EmptyString.

(** The characters [int] skips around a number. *)
Definition is_space (c : ascii) : bool :=
  let n := N_of_ascii c in ((n =? 32) || ((9 <=? n) && (n <=? 13)))%N.

Fixpoint skip_space (s : string) : string :=
  match s with
  | EmptyString => EmptyString
  | String c s' => if is_space c then skip_space s' else s
  end.

(** The value of a digit in bases up to 36. *)
Definition digit_value (c : ascii) : option Z :=
  let n := N_of_ascii c in
  if ((48 <=? n) && (n <=? 57))%N then Some (Z.of_N n - 48)
  else if ((97 <=? n) && (n <=? 122))%N then Some (Z.of_N n - 87)
  else if ((65 <=? n) && (n <=? 90))%N then Some (Z.of_N n - 55)
  else None.

(** The digit scan of [int]: digits of the base, single underscores between
    them; it stops at the first other character and fails on a doubled or
    trailing underscore. *)
Fixpoint scan_digits (base : Z) (after_us : bool) (acc : Z) (s : string)
  : option (Z * string) :=
  let stop := if after_us then None else Some (acc, s) in
  match s with
  | EmptyString => stop
  | String c s' =>
      if Ascii.eqb c "_" then
        if after_us then None else scan_digits base true acc s'
      else
        match digit_value c with
        | Some d =>
            if d <? base then scan_digits base false (acc * base + d) s'
            else stop
        | None => stop
        end
  end.

Definition skip_sign (s : string) : Z * string :=
  match s with
  | String "+" s' => (1, s')
  | String "-" s' => (-1, s')
  | _ => (1, s)
  end.

(** The [0x] prefix of base 16, and the one underscore allowed after it. *)
Definition skip_prefix (base : Z) (s : string) : string :=
  if base =? 16 then
    match s with
    | String "0" (String x s') =>
        if Ascii.eqb x "x" || Ascii.eqb x "X" then
          match s' with
          | String "_" s'' => s''
          | _ => s'
          end
        else s
    | _ => s
    end
  else s.

(** [int(s, base)] for base 10 or 16: surrounding space, a sign, the base
    prefix, at least one digit. *)
Definition int_of_string (base : Z) (s : string) : result Z :=
  let (sign, body) := skip_sign (skip_space s) in
  let digits := skip_prefix base body in
  match digits with
  | String "_" _ => Raise ValueError
  | _ =>
      match scan_digits base false 0 digits with
      | None => Raise ValueError
      | Some (z, rest) =>
          if (String.length rest =? String.length digits)%nat
          then Raise ValueError
          else match skip_space rest with
               | EmptyString => Ok (sign * z)
               | _ => Raise ValueError
               end
      end
  end.

(** [int(v)] *)
Definition int (v : value) : result Z :=
  match v with
  | VInt z => Ok z
  | VBool b => Ok (if b then 1 else 0)
  | VStr s => int_of_string 10 s
  | _ => Raise TypeError
  end.

(** The integer an operand of [&], [<<] or [>>] stands for. *)
Definition as_int (v : value) : result Z :=
  match v with
  | VInt z => Ok z
  | VBool b => Ok (if b then 1 else 0)
  | _ => Raise TypeError
  end.

End Py.

(** ** The target model *)

(** The components the [systemrdl] primitives build.  A definition is created
    under a type name and instantiated under an instance name;
    [assign_property] records a property, in assignment order; [add_child]
    appends to the parent's children. *)

Record UserEnumMember : Type := {
  m_name : string;
  m_value : Z;
  m_desc : value
}.

Record UserEnum : Type := {
  e_type_name : string;
  e_members : list UserEnumMember
}.

Inductive prop_value : Type :=
| PObj (v : value)
| PEnum (e : UserEnum).

Definition properties := list (string * prop_value).

(** The value a property was assigned, if it was. *)
Fixpoint property (k : string) (ps : properties) : option prop_value :=
  match ps with
  | [] => None
  | (k', v) :: ps' => if String.eqb k k' then Some v else property k ps'
  end.

Record Field : Type := {
  f_type_name : string;
  f_inst_name : string;
  f_bit_offset : Z;
  f_bit_width : Z;
  f_properties : properties
}.

Record Reg : Type := {
  r_type_name : string;
  r_inst_name : string;
  r_addr_offset : Z;
  r_external : bool;
  r_properties : properties;
  r_children : list Field
}.

(** A signal is named after the entry's [name], whatever value that is;
    [IntrPort v] is the port name [f"intr_{v}_o"] of an interrupt. *)
Inductive signal_name : Type :=
| Named (v : value)
| IntrPort (v : value).

Record Signal : Type := {
  s_type_name : value;
  s_inst_name : signal_name;
  s_properties : properties
}.

Inductive component : Type :=
| CSignal (s : Signal)
| CReg (r : Reg).

Record Addrmap : Type := {
  a_type_name : value;
  a_properties : properties;
  a_children : list component
}.

Definition instantiate_field (type_name inst_name : string)
  (bit_offset bit_width : Z) : Field :=
  {| f_type_name := type_name; f_inst_name := inst_name;
     f_bit_offset := bit_offset; f_bit_width := bit_width;
     f_properties := [] |}.

Definition instantiate_reg (type_name inst_name : string) (addr_offset : Z)
  : Reg :=
  {| r_type_name := type_name; r_inst_name := inst_name;
     r_addr_offset := addr_offset; r_external := false;
     r_properties := []; r_children := [] |}.

Definition instantiate_signal (type_name : value) (inst_name : signal_name)
  : Signal :=
  {| s_type_name := type_name; s_inst_name := inst_name;
     s_properties := [] |}.

Definition create_addrmap_definition (type_name : value) : Addrmap :=
  {| a_type_name := type_name; a_properties := []; a_children := [] |}.

Definition assign_field (F : Field) (k : string) (v : prop_value) : Field :=
  {| f_type_name := f_type_name F; f_inst_name := f_inst_name F;
     f_bit_offset := f_bit_offset F; f_bit_width := f_bit_width F;
     f_properties := f_properties F ++ [(k, v)] |}.

Definition assign_reg (R : Reg) (k : string) (v : prop_value) : Reg :=
  {| r_type_name := r_type_name R; r_inst_name := r_inst_name R;
     r_addr_offset := r_addr_offset R; r_external := r_external R;
     r_properties := r_properties R ++ [(k, v)];
     r_children := r_children R |}.

Definition assign_signal (sig : Signal) (k : string) (v : prop_value)
  : Signal :=
  {| s_type_name := s_type_name sig; s_inst_name := s_inst_name sig;
     s_properties := s_properties sig ++ [(k, v)] |}.

Definition assign_addrmap (C : Addrmap) (k : string) (v : prop_value)
  : Addrmap :=
  {| a_type_name := a_type_name C; a_properties := a_properties C ++ [(k, v)];
     a_children := a_children C |}.

(** [R.external = True] *)
Definition set_external (R : Reg) : Reg :=
  {| r_type_name := r_type_name R; r_inst_name := r_inst_name R;
     r_addr_offset := r_addr_offset R; r_external := true;
     r_properties := r_properties R; r_children := r_children R |}.

Definition add_fields_children (R : Reg) (Fs : list Field) : Reg :=
  {| r_type_name := r_type_name R; r_inst_name := r_inst_name R;
     r_addr_offset := r_addr_offset R; r_external := r_external R;
     r_properties := r_properties R; r_children := r_children R ++ Fs |}.

Definition add_children (C : Addrmap) (cs : list component) : Addrmap :=
  {| a_type_name := a_type_name C; a_properties := a_properties C;
     a_children := a_children C ++ cs |}.

(** The registers among an address map's children, in order. *)
Fixpoint regs_of (cs : list component) : list Reg :=
  match cs with
  | [] => []
  | CReg r :: cs' => r :: regs_of cs'
  | CSignal _ :: cs' => regs_of cs'
  end.

(** ** The importer's state and messages *)

Inductive scope : Type :=
| Addrmap_scope
| Signal_scope (name : value)
| Register_scope (name : value)
| Field_scope (name : value).

(** What the importer hands to [msg.warning]: the message's parts, before
    they are formatted. *)
Inductive message : Type :=
| Unsupported_key (sc : scope) (key : string)
| Unsupported_resval (resval : value)
| Enum_name_digit (name : string).

(** The importer object: the two file-scoped attributes, the warnings it
    has sent and the root components it has registered. *)
Record importer : Type := {
  regwidth : option Z;
  addroffset : Z;
  warnings : list message;
  roots : list Addrmap
}.

Definition M (A : Type) : Type := importer -> result (A * importer).

Definition ret {A} (a : A) : M A := fun st => Ok (a, st).

Definition bind {A B} (m : M A) (k : A -> M B) : M B :=
  fun st =>
    match m st with
    | Ok (a, st') => k a st'
    | Raise e => Raise e
    end.

Definition raise {A} (e : error) : M A := fun _ => Raise e.

Definition lift {A} (r : result A) : M A :=
  fun st => match r with Ok a => Ok (a, st) | Raise e => Raise e end.

Declare Scope importer_scope.
Delimit Scope importer_scope with imp.
Notation "x <- m ;; k" := (bind m (fun x => k))
  (at level 61, m at next level, right associativity) : importer_scope.
Notation "' p <- m ;; k" := (bind m (fun x => let 'p := x in k))
  (at level 61, p pattern, m at next level, right associativity)
  : importer_scope.
Notation "m ;; k" := (bind m (fun _ => k))
  (at level 61, right associativity) : importer_scope.
Local Open Scope importer_scope.

(** [self.msg.warning(...)] *)
Definition warning (m : message) : M unit :=
  fun st => Ok (tt, {| regwidth := regwidth st; addroffset := addroffset st;
                       warnings := warnings st ++ [m]; roots := roots st |}).

(** [self.msg.fatal(...)] *)
Definition fatal {A} (text : string) : M A := raise (RDLCompileError text).

Definition set_regwidth (w : option Z) : M unit :=
  fun st => Ok (tt, {| regwidth := w; addroffset := addroffset st;
                       warnings := warnings st; roots := roots st |}).

Definition set_addroffset (o : Z) : M unit :=
  fun st => Ok (tt, {| regwidth := regwidth st; addroffset := o;
                       warnings := warnings st; roots := roots st |}).

Definition get_addroffset : M Z := fun st => Ok (addroffset st, st).

(** Reading [self.regwidth] as an operand of [//]. *)
Definition get_regwidth : M Z :=
  fun st => match regwidth st with
            | Some w => Ok (w, st)
            | None => Raise TypeError
            end.

Definition register_root_component (C : Addrmap) : M unit :=
  fun st => Ok (tt, {| regwidth := regwidth st; addroffset := addroffset st;
                       warnings := warnings st; roots := roots st ++ [C] |}).

(** [for x in l: ...], collecting what each round produces. *)
Fixpoint for_each {A B} (body : A -> M B) (l : list A) : M (list B) :=
  match l with
  | [] => ret []
  | x :: l' => y <- body x ;; ys <- for_each body l' ;; ret (y :: ys)
  end.

(** [for cnt, x in enumerate(l): ...] *)
Fixpoint for_each_enum {A B} (body : nat -> A -> M B) (cnt : nat) (l : list A)
  : M (list B) :=
  match l with
  | [] => ret []
  | x :: l' =>
      y <- body cnt x ;; ys <- for_each_enum body (S cnt) l' ;; ret (y :: ys)
  end.

Fixpoint map_result {A B} (f : A -> result B) (l : list A) : result (list B) :=
  match l with
  | [] => Ok []
  | x :: l' => rbind (f x) (fun y => rbind (map_result f l')
                                      (fun ys => Ok (y :: ys)))
  end.

(** ** The importer *)

Definition unsupported_addrmap_props : list string :=
  ["cip_id"; "bus_interfaces"; "revisions"; "design_spec"; "dv_doc";
   "hw_checklist"; "sw_checklist"; "design_stage"; "dif_stage";
   "verification_stage"; "notes"; "version"; "life_stage"; "commit_id";
   "alert_list"; "expose_reg_if"; "inter_signal_list"; "no_auto_id_regs";
   "no_auto_feat_regs"; "no_auto_intr_regs"; "no_auto_alert_regs";
   "param_list"; "reset_request_list"; "scan"; "scan_reset"; "scan_en";
   "SPDX-License-Identifier"; "wakeup_list"; "countermeasure"].

Definition unsupported_reg_props : list string :=
  ["alias_target"; "async"; "sync"; "hwre"; "regwen"; "tags"; "shadowed";
   "update_err_alert"; "storage_err_alert"].

Definition unsupported_field_props : list string :=
  ["alias_target"; "tags"; "mubi"; "auto_split"].

Definition unsupported_signal_props : list string := ["type"; "default"].

(** [hex_or_dec_to_dec]: a string is read in base 16 behind [0x] and in
    base 10 otherwise; anything else is returned as it is. *)
Definition hex_or_dec_to_dec (num : value) : result value :=
  match num with
  | VStr s =>
      if Py.startswith "0x" s
      then rbind (Py.int_of_string 16 s) (fun z => Ok (VInt z))
      else rbind (Py.int_of_string 10 s) (fun z => Ok (VInt z))
  | _ => Ok num
  end.

(** The bit range of [add_fields]:
    [bits = [int(part) for part in field_dict['bits'].split(':')]], then
    the offset and width by the number of parts. *)
Definition bit_range (bits : value) : result (Z * Z) :=
  match bits with
  | VStr s =>
      rbind (map_result (Py.int_of_string 10) (Py.split ":" s)) (fun parts =>
        match parts with
        | [hi; lo] => Ok (lo, (hi - lo) + 1)
        | [n] => Ok (n, 1)
        | _ => Raise (AssertionError VNone)
        end)
  | _ => Raise TypeError
  end.

(** The reset value a field takes from its register:
    [(reg_resval & ((2**bit_width-1) << bit_offset)) >> bit_offset].
    A negative width makes [2**bit_width] a float, which [<<] refuses; a
    negative offset is a negative shift count. *)
Definition inherited_resval (reg_resval : value) (bit_offset bit_width : Z)
  : result value :=
  if bit_width <? 0 then Raise TypeError
  else if bit_offset <? 0 then Raise ValueError
  else
    rbind (Py.as_int reg_resval) (fun r =>
      Ok (VInt (Z.shiftr (Z.land r (Z.shiftl (2 ^ bit_width - 1) bit_offset))
                         bit_offset))).

Section Importer.

(** The access tables of [typemaps.py] and the compiler's property registry
    ([compiler.env.property_rules], with the rules of [sig_props.rdl]) are
    not part of the sources at hand: the importer is parametric in them.
    A table maps an access token to the target's access objects, [None]
    ([VNone]) where there is none, or raises. *)
Variable sw_from_access : value -> result (value * value * value).
Variable hw_from_access : value -> result (value * value).
Variable lookup_property : string -> bool.

(** [warn_unsupported] *)
Definition warn_unsupported (key : string) (tree : Py.dict) (sc : scope)
  : M unit :=
  if Py.contains key tree then warning (Unsupported_key sc key) else ret tt.

Fixpoint warn_unsupported_all (keys : list string) (tree : Py.dict)
  (sc : scope) : M unit :=
  match keys with
  | [] => ret tt
  | key :: keys' =>
      warn_unsupported key tree sc ;; warn_unsupported_all keys' tree sc
  end.

(** [create_signal]: the signal, and the entry as the call leaves it (the
    entry is written to in place). *)
Definition create_signal (sig_dict : value) (sig_type : string)
  : M (Signal * value) :=
  name <- lift (Py.subscript sig_dict "name") ;;
  d <- lift (Py.as_dict sig_dict) ;;
  warn_unsupported_all unsupported_signal_props d (Signal_scope name) ;;
  let '(signal_inst_name, sig_type) :=
    if String.eqb sig_type "interrupt" then (IntrPort name, "output")
    else (Named name, sig_type) in
  let sig := instantiate_signal name signal_inst_name in
  let d := if Py.contains "width" d then d
           else Py.set "signalwidth" (VInt 1) d in
  let d := if Py.contains sig_type d then d
           else Py.set sig_type (VBool true) d in
  let sig := fold_left (fun sig kv =>
                        if lookup_property (fst kv)
                           && negb (String.eqb (fst kv) "name")
                        then assign_signal sig (fst kv) (PObj (snd kv))
                        else sig) d sig in
  ret (sig, VDict d).

(** The entry [create_signal] is given for one [role: name] pair of a
    [clocking] entry. *)
Definition clocking_sig_dict (key : string) (v : value) : Py.dict :=
  if String.eqb key "clock" then
    [("name", v); ("desc", VStr "Input clock"); ("clock", VBool true)]
  else if String.eqb key "reset" then
    if Py.eq_str v "rst_ni" then
      [("name", v); ("reset_signal", VBool true);
       ("desc", VStr "Input reset, active low"); ("activelow", VBool true)]
    else
      [("name", v); ("reset_signal", VBool true);
       ("desc", VStr "Input reset, active high"); ("activehigh", VBool true)]
  else [("name", v)].

Definition add_clocking_entry (entry : value) : M (list Signal) :=
  items <- lift (Py.as_dict entry) ;;
  for_each (fun kv =>
              '(sig, _) <- create_signal
                           (VDict (clocking_sig_dict (fst kv) (snd kv)))
                           "input" ;;
              ret sig) items.

(** One list of [add_signals]: a signal per entry, added to the node; the
    entries of the document's list are the ones [create_signal] wrote to. *)
Definition add_signal_list (list_type sig_type : string)
  (node : Addrmap) (tree : Py.dict) : M (Addrmap * Py.dict) :=
  match Py.get list_type tree with
  | None => ret (node, tree)
  | Some v =>
      entries <- lift (Py.iter v) ;;
      made <- for_each (fun s => create_signal s sig_type) entries ;;
      let tree' := match v with
                   | VList _ => Py.set list_type (VList (map snd made)) tree
                   | _ => tree
                   end in
      ret (add_children node (map (fun p => CSignal (fst p)) made), tree')
  end.

(** [add_signals] *)
Definition add_signals (node : Addrmap) (tree : Py.dict)
  : M (Addrmap * Py.dict) :=
  node <- match Py.get "clocking" tree with
          | None => ret node
          | Some clocking =>
              entries <- lift (Py.iter clocking) ;;
              made <- for_each add_clocking_entry entries ;;
              ret (add_children node (map CSignal (List.concat made)))
          end ;;
  '(node, tree) <- add_signal_list "available_input_list" "input"
                     node tree ;;
  '(node, tree) <- add_signal_list "available_output_list" "output"
                     node tree ;;
  '(node, tree) <- add_signal_list "available_inout_list" "inout"
                     node tree ;;
  add_signal_list "interrupt_list" "interrupt" node tree.

(** One member of [parse_enum].  The entry's name is rewritten in place
    when it starts with a digit; nothing reads it again.  A name that is
    not a string ends the call in an exception of one kind or another;
    the model has [TypeError] for all of them. *)
Definition parse_enum_member (enum : value) : M UserEnumMember :=
  name <- lift (Py.subscript enum "name") ;;
  ed <- lift (Py.as_dict enum) ;;
  name <- match name with
          | VStr EmptyString => raise IndexError
          | VStr (String c _ as s) =>
              if Py.is_digit c
              then warning (Enum_name_digit s) ;; ret (("_" ++ s)%string)
              else ret s
          | _ => raise TypeError
          end ;;
  v <- lift (rbind (Py.item "value" ed) Py.int) ;;
  desc <- lift (Py.item "desc" ed) ;;
  ret {| m_name := Py.lower name; m_value := v; m_desc := desc |}.

(** [parse_enum] *)
Definition parse_enum (field_dict : Py.dict) : M UserEnum :=
  enums <- lift (rbind (Py.item "enum" field_dict) Py.iter) ;;
  members <- for_each parse_enum_member enums ;;
  name <- lift (rbind (Py.item "name" field_dict) Py.lower_of) ;;
  ret {| e_type_name := (name ++ "_e")%string; e_members := members |}.

(** The reset value of a field ([add_fields], "Assign reset value"). *)
Definition field_resval (field_dict : Py.dict) (reg_resval : value)
  (bit_offset bit_width : Z) : M value :=
  match Py.get "resval" field_dict with
  | Some resval =>
      resval <- (if Py.eq_str resval "x"
                 then warning (Unsupported_resval resval) ;; ret (VInt 0)
                 else ret resval) ;;
      lift (hex_or_dec_to_dec resval)
  | None => lift (inherited_resval reg_resval bit_offset bit_width)
  end.

(** One round of the loop of [add_fields]. *)
Definition add_field (hwqe default_swaccess default_hwaccess reg_resval : value)
  (cnt : nat) (field_dict : value) : M Field :=
  match field_dict with
  | VDict fd =>
      let field_name := match Py.get "name" fd with
                        | Some v => v
                        | None => VStr ("val" ++ Py.str cnt)%string
                        end in
      warn_unsupported_all unsupported_field_props fd
        (Field_scope field_name) ;;
      '(bit_offset, bit_width) <- lift (rbind (Py.item "bits" fd) bit_range) ;;
      inst_name <- lift (Py.lower_of field_name) ;;
      let F := instantiate_field inst_name inst_name bit_offset bit_width in
      let F := match Py.get "desc" fd with
               | Some desc => assign_field F "desc" (PObj desc)
               | None => F
               end in
      let swaccess := match Py.get "swaccess" fd with
                      | Some v => v
                      | None => default_swaccess
                      end in
      let hwaccess := match Py.get "hwaccess" fd with
                      | Some v => v
                      | None => default_hwaccess
                      end in
      '(sw, onwrite, onread) <- lift (sw_from_access swaccess) ;;
      let F := assign_field F "sw" (PObj sw) in
      let F := if Py.is_none onread then F
               else assign_field F "onread" (PObj onread) in
      let F := if Py.is_none onwrite then F
               else assign_field F "onwrite" (PObj onwrite) in
      '(hw, we) <- lift (hw_from_access hwaccess) ;;
      let F := assign_field F "hw" (PObj hw) in
      let F := if negb (Py.eq_str swaccess "ro"
                        && (Py.eq_str hwaccess "hwo"
                            || Py.eq_str hwaccess "hro"))
               then (if Py.is_none we then F
                     else assign_field F "we" (PObj we))
               else F in
      resval <- field_resval fd reg_resval bit_offset bit_width ;;
      let F := assign_field F "reset" (PObj resval) in
      let F := if Py.eq_str hwqe "true"
               then assign_field F "swmod" (PObj (VBool true))
               else F in
      if Py.contains "enum" fd then
        enum <- parse_enum fd ;;
        ret (assign_field F "encode" (PEnum enum))
      else ret F
  | _ => raise TypeError
  end.

Definition get_or_none (k : string) (d : Py.dict) : value :=
  match Py.get k d with Some v => v | None => VNone end.

(** [add_fields] *)
Definition add_fields (reg : Reg) (reg_dict : Py.dict)
  (default_swaccess default_hwaccess reg_resval : value) : M Reg :=
  let hwqe := get_or_none "hwqe" reg_dict in
  fields <- lift (rbind (Py.item "fields" reg_dict) Py.iter) ;;
  Fs <- for_each_enum
          (add_field hwqe default_swaccess default_hwaccess reg_resval)
          O fields ;;
  ret (add_fields_children reg Fs).

(** [create_register] *)
Definition create_register (reg_dict : value) : M Reg :=
  name <- lift (Py.subscript reg_dict "name") ;;
  d <- lift (Py.as_dict reg_dict) ;;
  warn_unsupported_all unsupported_reg_props d (Register_scope name) ;;
  inst_name <- lift (Py.lower_of name) ;;
  offset <- get_addroffset ;;
  let R := instantiate_reg inst_name inst_name offset in
  width <- get_regwidth ;;
  set_addroffset (offset + width / 8) ;;
  desc <- lift (Py.item "desc" d) ;;
  let R := assign_reg R "desc" (PObj desc) in
  let swaccess := get_or_none "swaccess" d in
  let hwaccess := get_or_none "hwaccess" d in
  let hwext := get_or_none "hwext" d in
  resval <- match Py.get "resval" d with
            | Some v => lift (hex_or_dec_to_dec v)
            | None => ret (VInt 0)
            end ;;
  let R := if Py.eq_str hwext "true" then set_external R else R in
  add_fields R d swaccess hwaccess resval.

(** The three field declarations [add_registers] derives from one
    interrupt: for the state, the enable and the test register. *)
Definition interrupt_fields (cnt : nat) (intr : value)
  : result (value * value * value) :=
  rbind (Py.subscript intr "name") (fun intr_name =>
  rbind (Py.subscript intr "desc") (fun desc =>
  rbind (Py.as_dict intr) (fun d =>
    let resval := match Py.get "default" d with
                  | Some v => v
                  | None => VInt 0
                  end in
    let base_field := [("name", intr_name); ("desc", desc);
                       ("bits", VStr (Py.str cnt))] in
    let status_field := Py.set "resval" resval base_field in
    let test_field := base_field in
    Ok (VDict status_field, VDict base_field, VDict test_field)))).

Fixpoint interrupt_fields_all (cnt : nat) (intrs : list value)
  : result (list (value * value * value)) :=
  match intrs with
  | [] => Ok []
  | intr :: intrs' =>
      rbind (interrupt_fields cnt intr) (fun f =>
      rbind (interrupt_fields_all (S cnt) intrs') (fun fs => Ok (f :: fs)))
  end.

(** The declarations of the three interrupt registers. *)
Definition intr_regs (fs : list (value * value * value)) : list value :=
  [ VDict [("name", VStr "intr_state");
           ("desc", VStr "Interrupt state register.");
           ("swaccess", VStr "rw1c"); ("hwaccess", VStr "hrw");
           ("fields", VList (map (fun f => fst (fst f)) fs))];
    VDict [("name", VStr "intr_enable");
           ("desc", VStr "Interrupt enable register.");
           ("swaccess", VStr "rw"); ("hwaccess", VStr "hro");
           ("fields", VList (map (fun f => snd (fst f)) fs))];
    VDict [("name", VStr "intr_test");
           ("desc", VStr "Interrupt test register.");
           ("swaccess", VStr "wo"); ("hwaccess", VStr "hro");
           ("hwext", VStr "true");
           ("fields", VList (map (fun f => snd f) fs))] ].

(** [add_registers] *)
Definition add_registers (node : Addrmap) (tree : Py.dict) : M Addrmap :=
  interrupt_list <- lift (Py.item "interrupt_list" tree) ;;
  n <- lift (Py.len interrupt_list) ;;
  (if (n <=? 32)%nat then ret tt
   else name <- lift (Py.item "name" tree) ;; raise (AssertionError name)) ;;
  intrs <- lift (Py.iter interrupt_list) ;;
  fs <- lift (interrupt_fields_all O intrs) ;;
  Rs <- for_each create_register (intr_regs fs) ;;
  let node := add_children node (map CReg Rs) in
  registers <- lift (rbind (Py.item "registers" tree) Py.iter) ;;
  Rs <- for_each create_register registers ;;
  ret (add_children node (map CReg Rs)).

(** [import_ip] *)
Definition import_ip (tree : Py.dict) : M unit :=
  warn_unsupported_all unsupported_addrmap_props tree Addrmap_scope ;;
  name <- lift (Py.item "name" tree) ;;
  (if Py.truthy name then ret tt
   else fatal "memoryMap is missing required tag 'name'") ;;
  let C_def := create_addrmap_definition name in
  let C_def := if Py.contains "human_name" tree
               then assign_addrmap C_def "name" (PObj name)
               else C_def in
  let C_def := match Py.get "one_paragraph_desc" tree with
               | Some desc => assign_addrmap C_def "desc" (PObj desc)
               | None =>
                   match Py.get "one_line_desc" tree with
                   | Some desc => assign_addrmap C_def "desc" (PObj desc)
                   | None => C_def
                   end
               end in
  '(C_def, tree) <- add_signals C_def tree ;;
  width <- match Py.get "regwidth" tree with
           | Some v => lift (Py.int v)
           | None => ret 32
           end ;;
  set_regwidth (Some width) ;;
  C_def <- add_registers C_def tree ;;
  register_root_component C_def.

(** [import_file], from the parsed document on. *)
Definition import_file (tree : Py.dict) : M unit :=
  set_regwidth None ;;
  set_addroffset 0 ;;
  import_ip tree.

End Importer.

(** ** The access tables and the registry of the specification *)

(** Modelled from the spec: the software-access table of [typemaps.py]
    (section 4.1): [ro] is read-only and [rw] read-write without side
    effect, [rw1c] is read-write with write-one-to-clear, [wo] is
    write-only; a token outside the table raises. *)
Definition spec_sw_from_access (token : value)
  : result (value * value * value) :=
  match token with
  | VStr "ro" => Ok (VSym "r", VNone, VNone)
  | VStr "rw" => Ok (VSym "rw", VNone, VNone)
  | VStr "rw1c" => Ok (VSym "rw", VSym "woclr", VNone)
  | VStr "wo" => Ok (VSym "w", VNone, VNone)
  | VStr s => Raise (KeyError s)
  | _ => Raise TypeError
  end.

(** Modelled from the spec: the hardware-access table of [typemaps.py]
    (section 4.1): [hro] is hardware-read-only, [hwo] hardware-write-only,
    [hrw] hardware-read-write; a writing access comes with a write-enable. *)
Definition spec_hw_from_access (token : value) : result (value * value) :=
  match token with
  | VStr "hro" => Ok (VSym "r", VNone)
  | VStr "hwo" => Ok (VSym "w", VBool true)
  | VStr "hrw" => Ok (VSym "rw", VBool true)
  | VStr s => Raise (KeyError s)
  | _ => Raise TypeError
  end.

(** Modelled from the spec: the property registry as far as signals go
    (section 3, SignalDescriptor): description, width, polarity, and the
    direction and role flags that [sig_props.rdl] adds. *)
Definition spec_lookup_property (prop : string) : bool :=
  existsb (String.eqb prop)
    ["name"; "desc"; "signalwidth"; "activelow"; "activehigh";
     "input"; "output"; "inout"; "clock"; "reset_signal"].

(** An importer that has imported nothing yet. *)
Definition new_importer : importer :=
  {| regwidth := None; addroffset := 0; warnings := []; roots := [] |}.

(** * Vocabulary of the properties *)

(** ** Texts and bit ranges *)

(** A string of decimal digits. *)
Fixpoint all_digits (s : string) : bool :=
  match s with
  | EmptyString => true
  | String c s' => Py.is_digit c && all_digits s'
  end.

(** The texts [bit_range] accepts: one or two parts around a colon, each
    an integer for [int]. *)
Definition bits_form (s : string) (offset width : Z) : Prop :=
  (exists a b hi lo,
      Py.split ":" s = [a; b] /\
      Py.int_of_string 10 a = Ok hi /\ Py.int_of_string 10 b = Ok lo /\
      offset = lo /\ width = (hi - lo) + 1)
  \/ (exists a n,
      Py.split ":" s = [a] /\ Py.int_of_string 10 a = Ok n /\
      offset = n /\ width = 1).

(** ** Computations that only send warnings *)

(** The state after more warnings have been sent. *)
Definition add_warnings (st : importer) (ws : list message) : importer :=
  {| regwidth := regwidth st; addroffset := addroffset st;
     warnings := warnings st ++ ws; roots := roots st |}.

(** The computation that raises, or returns a value and sends warnings,
    whatever the state. *)
Definition emit {A} (r : result (A * list message)) : M A :=
  fun st => match r with
            | Ok (a, ws) => Ok (a, add_warnings st ws)
            | Raise e => Raise e
            end.

(** A computation that only reads its arguments and sends warnings: it
    raises or returns the same on every importer state, and leaves the
    state as it was but for the warnings it appends. *)
Definition writer {A} (m : M A) : Prop :=
  exists r, forall st, m st = emit r st.

(** ** Fields *)

(** The name a field declaration goes by: its [name], else [val<cnt>]. *)
Definition field_name_of (fd : Py.dict) (cnt : nat) : value :=
  match Py.get "name" fd with
  | Some v => v
  | None => VStr ("val" ++ Py.str cnt)%string
  end.

(** The access token in force for a field: its own, else the register's. *)
Definition effective (k : string) (fd : Py.dict) (default : value) : value :=
  match Py.get k fd with Some v => v | None => default end.

(** A property that is assigned unless its value is [None]. *)
Definition opt_prop (k : string) (v : value) : properties :=
  if Py.is_none v then [] else [(k, PObj v)].

(** The write-enable of a field, as [add_fields] decides it. *)
Definition we_props (swaccess hwaccess we : value) : properties :=
  if Py.eq_str swaccess "ro"
     && (Py.eq_str hwaccess "hwo" || Py.eq_str hwaccess "hro")
  then []
  else opt_prop "we" we.

(** The properties [add_fields] assigns to a field, in order. *)
Definition field_props (fd : Py.dict) (hwqe swaccess hwaccess : value)
  (swv onwrite onread hwv we resval : value) (encode : properties)
  : properties :=
  match Py.get "desc" fd with
  | Some desc => [("desc", PObj desc)]
  | None => []
  end
  ++ [("sw", PObj swv)] ++ opt_prop "onread" onread
  ++ opt_prop "onwrite" onwrite
  ++ [("hw", PObj hwv)] ++ we_props swaccess hwaccess we
  ++ [("reset", PObj resval)]
  ++ (if Py.eq_str hwqe "true" then [("swmod", PObj (VBool true))] else [])
  ++ encode.

(** The reset value of a declared [resval]: [x] stands for 0, the rest is
    read by [hex_or_dec_to_dec]. *)
Definition reset_value (v : value) : result value :=
  hex_or_dec_to_dec (if Py.eq_str v "x" then VInt 0 else v).

(** A field whose access properties are what the tables give for the two
    tokens: the software access with its side effects on read and on
    write, each assigned when the table has one, and the hardware access
    with its write-enable, assigned when the table has one and the pair of
    tokens is not [ro] with [hwo] or [hro]. *)
Definition has_access (sw : value -> result (value * value * value))
  (hw : value -> result (value * value)) (F : Field)
  (swaccess hwaccess : value) : Prop :=
  exists swv onwrite onread hwv we,
    sw swaccess = Ok (swv, onwrite, onread) /\
    hw hwaccess = Ok (hwv, we) /\
    property "sw" (f_properties F) = Some (PObj swv) /\
    property "onread" (f_properties F)
    = (if Py.is_none onread then None else Some (PObj onread)) /\
    property "onwrite" (f_properties F)
    = (if Py.is_none onwrite then None else Some (PObj onwrite)) /\
    property "hw" (f_properties F) = Some (PObj hwv) /\
    property "we" (f_properties F)
    = (if Py.eq_str swaccess "ro"
          && (Py.eq_str hwaccess "hwo" || Py.eq_str hwaccess "hro")
       then None
       else if Py.is_none we then None else Some (PObj we)).

(** ** Registers and their offsets *)

(** The reset value of a register declaration: its [resval] read by
    [hex_or_dec_to_dec], 0 when it has none. *)
Definition register_resval (d : Py.dict) : result value :=
  match Py.get "resval" d with
  | Some v => hex_or_dec_to_dec v
  | None => Ok (VInt 0)
  end.

(** The state a register leaves behind: the offset counter moved on by the
    register width in bytes, the warnings appended. *)
Definition after_register (st : importer) (w : Z) (ws : list message)
  : importer :=
  {| regwidth := Some w; addroffset := addroffset st + w / 8;
     warnings := warnings st ++ ws; roots := roots st |}.

(** Registers placed one after the other from offset [o], [d] apart. *)
Fixpoint place (o d : Z) (mks : list (Z -> Reg)) : list Reg :=
  match mks with
  | [] => []
  | mk :: mks' => mk o :: place (o + d) d mks'
  end.

(** The state [n] registers leave behind. *)
Definition after_registers (st : importer) (w : Z) (n : nat)
  (ws : list message) : importer :=
  {| regwidth := Some w; addroffset := addroffset st + Z.of_nat n * (w / 8);
     warnings := warnings st ++ ws; roots := roots st |}.

(** A register, as a function of the offset it is instantiated at. *)
Definition placed_at_offset (mk : Z -> Reg) : Prop :=
  forall o, r_addr_offset (mk o) = o.

(** ** Interrupts *)

(** The default an interrupt declares, 0 when it declares none. *)
Definition declared_default (d : Py.dict) : value :=
  match Py.get "default" d with
  | Some v => v
  | None => VInt 0
  end.

(** The field declarations of one interrupt. *)
Definition base_field (name desc : value) (cnt : nat) : Py.dict :=
  [("name", name); ("desc", desc); ("bits", VStr (Py.str cnt))].

Definition status_field (name desc : value) (cnt : nat) (resval : value)
  : Py.dict :=
  [("name", name); ("desc", desc); ("bits", VStr (Py.str cnt));
   ("resval", resval)].

Definition fields_of_interrupt (d : Py.dict) (name desc : value) (cnt : nat)
  : value * value * value :=
  (VDict (status_field name desc cnt (declared_default d)),
   VDict (base_field name desc cnt), VDict (base_field name desc cnt)).

(** An interrupt the importer can take: a mapping with a string [name], a
    [desc], and a default that reads as a reset value if there is one. *)
Definition wf_interrupt (intr : value) : Prop :=
  exists d name desc r,
    intr = VDict d /\ Py.get "name" d = Some (VStr name) /\
    Py.get "desc" d = Some desc /\ reset_value (declared_default d) = Ok r.

(** A field that is the bit of an interrupt: one bit at the interrupt's
    index, under the lowercased name, with the interrupt's description. *)
Definition interrupt_bit (F : Field) (i : nat) (name : string) (desc : value)
  : Prop :=
  f_inst_name F = Py.lower name /\ f_type_name F = Py.lower name /\
  f_bit_offset F = Z.of_nat i /\ f_bit_width F = 1 /\
  property "desc" (f_properties F) = Some (PObj desc).

(** ** Signals *)

(** The entry as [create_signal] leaves it: a width of 1 under
    [signalwidth] when the entry declares no [width], and the direction
    flag when the entry does not have it. *)
Definition written_entry (d : Py.dict) (direction : string) : Py.dict :=
  let d := if Py.contains "width" d then d
           else Py.set "signalwidth" (VInt 1) d in
  if Py.contains direction d then d else Py.set direction (VBool true) d.

(** One round of the loop of [create_signal] that forwards the entry's
    keys. *)
Definition forward (known : string -> bool) (sig : Signal)
  (kv : string * value) : Signal :=
  if known (fst kv) && negb (String.eqb (fst kv) "name")
  then assign_signal sig (fst kv) (PObj (snd kv))
  else sig.

(** ** Documents *)

(** The register width of a document: its [regwidth] key, 32 by default. *)
Definition document_regwidth (tree : Py.dict) : result Z :=
  match Py.get "regwidth" tree with
  | Some v => Py.int v
  | None => Ok 32
  end.

(** The root definition before its children are added. *)
Definition root_definition (tree : Py.dict) (name : value) : Addrmap :=
  let C_def := create_addrmap_definition name in
  let C_def := if Py.contains "human_name" tree
               then assign_addrmap C_def "name" (PObj name)
               else C_def in
  match Py.get "one_paragraph_desc" tree with
  | Some desc => assign_addrmap C_def "desc" (PObj desc)
  | None =>
      match Py.get "one_line_desc" tree with
      | Some desc => assign_addrmap C_def "desc" (PObj desc)
      | None => C_def
      end
  end.

(** The state after a root component has been registered. *)
Definition with_root (st : importer) (C : Addrmap) : importer :=
  {| regwidth := regwidth st; addroffset := addroffset st;
     warnings := warnings st; roots := roots st ++ [C] |}.

(** ** Unsupported keys *)

(** The keys of a list that a mapping has, in the order of the list. *)
Definition present_keys (keys : list string) (tree : Py.dict)
  : list string :=
  filter (fun key => Py.contains key tree) keys.

(** ** Hexadecimal text *)

(** A string of hexadecimal digits, and the number it writes after [acc]. *)
Definition is_hex_digit (c : ascii) : bool :=
  match Py.digit_value c with
  | Some d => d <? 16
  | None => false
  end.

Fixpoint all_hex (s : string) : bool :=
  match s with
  | EmptyString => true
  | String c s' => is_hex_digit c && all_hex s'
  end.

Fixpoint hex_number (acc : Z) (s : string) : Z :=
  match s with
  | EmptyString => acc
  | String c s' =>
      hex_number (acc * 16 + match Py.digit_value c with
                             | Some d => d
                             | None => 0
                             end) s'
  end.

(** ** Enumerations *)

(** A name that starts with a digit, and the name [parse_enum] gives the
    member declared under [s]. *)
Definition leading_digit (s : string) : bool :=
  match s with
  | String c _ => Py.is_digit c
  | EmptyString => false
  end.

Definition member_name (s : string) : string :=
  Py.lower (if leading_digit s then ("_" ++ s)%string else s).

(** ** Clocking signals *)

(** A flag property: [True] under [k] when the registry has [k] and the
    importer sets it. *)
Definition flag (known : string -> bool) (k : string) (on : bool)
  : option prop_value :=
  if known k && on then Some (PObj (VBool true)) else None.

(** The signal of one [role: name] pair of a [clocking] entry: a one-bit
    input named after the pair's value; a [clock] role makes it a clock, a
    [reset] role a reset that is active low under the name [rst_ni] and
    active high under any other. *)
Definition clocking_signal (known : string -> bool) (kv : string * value)
  (sig : Signal) : Prop :=
  let ps := s_properties sig in
  let reset := String.eqb (fst kv) "reset" in
  s_type_name sig = snd kv /\ s_inst_name sig = Named (snd kv) /\
  property "name" ps = None /\
  property "input" ps = flag known "input" true /\
  property "signalwidth" ps
  = (if known "signalwidth" then Some (PObj (VInt 1)) else None) /\
  property "clock" ps = flag known "clock" (String.eqb (fst kv) "clock") /\
  property "reset_signal" ps = flag known "reset_signal" reset /\
  property "activelow" ps
  = flag known "activelow" (reset && Py.eq_str (snd kv) "rst_ni") /\
  property "activehigh" ps
  = flag known "activehigh" (reset && negb (Py.eq_str (snd kv) "rst_ni")).

(** ** Signals of a document *)

(** The signal made for an entry of a signal list: typed by the entry's
    [name], and named by it, or by the port name of an interrupt. *)
Definition signal_of_entry (sig_type : string) (entry : value)
  (sig : Signal) : Prop :=
  exists d name,
    entry = VDict d /\ Py.get "name" d = Some name /\
    s_type_name sig = name /\
    s_inst_name sig = (if String.eqb sig_type "interrupt"
                       then IntrPort name else Named name).

(** The signals of one list of the document: none when the document has no
    such list, else one per entry, in order. *)
Definition signals_of_list (list_type sig_type : string) (tree : Py.dict)
  (sigs : list Signal) : Prop :=
  match Py.get list_type tree with
  | None => sigs = []
  | Some v =>
      exists entries,
        Py.iter v = Ok entries /\
        Forall2 (signal_of_entry sig_type) entries sigs
  end.

(** An entry of a signal list and what [create_signal] leaves of it. *)
Definition written (direction : string) (entry entry' : value) : Prop :=
  exists d, entry = VDict d /\ entry' = VDict (written_entry d direction).

(** * Documents to try the importer on *)

(** The end-to-end document of the specification (section 8). *)
Definition uart : Py.dict :=
  [("name", VStr "uart"); ("regwidth", VInt 32);
   ("interrupt_list",
    VList [VDict [("name", VStr "tx_done"); ("desc", VStr "d")];
           VDict [("name", VStr "rx_full"); ("desc", VStr "d");
                  ("default", VInt 1)]]);
   ("registers",
    VList [VDict [("name", VStr "ctrl"); ("desc", VStr "d");
                  ("swaccess", VStr "rw"); ("hwaccess", VStr "hro");
                  ("fields",
                   VList [VDict [("name", VStr "enable"); ("desc", VStr "d");
                                 ("bits", VStr "0")]])]])].

(** The same block described with a register width of 4 bits. *)
Definition cramped : Py.dict := Py.set "regwidth" (VInt 4) uart.

(** An importer in the middle of a document of register width 32. *)
Definition ready : importer :=
  {| regwidth := Some 32; addroffset := 0; warnings := []; roots := [] |}.

(** Documents with [n] interrupts and no user register. *)
Definition irq : value := VDict [("name", VStr "irq"); ("desc", VStr "d")].

Definition crowded (n : nat) : Py.dict :=
  [("name", VStr "crowd"); ("interrupt_list", VList (repeat irq n));
   ("registers", VList [])].

(** A document whose interrupt is named in upper case. *)
Definition shouting : Py.dict :=
  [("name", VStr "shout");
   ("interrupt_list",
    VList [VDict [("name", VStr "TX_Done"); ("desc", VStr "d")]]);
   ("registers", VList [])].

(** A register declaration with a reset value, a nameless read-only field
    that hardware writes, and a field with an enumeration. *)
Definition status_reg : value :=
  VDict [("name", VStr "STATUS"); ("desc", VStr "d");
         ("swaccess", VStr "ro"); ("hwaccess", VStr "hwo");
         ("resval", VStr "0xA5");
         ("fields",
          VList [VDict [("bits", VStr "7:4")];
                 VDict [("name", VStr "Mode"); ("bits", VStr "1:0");
                        ("swaccess", VStr "rw"); ("hwaccess", VStr "hrw");
                        ("resval", VStr "x");
                        ("enum", VList [VDict [("name", VStr "0_ERR");
                                               ("value", VStr "0");
                                               ("desc", VStr "d")]])]])].

(** What the importer makes of them. *)
Definition uart_imported : importer :=
  Eval vm_compute in
    match import_file spec_sw_from_access spec_hw_from_access
            spec_lookup_property uart new_importer with
    | Ok (_, st) => st
    | Raise _ => new_importer
    end.

Definition status_made : Reg :=
  Eval vm_compute in
    match create_register spec_sw_from_access spec_hw_from_access
            status_reg ready with
    | Ok (R, _) => R
    | Raise _ => instantiate_reg EmptyString EmptyString 0
    end.

Definition status_left : importer :=
  Eval vm_compute in
    match create_register spec_sw_from_access spec_hw_from_access
            status_reg ready with
    | Ok (_, st) => st
    | Raise _ => ready
    end.

(** Documents without a name, and with an empty one. *)
Definition nameless : Py.dict :=
  [("interrupt_list", VList []); ("registers", VList [])].

Definition empty_name : Py.dict :=
  [("name", VStr EmptyString); ("interrupt_list", VList []);
   ("registers", VList [])].

(** An input that declares a width, and one that does not. *)
Definition wide_input : value :=
  VDict [("name", VStr "rx"); ("width", VInt 8)].

Definition plain_input : value :=
  VDict [("name", VStr "rx"); ("desc", VStr "d")].

(** A register and a field whose reset value is [x]. *)
Definition undefined_reg : value :=
  VDict [("name", VStr "r"); ("desc", VStr "d"); ("resval", VStr "x");
         ("fields", VList [])].

Definition undefined_field : value :=
  VDict [("name", VStr "r"); ("desc", VStr "d");
         ("swaccess", VStr "rw"); ("hwaccess", VStr "hro");
         ("fields", VList [VDict [("bits", VStr "0"); ("resval", VStr "x")]])].

(** An interrupt that declares a default. *)
Definition late_irq : Py.dict :=
  [("name", VStr "late"); ("desc", VStr "d"); ("default", VInt 1)].

(** A register outside the register file, whose writes hardware is told
    of. *)
Definition external_reg : value :=
  VDict [("name", VStr "test"); ("desc", VStr "d");
         ("swaccess", VStr "rw1c"); ("hwaccess", VStr "hro");
         ("hwext", VStr "true"); ("hwqe", VStr "true");
         ("fields", VList [VDict [("bits", VStr "0")]])].

(** Register declarations without a description, and without fields. *)
Definition no_desc_reg : Py.dict :=
  [("name", VStr "r"); ("fields", VList [])].

Definition no_fields_reg : Py.dict :=
  [("name", VStr "r"); ("desc", VStr "d")].

(** Fields with an enumeration: one with a name, one without. *)
Definition mode_field : Py.dict :=
  [("name", VStr "Mode"); ("bits", VStr "1:0");
   ("enum", VList [VDict [("name", VStr "0_ERR"); ("value", VStr "0");
                          ("desc", VStr "d")];
                   VDict [("name", VStr "Ok"); ("value", VInt 1);
                          ("desc", VStr "d")]])].

Definition nameless_enum_field : Py.dict :=
  [("bits", VStr "1:0"); ("enum", VList [])].

(** A document with signals of several lists, a display name and a key
    the importer does not support. *)
Definition wired : Py.dict :=
  [("name", VStr "wired"); ("human_name", VStr "Wired block");
   ("one_line_desc", VStr "one line"); ("cip_id", VInt 1);
   ("clocking", VList [VDict [("clock", VStr "clk_i");
                              ("reset", VStr "rst_ni")]]);
   ("available_input_list", VList [VDict [("name", VStr "rx")]]);
   ("available_output_list", VList [VDict [("name", VStr "tx")]]);
   ("interrupt_list", VList [VDict late_irq]);
   ("registers", VList [])].


(** * Properties *)

(** ** The built-ins at work *)

Example split_bits : Py.split ":" "31:16" = ["31"; "16"].
Proof. reflexivity. Qed.

Example split_single : Py.split ":" "7" = ["7"].
Proof. reflexivity. Qed.

Example int_dec : Py.int (VStr " +1_000 ") = Ok 1000.
Proof. reflexivity. Qed.

Example int_hex : Py.int_of_string 16 "0x_fF" = Ok 255.
Proof. reflexivity. Qed.

Example int_bad : Py.int (VStr "x") = Raise ValueError.
Proof. reflexivity. Qed.

Example int_bad_us : Py.int (VStr "1__0") = Raise ValueError.
Proof. reflexivity. Qed.

Example str_32 : Py.str 32 = "32".
Proof. reflexivity. Qed.

Example lower_mixed : Py.lower "INTR_State" = "intr_state".
Proof. reflexivity. Qed.

(** ** Python built-ins *)

Lemma get_set (k k' : string) (v : value) (d : Py.dict) :
  Py.get k (Py.set k' v d) = if String.eqb k k' then Some v else Py.get k d.
Proof.
  induction d as [|[k0 v0] d IH]; simpl.
  - destruct (String.eqb k k'); reflexivity.
  - destruct (String.eqb k' k0) eqn:E0; simpl.
    + apply String.eqb_eq in E0; subst k0.
      destruct (String.eqb k k'); reflexivity.
    + rewrite IH.
      destruct (String.eqb k k') eqn:E; [|reflexivity].
      apply String.eqb_eq in E; subst k'. now rewrite E0.
Qed.

Lemma contains_set (k k' : string) (v : value) (d : Py.dict) :
  Py.contains k (Py.set k' v d) = String.eqb k k' || Py.contains k d.
Proof.
  unfold Py.contains. rewrite get_set.
  destruct (String.eqb k k'); reflexivity.
Qed.



Lemma lower_app (s t : string) :
  Py.lower (s ++ t) = (Py.lower s ++ Py.lower t)%string.
Proof.
  induction s as [|c s IH]; simpl; [reflexivity|]. now rewrite IH.
Qed.


(** *** Decimal text *)

Lemma digit_char_spec (d : Z) :
  0 <= d < 10 ->
  Py.digit_value (Py.digit_char d) = Some d /\
  Py.is_digit (Py.digit_char d) = true.
Proof.
  intros H.
  assert (d = 0 \/ d = 1 \/ d = 2 \/ d = 3 \/ d = 4 \/ d = 5 \/ d = 6 \/
          d = 7 \/ d = 8 \/ d = 9) as C by lia.
  repeat (destruct C as [->|C]; [split; reflexivity|]).
  subst d; split; reflexivity.
Qed.

Lemma is_digit_facts (c : ascii) :
  Py.is_digit c = true ->
  Ascii.eqb c "_" = false /\ Ascii.eqb c ":" = false /\
  Py.is_space c = false /\ Ascii.eqb c "+" = false /\
  Ascii.eqb c "-" = false /\
  exists d, Py.digit_value c = Some d /\ 0 <= d < 10.
Proof.
  destruct c as [[] [] [] [] [] [] [] []]; intros H;
    try (vm_compute in H; discriminate H);
    repeat (split; [reflexivity|]);
    eexists; (split; [vm_compute; reflexivity|lia]).
Qed.

Lemma scan_digit (a : Z) (b : bool) (c : ascii) (rest : string) :
  Py.is_digit c = true ->
  exists d, Py.digit_value c = Some d /\ 0 <= d < 10 /\
    Py.scan_digits 10 b a (String c rest)
    = Py.scan_digits 10 false (a * 10 + d) rest.
Proof.
  intros H.
  destruct (is_digit_facts c H) as (Hus & _ & _ & _ & _ & d & Hd & Hr).
  exists d. repeat split; try lia; try assumption.
  simpl. rewrite Hus, Hd.
  destruct (d <? 10) eqn:E; [reflexivity|]. apply Z.ltb_ge in E. lia.
Qed.

(** The digits [str_digits] writes in front of its accumulator, and how the
    scan of [int] reads them back. *)
Lemma str_digits_scan (fuel : nat) :
  forall (n : Z) (acc : string),
    0 <= n -> (Z.to_nat n < fuel)%nat ->
    exists ds c0,
      Py.str_digits fuel n acc = (String c0 ds ++ acc)%string /\
      all_digits (String c0 ds) = true /\
      forall a b rest,
        exists k, 0 <= k /\
        Py.scan_digits 10 b a (String c0 ds ++ rest)
        = Py.scan_digits 10 false (a * 10 ^ k + n) rest.
Proof.
  induction fuel as [|fuel IH]; intros n acc Hn Hf; [lia|].
  cbn [Py.str_digits]. destruct (n <? 10) eqn:E.
  - apply Z.ltb_lt in E. rewrite Z.mod_small by lia.
    destruct (digit_char_spec n ltac:(lia)) as [Hv Hd].
    exists EmptyString, (Py.digit_char n). repeat split.
    + simpl. now rewrite Hd.
    + intros a b rest. exists 1. split; [lia|].
      destruct (scan_digit a b _ rest Hd) as (d & Hd' & _ & Hs).
      simpl. simpl in Hs. rewrite Hs. rewrite Hv in Hd'.
      injection Hd' as <-. f_equal.
  - apply Z.ltb_ge in E.
    assert (0 <= n mod 10 < 10) as Hm by (apply Z.mod_pos_bound; lia).
    destruct (digit_char_spec _ Hm) as [Hv Hd].
    assert (0 <= n / 10) as Hq by (apply Z.div_pos; lia).
    assert (n / 10 < n) as Hlt by (apply Z.div_lt; lia).
    destruct (IH (n / 10) (String (Py.digit_char (n mod 10)) acc) Hq
                ltac:(lia)) as (ds & c0 & Heq & Hall & Hscan).
    exists (ds ++ String (Py.digit_char (n mod 10)) EmptyString)%string, c0.
    repeat split.
    + rewrite Heq. simpl. f_equal.
      clear. induction ds as [|c ds IHd]; simpl; [reflexivity|].
      now rewrite IHd.
    + simpl in Hall |- *. apply andb_true_iff in Hall as [H0 Hds].
      rewrite H0. simpl. clear - Hds Hd.
      induction ds as [|c ds IHd]; simpl.
      * now rewrite Hd.
      * simpl in Hds. apply andb_true_iff in Hds as [Hc Hds].
        rewrite Hc. simpl. auto.
    + intros a b rest.
      destruct (Hscan a b (String (Py.digit_char (n mod 10)) rest))
        as (k & Hk & Hs).
      exists (k + 1). split; [lia|].
      replace (String c0 (ds ++ String (Py.digit_char (n mod 10)) EmptyString)
               ++ rest)%string
        with (String c0 ds ++ String (Py.digit_char (n mod 10)) rest)%string.
      2:{ simpl. f_equal. clear.
          induction ds as [|c ds IHd]; simpl; [reflexivity|]. now rewrite IHd. }
      rewrite Hs.
      destruct (scan_digit (a * 10 ^ k + n / 10) false _ rest Hd)
        as (d & Hd' & _ & Hs').
      rewrite Hs'. rewrite Hv in Hd'. injection Hd' as <-.
      f_equal. rewrite Z.pow_add_r by lia.
      pose proof (Z.div_mod n 10 ltac:(lia)). lia.
Qed.

Lemma str_shape (n : nat) :
  exists ds c0,
    Py.str n = String c0 ds /\ all_digits (String c0 ds) = true /\
    forall a b rest,
      exists k, 0 <= k /\
      Py.scan_digits 10 b a (String c0 ds ++ rest)
      = Py.scan_digits 10 false (a * 10 ^ k + Z.of_nat n) rest.
Proof.
  unfold Py.str.
  destruct (str_digits_scan (S n) (Z.of_nat n) EmptyString ltac:(lia)
              ltac:(lia)) as (ds & c0 & Heq & Hall & Hscan).
  exists ds, c0. repeat split; try assumption.
  rewrite Heq. simpl. f_equal.
  clear. induction ds as [|c ds IHd]; simpl; [reflexivity|]. now rewrite IHd.
Qed.

Lemma all_digits_str (n : nat) : all_digits (Py.str n) = true.
Proof.
  destruct (str_shape n) as (ds & c0 & -> & H & _). exact H.
Qed.

(** [int] on a text that starts with a digit: the scan decides. *)
Lemma int_of_string_digit_first (c0 : ascii) (ds : string) :
  Py.is_digit c0 = true ->
  Py.int_of_string 10 (String c0 ds)
  = match Py.scan_digits 10 false 0 (String c0 ds) with
    | None => Raise ValueError
    | Some (z, rest) =>
        if (String.length rest =? String.length (String c0 ds))%nat
        then Raise ValueError
        else match Py.skip_space rest with
             | EmptyString => Ok (1 * z)
             | _ => Raise ValueError
             end
    end.
Proof.
  destruct c0 as [[] [] [] [] [] [] [] []]; intros H;
    try (vm_compute in H; discriminate H); reflexivity.
Qed.

(** [int(str(n)) == n] *)
Lemma int_of_string_str (n : nat) :
  Py.int_of_string 10 (Py.str n) = Ok (Z.of_nat n).
Proof.
  destruct (str_shape n) as (ds & c0 & Heq & Hall & Hscan).
  rewrite Heq. simpl in Hall. apply andb_true_iff in Hall as [H0 Hds].
  rewrite (int_of_string_digit_first _ _ H0).
  destruct (Hscan 0 false EmptyString) as (k & Hk & Hs).
  replace (String c0 ds ++ EmptyString)%string with (String c0 ds) in Hs.
  2:{ simpl. f_equal. clear.
      induction ds as [|c ds IHd]; simpl; [reflexivity|]. now rewrite <- IHd. }
  rewrite Hs. simpl. f_equal. now destruct (Z.of_nat n).
Qed.

Lemma split_no_sep (sep : ascii) (s : string) :
  (forall c, Ascii.eqb c sep = true -> Py.is_digit c = false) ->
  all_digits s = true -> Py.split sep s = [s].
Proof.
  intros Hsep. induction s as [|c s IH]; simpl; [reflexivity|].
  intros H. apply andb_true_iff in H as [Hc Hs].
  destruct (Ascii.eqb c sep) eqn:E.
  - apply Hsep in E. congruence.
  - now rewrite IH.
Qed.

Lemma split_app_sep (sep : ascii) (s t : string) :
  (forall c, Ascii.eqb c sep = true -> Py.is_digit c = false) ->
  all_digits s = true ->
  Py.split sep (s ++ String sep t) = s :: Py.split sep t.
Proof.
  intros Hsep. induction s as [|c s IH]; simpl.
  - now rewrite Ascii.eqb_refl.
  - intros H. apply andb_true_iff in H as [Hc Hs].
    destruct (Ascii.eqb c sep) eqn:E.
    + apply Hsep in E. congruence.
    + now rewrite IH.
Qed.

Lemma colon_not_digit (c : ascii) :
  Ascii.eqb c ":" = true -> Py.is_digit c = false.
Proof.
  intros H. apply Ascii.eqb_eq in H. now subst c.
Qed.

(** *** Bit ranges *)

Lemma bit_range_index (n : nat) :
  bit_range (VStr (Py.str n)) = Ok (Z.of_nat n, 1).
Proof.
  unfold bit_range.
  rewrite (split_no_sep ":" _ colon_not_digit (all_digits_str n)).
  simpl. now rewrite int_of_string_str.
Qed.

Lemma bit_range_high_low (hi lo : nat) :
  bit_range (VStr (Py.str hi ++ String ":" (Py.str lo)))
  = Ok (Z.of_nat lo, (Z.of_nat hi - Z.of_nat lo) + 1).
Proof.
  unfold bit_range.
  rewrite (split_app_sep ":" _ _ colon_not_digit (all_digits_str hi)).
  rewrite (split_no_sep ":" _ colon_not_digit (all_digits_str lo)).
  simpl. now rewrite !int_of_string_str.
Qed.

Lemma bit_range_forms (s : string) (offset width : Z) :
  bit_range (VStr s) = Ok (offset, width) <-> bits_form s offset width.
Proof.
  unfold bit_range, bits_form. split.
  - destruct (Py.split ":" s) as [|a [|b [|c l]]]; simpl.
    + discriminate.
    + destruct (Py.int_of_string 10 a) as [n|] eqn:Ea; simpl; [|discriminate].
      intros H; injection H as <- <-. right. now exists a, n.
    + destruct (Py.int_of_string 10 a) as [hi|] eqn:Ea; simpl; [|discriminate].
      destruct (Py.int_of_string 10 b) as [lo|] eqn:Eb; simpl; [|discriminate].
      intros H; injection H as <- <-. left. now exists a, b, hi, lo.
    + destruct (Py.int_of_string 10 a); simpl; [|discriminate].
      destruct (Py.int_of_string 10 b); simpl; [|discriminate].
      destruct (Py.int_of_string 10 c); simpl; [|discriminate].
      destruct (map_result (Py.int_of_string 10) l); simpl; discriminate.
  - intros [(a & b & hi & lo & -> & Ha & Hb & -> & ->)
           |(a & n & -> & Ha & -> & ->)]; simpl.
    + now rewrite Ha, Hb.
    + now rewrite Ha.
Qed.

(** ** The state-and-exception monad *)

Lemma bind_ok {A B} (m : M A) (k : A -> M B) (st st' : importer) (b : B) :
  bind m k st = Ok (b, st') ->
  exists a st1, m st = Ok (a, st1) /\ k a st1 = Ok (b, st').
Proof.
  unfold bind. destruct (m st) as [[a st1]|e]; [|discriminate].
  intros H. now exists a, st1.
Qed.

Lemma bind_made {A B} (m : M A) (k : A -> M B) (st st1 : importer) (a : A) :
  m st = Ok (a, st1) -> bind m k st = k a st1.
Proof.
  intros H. unfold bind. now rewrite H.
Qed.

Lemma lift_ok {A} (r : result A) (st st' : importer) (a : A) :
  lift r st = Ok (a, st') -> r = Ok a /\ st' = st.
Proof.
  unfold lift. destruct r; [|discriminate].
  intros H; injection H as <- <-. now split.
Qed.

Lemma rbind_ok {A B} (r : result A) (k : A -> result B) (b : B) :
  rbind r k = Ok b -> exists a, r = Ok a /\ k a = Ok b.
Proof.
  destruct r as [a|e]; simpl; [|discriminate]. intros H. now exists a.
Qed.

Lemma add_warnings_nil (st : importer) : add_warnings st [] = st.
Proof.
  destruct st; unfold add_warnings; simpl. now rewrite app_nil_r.
Qed.

Lemma add_warnings_app (st : importer) (ws ws' : list message) :
  add_warnings (add_warnings st ws) ws' = add_warnings st (ws ++ ws').
Proof.
  unfold add_warnings; simpl. now rewrite app_assoc.
Qed.

Lemma writer_ret {A} (a : A) : writer (ret a).
Proof.
  exists (Ok (a, [])). intros st. unfold ret, emit.
  now rewrite add_warnings_nil.
Qed.

Lemma writer_raise {A} (e : error) : writer (@raise A e).
Proof. now exists (Raise e). Qed.

Lemma writer_lift {A} (r : result A) : writer (lift r).
Proof.
  destruct r as [a|e]; [apply (writer_ret a)|now exists (Raise e)].
Qed.

Lemma writer_warning (m : message) : writer (warning m).
Proof. now exists (Ok (tt, [m])). Qed.

Lemma writer_bind {A B} (m : M A) (k : A -> M B) :
  writer m -> (forall a, writer (k a)) -> writer (bind m k).
Proof.
  intros [[[a ws]|e] Hm] Hk.
  - destruct (Hk a) as [[[b ws']|e] Hka].
    + exists (Ok (b, ws ++ ws')). intros st. unfold bind.
      rewrite Hm. simpl. rewrite Hka. simpl. now rewrite add_warnings_app.
    + exists (Raise e). intros st. unfold bind.
      rewrite Hm. simpl. now rewrite Hka.
  - exists (Raise e). intros st. unfold bind. now rewrite Hm.
Qed.

Lemma writer_for_each {A B} (body : A -> M B) (l : list A) :
  (forall x, writer (body x)) -> writer (for_each body l).
Proof.
  intros Hb. induction l as [|x l IH]; simpl.
  - apply writer_ret.
  - apply writer_bind; [apply Hb|]. intros y.
    apply writer_bind; [apply IH|]. intros ys. apply writer_ret.
Qed.

Lemma writer_for_each_enum {A B} (body : nat -> A -> M B) (l : list A) :
  (forall c x, writer (body c x)) ->
  forall cnt, writer (for_each_enum body cnt l).
Proof.
  intros Hb. induction l as [|x l IH]; intros cnt; simpl.
  - apply writer_ret.
  - apply writer_bind; [apply Hb|]. intros y.
    apply writer_bind; [apply IH|]. intros ys. apply writer_ret.
Qed.

Ltac splits := repeat match goal with |- _ /\ _ => split end.

Ltac writer_step :=
  match goal with
  | |- writer (bind _ _) => apply writer_bind; [|intros]
  | |- writer (ret _) => apply writer_ret
  | |- writer (lift _) => apply writer_lift
  | |- writer (raise _) => apply writer_raise
  | |- writer (fatal _) => apply writer_raise
  | |- writer (warning _) => apply writer_warning
  | |- writer (for_each _ _) => apply writer_for_each; intros
  | |- writer (for_each_enum _ _ _) => apply writer_for_each_enum; intros
  | |- writer (if ?b then _ else _) => destruct b
  | |- writer (match ?x with _ => _ end) => destruct x
  end.

(** What a successful [for_each_enum] returns: a result per element, each
    made by the body at the element's index. *)
Lemma for_each_enum_ok {A B} (body : nat -> A -> M B) (l : list A) :
  forall cnt st ys st',
    for_each_enum body cnt l st = Ok (ys, st') ->
    List.length ys = List.length l /\
    forall i y, nth_error ys i = Some y ->
      exists x sti sti', nth_error l i = Some x /\
        body (cnt + i)%nat x sti = Ok (y, sti').
Proof.
  induction l as [|x l IH]; intros cnt st ys st' H; simpl in H.
  - injection H as <- <-. split; [reflexivity|].
    intros [|i] y Hy; discriminate.
  - apply bind_ok in H as (y0 & st1 & H0 & H).
    apply bind_ok in H as (ys0 & st2 & H1 & H).
    injection H as <- <-.
    apply IH in H1 as [Hlen Hnth]. split; [simpl; now rewrite Hlen|].
    intros [|i] y Hy; simpl in Hy.
    + injection Hy as <-. exists x, st, st1. rewrite Nat.add_0_r. now split.
    + destruct (Hnth i y Hy) as (x' & sti & sti' & Hx & Hb).
      exists x', sti, sti'. split; [exact Hx|].
      now replace (cnt + S i)%nat with (S cnt + i)%nat by lia.
Qed.

Lemma for_each_ok {A B} (body : A -> M B) (l : list A) :
  forall st ys st',
    for_each body l st = Ok (ys, st') ->
    List.length ys = List.length l /\
    forall i y, nth_error ys i = Some y ->
      exists x sti sti', nth_error l i = Some x /\ body x sti = Ok (y, sti').
Proof.
  induction l as [|x l IH]; intros st ys st' H; simpl in H.
  - injection H as <- <-. split; [reflexivity|].
    intros [|i] y Hy; discriminate.
  - apply bind_ok in H as (y0 & st1 & H0 & H).
    apply bind_ok in H as (ys0 & st2 & H1 & H).
    injection H as <- <-.
    apply IH in H1 as [Hlen Hnth]. split; [simpl; now rewrite Hlen|].
    intros [|i] y Hy; simpl in Hy.
    + injection Hy as <-. now exists x, st, st1.
    + exact (Hnth i y Hy).
Qed.

Section Properties.

Variable sw : value -> result (value * value * value).
Variable hw : value -> result (value * value).
Variable known : string -> bool.

(** ** What reads only its arguments *)

Lemma writer_warn_unsupported_all (keys : list string) (tree : Py.dict)
  (sc : scope) : writer (warn_unsupported_all keys tree sc).
Proof.
  induction keys as [|key keys IH]; simpl.
  - apply writer_ret.
  - apply writer_bind; [|intros; exact IH].
    unfold warn_unsupported. repeat writer_step.
Qed.

Lemma writer_create_signal (sig_dict : value) (sig_type : string) :
  writer (create_signal known sig_dict sig_type).
Proof.
  unfold create_signal.
  repeat first [apply writer_warn_unsupported_all | writer_step].
Qed.

Lemma writer_parse_enum (fd : Py.dict) : writer (parse_enum fd).
Proof.
  unfold parse_enum, parse_enum_member. repeat writer_step.
Qed.

Lemma writer_field_resval (fd : Py.dict) (rr : value) (o w : Z) :
  writer (field_resval fd rr o w).
Proof.
  unfold field_resval. repeat writer_step.
Qed.

Lemma writer_add_field (hwqe dsw dhw rr : value) (cnt : nat) (fdv : value) :
  writer (add_field sw hw hwqe dsw dhw rr cnt fdv).
Proof.
  unfold add_field.
  repeat first [apply writer_warn_unsupported_all | apply writer_parse_enum
               | apply writer_field_resval | writer_step].
Qed.

(** ** One field *)

(** What a field that [add_fields] has made is made of. *)
Lemma add_field_ok (hwqe dsw dhw rr : value) (cnt : nat) (fdv : value)
  (st st' : importer) (F : Field) :
  add_field sw hw hwqe dsw dhw rr cnt fdv st = Ok (F, st') ->
  exists fd bits inst_name swv onwrite onread hwv we resval encode st1 st2,
    fdv = VDict fd /\
    Py.get "bits" fd = Some bits /\
    bit_range bits = Ok (f_bit_offset F, f_bit_width F) /\
    Py.lower_of (field_name_of fd cnt) = Ok inst_name /\
    f_inst_name F = inst_name /\ f_type_name F = inst_name /\
    sw (effective "swaccess" fd dsw) = Ok (swv, onwrite, onread) /\
    hw (effective "hwaccess" fd dhw) = Ok (hwv, we) /\
    field_resval fd rr (f_bit_offset F) (f_bit_width F) st1
    = Ok (resval, st2) /\
    (if Py.contains "enum" fd
     then exists enum st3, parse_enum fd st2 = Ok (enum, st3)
                           /\ encode = [("encode", PEnum enum)]
     else encode = []) /\
    f_properties F
    = field_props fd hwqe (effective "swaccess" fd dsw)
        (effective "hwaccess" fd dhw) swv onwrite onread hwv we resval encode.
Proof.
  unfold add_field. destruct fdv as [| | | | | |fd]; try discriminate.
  intros H.
  apply bind_ok in H as (_ & st0 & _ & H).
  apply bind_ok in H as ([o w] & st0' & Hb & H).
  apply lift_ok in Hb as [Hb ->].
  apply rbind_ok in Hb as (bits & Hbits & Hrange).
  unfold Py.item in Hbits.
  destruct (Py.get "bits" fd) as [bits'|] eqn:Eb; [|discriminate].
  injection Hbits as ->.
  apply bind_ok in H as (inst_name & st0' & Hl & H).
  apply lift_ok in Hl as [Hl ->].
  apply bind_ok in H as ([[swv onwrite] onread] & st0' & Hs & H).
  apply lift_ok in Hs as [Hs ->].
  apply bind_ok in H as ([hwv we] & st0' & Hh & H).
  apply lift_ok in Hh as [Hh ->].
  apply bind_ok in H as (resval & st2 & Hr & H).
  fold (field_name_of fd cnt) in Hl.
  fold (effective "swaccess" fd dsw) in Hs, H.
  fold (effective "hwaccess" fd dhw) in Hh, H.
  destruct (Py.contains "enum" fd) eqn:Eenum.
  - apply bind_ok in H as (enum & st3 & He & H).
    injection H as <- <-.
    exists fd, bits, inst_name, swv, onwrite, onread, hwv, we, resval,
      [("encode", PEnum enum)], st0, st2.
    rewrite Eenum. unfold field_props, we_props, opt_prop.
    destruct (Py.get "desc" fd), (Py.is_none onread), (Py.is_none onwrite),
      (Py.eq_str (effective "swaccess" fd dsw) "ro"
       && (Py.eq_str (effective "hwaccess" fd dhw) "hwo"
           || Py.eq_str (effective "hwaccess" fd dhw) "hro")),
      (Py.is_none we), (Py.eq_str hwqe "true"); simpl;
      splits; try assumption; try reflexivity; now exists enum, st3.
  - injection H as <- <-.
    exists fd, bits, inst_name, swv, onwrite, onread, hwv, we, resval,
      [], st0, st2.
    rewrite Eenum. unfold field_props, we_props, opt_prop.
    destruct (Py.get "desc" fd), (Py.is_none onread), (Py.is_none onwrite),
      (Py.eq_str (effective "swaccess" fd dsw) "ro"
       && (Py.eq_str (effective "hwaccess" fd dhw) "hwo"
           || Py.eq_str (effective "hwaccess" fd dhw) "hro")),
      (Py.is_none we), (Py.eq_str hwqe "true"); simpl;
      splits; try assumption; reflexivity.
Qed.

Lemma property_we (fd : Py.dict) (hwqe swaccess hwaccess : value)
  (swv onwrite onread hwv we resval : value) (encode : properties) :
  property "we" encode = None ->
  property "we" (field_props fd hwqe swaccess hwaccess swv onwrite onread
                   hwv we resval encode)
  = if Py.eq_str swaccess "ro"
       && (Py.eq_str hwaccess "hwo" || Py.eq_str hwaccess "hro")
    then None
    else if Py.is_none we then None else Some (PObj we).
Proof.
  intros He. unfold field_props, we_props, opt_prop.
  destruct (Py.get "desc" fd), (Py.is_none onread), (Py.is_none onwrite),
    (Py.eq_str swaccess "ro"
     && (Py.eq_str hwaccess "hwo" || Py.eq_str hwaccess "hro")),
    (Py.is_none we), (Py.eq_str hwqe "true"); simpl; try reflexivity;
    exact He.
Qed.

Lemma property_reset (fd : Py.dict) (hwqe swaccess hwaccess : value)
  (swv onwrite onread hwv we resval : value) (encode : properties) :
  property "reset" (field_props fd hwqe swaccess hwaccess swv onwrite onread
                      hwv we resval encode)
  = Some (PObj resval).
Proof.
  unfold field_props, we_props, opt_prop.
  destruct (Py.get "desc" fd), (Py.is_none onread), (Py.is_none onwrite),
    (Py.eq_str swaccess "ro"
     && (Py.eq_str hwaccess "hwo" || Py.eq_str hwaccess "hro")),
    (Py.is_none we); reflexivity.
Qed.

Lemma property_desc (fd : Py.dict) (hwqe swaccess hwaccess : value)
  (swv onwrite onread hwv we resval : value) (encode : properties) :
  property "desc" encode = None ->
  property "desc" (field_props fd hwqe swaccess hwaccess swv onwrite onread
                     hwv we resval encode)
  = match Py.get "desc" fd with
    | Some desc => Some (PObj desc)
    | None => None
    end.
Proof.
  intros He. unfold field_props, we_props, opt_prop.
  destruct (Py.get "desc" fd), (Py.is_none onread), (Py.is_none onwrite),
    (Py.eq_str swaccess "ro"
     && (Py.eq_str hwaccess "hwo" || Py.eq_str hwaccess "hro")),
    (Py.is_none we), (Py.eq_str hwqe "true"); simpl; try reflexivity;
    exact He.
Qed.

Lemma property_sw_hw (fd : Py.dict) (hwqe swaccess hwaccess : value)
  (swv onwrite onread hwv we resval : value) (encode : properties) :
  let ps := field_props fd hwqe swaccess hwaccess swv onwrite onread
              hwv we resval encode in
  property "sw" ps = Some (PObj swv) /\ property "hw" ps = Some (PObj hwv).
Proof.
  unfold field_props, we_props, opt_prop.
  destruct (Py.get "desc" fd), (Py.is_none onread), (Py.is_none onwrite);
    split; reflexivity.
Qed.

Lemma property_side_effects (fd : Py.dict) (hwqe swaccess hwaccess : value)
  (swv onwrite onread hwv we resval : value) :
  let ps := field_props fd hwqe swaccess hwaccess swv onwrite onread
              hwv we resval [] in
  property "onread" ps
  = (if Py.is_none onread then None else Some (PObj onread)) /\
  property "onwrite" ps
  = (if Py.is_none onwrite then None else Some (PObj onwrite)).
Proof.
  unfold field_props, we_props, opt_prop.
  destruct (Py.get "desc" fd), (Py.is_none onread), (Py.is_none onwrite),
    (Py.eq_str swaccess "ro"
     && (Py.eq_str hwaccess "hwo" || Py.eq_str hwaccess "hro")),
    (Py.is_none we), (Py.eq_str hwqe "true"); split; reflexivity.
Qed.


(** ** One register *)

Lemma add_fields_shape (d : Py.dict) (dsw dhw rr : value) :
  exists r : result (list Field * list message),
    forall R st,
      add_fields sw hw R d dsw dhw rr st
      = match r with
        | Ok (Fs, ws) => Ok (add_fields_children R Fs, add_warnings st ws)
        | Raise e => Raise e
        end.
Proof.
  unfold add_fields.
  destruct (rbind (Py.item "fields" d) Py.iter) as [fields|e].
  - destruct (writer_for_each_enum
                (add_field sw hw (get_or_none "hwqe" d) dsw dhw rr) fields
                (writer_add_field _ _ _ _) O) as [[[Fs ws]|e] H].
    + exists (Ok (Fs, ws)). intros R st. unfold bind, lift.
      rewrite H. reflexivity.
    + exists (Raise e). intros R st. unfold bind, lift. now rewrite H.
  - exists (Raise e). reflexivity.
Qed.

Ltac run_cbn :=
  cbn [bind lift ret raise get_addroffset get_regwidth set_addroffset emit
       add_warnings regwidth addroffset warnings roots].

Ltac run_step :=
  first
    [ match goal with H : ?l = _ |- context [?l] => rewrite H end
    | match goal with H : forall st : importer, _ = _ |- _ => rewrite H end
    | match goal with
      | H : forall (R : Reg) (st : importer), _ = _ |- _ => rewrite H
      end ];
  run_cbn.

Ltac run_register :=
  unfold create_register, bind, get_addroffset, get_regwidth, set_addroffset;
  run_cbn; repeat run_step; try reflexivity.

(** A register declaration decides, whatever the importer's state, whether
    [create_register] raises, which warnings it sends and which register
    it makes; the state only supplies the offset the register is placed
    at. *)
Lemma create_register_shape (rd : value) :
  exists r : result ((Z -> Reg) * list message),
    (forall st w, regwidth st = Some w ->
       create_register sw hw rd st
       = match r with
         | Ok (mk, ws) => Ok (mk (addroffset st), after_register st w ws)
         | Raise e => Raise e
         end) /\
    (forall mk ws, r = Ok (mk, ws) -> forall o, r_addr_offset (mk o) = o).
Proof.
  destruct (Py.subscript rd "name") as [name|e] eqn:En;
    [|exists (Raise e); split; [|discriminate]; intros; run_register].
  destruct (Py.as_dict rd) as [d|e] eqn:Ed;
    [|exists (Raise e); split; [|discriminate]; intros; run_register].
  destruct (writer_warn_unsupported_all unsupported_reg_props d
              (Register_scope name)) as [[[[] ws1]|e] Hw];
    [|exists (Raise e); split; [|discriminate]; intros; run_register].
  destruct (Py.lower_of name) as [inst|e] eqn:Ei;
    [|exists (Raise e); split; [|discriminate]; intros; run_register].
  destruct (Py.item "desc" d) as [desc|e] eqn:Edesc;
    [|exists (Raise e); split; [|discriminate]; intros; run_register].
  assert (exists rv : result value,
             forall st, match Py.get "resval" d with
                        | Some v => lift (hex_or_dec_to_dec v)
                        | None => ret (VInt 0)
                        end st
                        = match rv with
                          | Ok v => Ok (v, st)
                          | Raise e => Raise e
                          end) as [[rv|e] Hrv].
  { destruct (Py.get "resval" d) as [v|].
    - exists (hex_or_dec_to_dec v). intros st. unfold lift.
      now destruct (hex_or_dec_to_dec v).
    - now exists (Ok (VInt 0)). }
  2:{ exists (Raise e); split; [|discriminate]. intros; run_register. }
  destruct (add_fields_shape d (get_or_none "swaccess" d)
              (get_or_none "hwaccess" d) rv) as [[[Fs ws2]|e] Hf].
  - exists (Ok (fun o =>
                  add_fields_children
                    (if Py.eq_str (get_or_none "hwext" d) "true"
                     then set_external
                            (assign_reg (instantiate_reg inst inst o) "desc"
                               (PObj desc))
                     else assign_reg (instantiate_reg inst inst o) "desc"
                            (PObj desc)) Fs, ws1 ++ ws2)).
    split.
    + intros; run_register.
      unfold after_register, add_warnings; simpl. now rewrite app_assoc.
    + intros mk ws H o. injection H as <- <-.
      now destruct (Py.eq_str (get_or_none "hwext" d) "true").
  - exists (Raise e); split; [|discriminate]. intros; run_register.
Qed.

(** ** A run of registers *)

Lemma create_registers_shape (l : list value) :
  exists r : result (list (Z -> Reg) * list message),
    (forall st w, regwidth st = Some w ->
       for_each (create_register sw hw) l st
       = match r with
         | Ok (mks, ws) =>
             Ok (place (addroffset st) (w / 8) mks,
                 after_registers st w (List.length mks) ws)
         | Raise e => Raise e
         end) /\
    (forall mks ws, r = Ok (mks, ws) ->
       List.length mks = List.length l /\ Forall placed_at_offset mks).
Proof.
  induction l as [|rd l IH].
  - exists (Ok ([], [])). split.
    + intros st w Hst. simpl. unfold ret, after_registers.
      destruct st as [rw ao ws rs]; simpl in *. subst rw.
      now rewrite Z.add_0_r, app_nil_r.
    + intros mks ws H. injection H as <- <-. now split.
  - destruct (create_register_shape rd) as [[[mk ws1]|e] [H1 Hoff]].
    + destruct IH as [[[mks ws2]|e] [H2 Hl]].
      * exists (Ok (mk :: mks, ws1 ++ ws2)). split.
        -- intros st w Hst. simpl. unfold bind.
           rewrite (H1 st w Hst).
           rewrite (H2 (after_register st w ws1) w eq_refl).
           unfold ret, after_registers, after_register.
           cbn [regwidth addroffset warnings roots place List.length].
           rewrite app_assoc. do 3 f_equal. lia.
        -- intros mks' ws' H. injection H as <- <-.
           destruct (Hl mks ws2 eq_refl) as [Hlen Hall].
           split; [simpl; now rewrite Hlen|].
           constructor; [exact (Hoff mk ws1 eq_refl)|exact Hall].
      * exists (Raise e). split; [|discriminate].
        intros st w Hst. simpl. unfold bind.
        rewrite (H1 st w Hst).
        now rewrite (H2 (after_register st w ws1) w eq_refl).
    + exists (Raise e). split; [|discriminate].
      intros st w Hst. simpl. unfold bind. now rewrite (H1 st w Hst).
Qed.

Lemma place_length (o d : Z) (mks : list (Z -> Reg)) :
  List.length (place o d mks) = List.length mks.
Proof.
  revert o. induction mks as [|mk mks IH]; intros o; simpl; [reflexivity|].
  now rewrite IH.
Qed.

Lemma place_app (o d : Z) (mks mks' : list (Z -> Reg)) :
  place o d (mks ++ mks')
  = place o d mks ++ place (o + Z.of_nat (List.length mks) * d) d mks'.
Proof.
  revert o. induction mks as [|mk mks IH]; intros o.
  - cbn [place app List.length]. f_equal. change (Z.of_nat 0) with 0. lia.
  - cbn [place app List.length]. rewrite IH. do 3 f_equal. lia.
Qed.

Lemma place_nth (o d : Z) (mks : list (Z -> Reg)) :
  Forall placed_at_offset mks ->
  forall k R, nth_error (place o d mks) k = Some R ->
    r_addr_offset R = o + Z.of_nat k * d.
Proof.
  intros Hall. revert o. induction Hall as [|mk mks Hmk Hall IH];
    intros o k R H.
  - destruct k; discriminate.
  - destruct k as [|k]; simpl in H.
    + injection H as <-. rewrite Hmk. lia.
    + rewrite (IH _ _ _ H). lia.
Qed.

Lemma regs_of_app (cs cs' : list component) :
  regs_of (cs ++ cs') = regs_of cs ++ regs_of cs'.
Proof.
  induction cs as [|[s|r] cs IH]; simpl; [reflexivity|exact IH|].
  now rewrite IH.
Qed.

Lemma regs_of_regs (Rs : list Reg) : regs_of (map CReg Rs) = Rs.
Proof.
  induction Rs as [|R Rs IH]; simpl; [reflexivity|]. now rewrite IH.
Qed.

Lemma regs_of_signals (sigs : list Signal) : regs_of (map CSignal sigs) = [].
Proof.
  induction sigs as [|s sigs IH]; simpl; [reflexivity|exact IH].
Qed.

(** What a successful [add_registers] has done. *)
Lemma add_registers_ok (node node' : Addrmap) (tree : Py.dict)
  (st st' : importer) :
  add_registers sw hw node tree st = Ok (node', st') ->
  exists il n intrs fs Rs1 st1 registers Rs2,
    Py.get "interrupt_list" tree = Some il /\
    Py.len il = Ok n /\ (n <= 32)%nat /\
    Py.iter il = Ok intrs /\
    interrupt_fields_all O intrs = Ok fs /\
    for_each (create_register sw hw) (intr_regs fs) st = Ok (Rs1, st1) /\
    rbind (Py.item "registers" tree) Py.iter = Ok registers /\
    for_each (create_register sw hw) registers st1 = Ok (Rs2, st') /\
    node' = add_children (add_children node (map CReg Rs1)) (map CReg Rs2).
Proof.
  unfold add_registers. intros H.
  apply bind_ok in H as (il & st0 & Hil & H).
  apply lift_ok in Hil as [Hil ->].
  unfold Py.item in Hil.
  destruct (Py.get "interrupt_list" tree) as [il'|] eqn:Eil; [|discriminate].
  injection Hil as ->.
  apply bind_ok in H as (n & st0 & Hn & H).
  apply lift_ok in Hn as [Hn ->].
  apply bind_ok in H as ([] & st0 & Hle & H).
  destruct (n <=? 32)%nat eqn:E32.
  2:{ apply bind_ok in Hle as (? & ? & _ & Hle). discriminate. }
  injection Hle as <-. apply Nat.leb_le in E32.
  apply bind_ok in H as (intrs & st0 & Hi & H).
  apply lift_ok in Hi as [Hi ->].
  apply bind_ok in H as (fs & st0 & Hfs & H).
  apply lift_ok in Hfs as [Hfs ->].
  apply bind_ok in H as (Rs1 & st1 & HR1 & H).
  apply bind_ok in H as (registers & st0 & Hr & H).
  apply lift_ok in Hr as [Hr ->].
  apply bind_ok in H as (Rs2 & st2 & HR2 & H).
  injection H as <- <-.
  exists il, n, intrs, fs, Rs1, st1, registers, Rs2. now splits.
Qed.

(** ** Signals *)

Lemma writer_frame {A} (m : M A) (st st' : importer) (a : A) :
  writer m -> m st = Ok (a, st') -> exists ws, st' = add_warnings st ws.
Proof.
  intros [[[a0 ws]|e] Hm] H; rewrite Hm in H; simpl in H; [|discriminate].
  injection H as <- <-. now exists ws.
Qed.

Lemma writer_add_signal_list (lt ty : string) (node : Addrmap)
  (tree : Py.dict) : writer (add_signal_list known lt ty node tree).
Proof.
  unfold add_signal_list.
  repeat first [apply writer_create_signal | writer_step].
Qed.

Lemma writer_add_signals (node : Addrmap) (tree : Py.dict) :
  writer (add_signals known node tree).
Proof.
  unfold add_signals, add_clocking_entry.
  repeat first [apply writer_add_signal_list | apply writer_create_signal
               | writer_step].
Qed.

(** What [add_signals] does to the node and to the document for one of its
    lists: signals are appended, and the list's entries are the ones
    [create_signal] has written to. *)
Lemma add_signal_list_ok (lt ty : string) (node node' : Addrmap)
  (tree tree' : Py.dict) (st st' : importer) :
  add_signal_list known lt ty node tree st = Ok ((node', tree'), st') ->
  (Py.get lt tree = None /\ node' = node /\ tree' = tree /\ st' = st)
  \/ exists v entries made,
      Py.get lt tree = Some v /\ Py.iter v = Ok entries /\
      for_each (fun s => create_signal known s ty) entries st
      = Ok (made, st') /\
      node' = add_children node (map (fun p => CSignal (fst p)) made) /\
      tree' = match v with
              | VList _ => Py.set lt (VList (map snd made)) tree
              | _ => tree
              end.
Proof.
  unfold add_signal_list. destruct (Py.get lt tree) as [v|].
  - intros H. right.
    apply bind_ok in H as (entries & st0 & He & H).
    apply lift_ok in He as [He ->].
    apply bind_ok in H as (made & st1 & Hm & H).
    injection H as <- <- <-.
    exists v, entries, made. now splits.
  - intros H. injection H as <- <- <-. now left.
Qed.

Lemma regs_of_signal_children {A} (f : A -> Signal) (l : list A) :
  regs_of (map (fun p => CSignal (f p)) l) = [].
Proof.
  induction l as [|x l IH]; simpl; [reflexivity|exact IH].
Qed.

Lemma add_signal_list_facts (lt ty : string) (node node' : Addrmap)
  (tree tree' : Py.dict) (st st' : importer) :
  add_signal_list known lt ty node tree st = Ok ((node', tree'), st') ->
  regs_of (a_children node') = regs_of (a_children node) /\
  (forall k, String.eqb k lt = false -> Py.get k tree' = Py.get k tree) /\
  (Py.get lt tree = None -> Py.get lt tree' = None) /\
  (forall v, Py.get lt tree = Some v ->
     exists v', Py.get lt tree' = Some v' /\ Py.len v' = Py.len v).
Proof.
  intros H. apply add_signal_list_ok in H
    as [(Hg & -> & -> & ->)
       |(v & entries & made & Hg & Hi & Hm & -> & ->)].
  - splits; try reflexivity; try (intros; assumption).
    intros v Hv. exists v. now split.
  - splits.
    + simpl. rewrite regs_of_app, regs_of_signal_children. apply app_nil_r.
    + intros k Hk. destruct v; try reflexivity.
      rewrite get_set. now rewrite Hk.
    + congruence.
    + intros v0 Hv. rewrite Hg in Hv. injection Hv as <-.
      destruct v; cbn beta iota;
        try (eexists; split; [exact Hg|reflexivity]).
      exists (VList (map snd made)). split.
      * rewrite get_set. now rewrite String.eqb_refl.
      * simpl. simpl in Hi. injection Hi as <-.
        apply for_each_ok in Hm as [Hlen _].
        now rewrite length_map, Hlen.
Qed.

Lemma add_signals_facts (node node' : Addrmap) (tree tree' : Py.dict)
  (st st' : importer) :
  add_signals known node tree st = Ok ((node', tree'), st') ->
  regs_of (a_children node') = regs_of (a_children node) /\
  (forall k, String.eqb k "available_input_list" = false ->
             String.eqb k "available_output_list" = false ->
             String.eqb k "available_inout_list" = false ->
             String.eqb k "interrupt_list" = false ->
             Py.get k tree' = Py.get k tree) /\
  (Py.get "interrupt_list" tree = None ->
   Py.get "interrupt_list" tree' = None) /\
  (forall v, Py.get "interrupt_list" tree = Some v ->
     exists v', Py.get "interrupt_list" tree' = Some v'
                /\ Py.len v' = Py.len v) /\
  exists ws, st' = add_warnings st ws.
Proof.
  intros H.
  destruct (writer_frame _ _ _ _ (writer_add_signals node tree) H) as [ws Hws].
  unfold add_signals in H.
  apply bind_ok in H as (node0 & st0 & H0 & H).
  assert (regs_of (a_children node0) = regs_of (a_children node)) as Hc.
  { destruct (Py.get "clocking" tree) as [clocking|].
    - apply bind_ok in H0 as (entries & ? & _ & H0).
      apply bind_ok in H0 as (made & ? & _ & H0).
      injection H0 as <- _. simpl.
      rewrite regs_of_app, regs_of_signals. apply app_nil_r.
    - injection H0 as <- _. reflexivity. }
  apply bind_ok in H as ([node1 tree1] & st1 & H1 & H).
  apply bind_ok in H as ([node2 tree2] & st2 & H2 & H).
  apply bind_ok in H as ([node3 tree3] & st3 & H3 & H).
  apply add_signal_list_facts in H1 as (Hr1 & Hk1 & _ & _).
  apply add_signal_list_facts in H2 as (Hr2 & Hk2 & _ & _).
  apply add_signal_list_facts in H3 as (Hr3 & Hk3 & _ & _).
  apply add_signal_list_facts in H as (Hr4 & Hk4 & Hn4 & Hv4).
  assert (Py.get "interrupt_list" tree3 = Py.get "interrupt_list" tree) as Hil.
  { rewrite Hk3, Hk2, Hk1; reflexivity. }
  splits.
  - congruence.
  - intros k Ha Hb Hc' Hd. now rewrite Hk4, Hk3, Hk2, Hk1.
  - intros Hn. apply Hn4. congruence.
  - intros v Hv. apply Hv4. congruence.
  - now exists ws.
Qed.

(** What a register that [create_register] has made is made of. *)
Lemma create_register_ok (rd : value) (st st' : importer) (R : Reg) :
  create_register sw hw rd st = Ok (R, st') ->
  exists d name desc rr fields sta stb,
    rd = VDict d /\ Py.get "name" d = Some (VStr name) /\
    r_inst_name R = Py.lower name /\ r_type_name R = Py.lower name /\
    r_addr_offset R = addroffset st /\
    r_external R = Py.eq_str (get_or_none "hwext" d) "true" /\
    Py.get "desc" d = Some desc /\ r_properties R = [("desc", PObj desc)] /\
    register_resval d = Ok rr /\
    rbind (Py.item "fields" d) Py.iter = Ok fields /\
    for_each_enum
      (add_field sw hw (get_or_none "hwqe" d) (get_or_none "swaccess" d)
         (get_or_none "hwaccess" d) rr) O fields sta
    = Ok (r_children R, stb).
Proof.
  unfold create_register. intros H.
  apply bind_ok in H as (namev & st0 & Hn & H).
  apply lift_ok in Hn as [Hn ->].
  apply bind_ok in H as (d & st0 & Hd & H).
  apply lift_ok in Hd as [Hd ->].
  destruct rd as [| | | | | |d']; try discriminate.
  injection Hd as ->. simpl in Hn. unfold Py.item in Hn.
  destruct (Py.get "name" d) as [namev'|] eqn:En; [|discriminate].
  injection Hn as ->.
  apply bind_ok in H as ([] & st1 & Hw & H).
  apply (writer_frame _ _ _ _ (writer_warn_unsupported_all _ _ _)) in Hw
    as [ws1 ->].
  apply bind_ok in H as (inst & st0 & Hl & H).
  apply lift_ok in Hl as [Hl ->].
  destruct namev as [| | |name| | |]; try discriminate.
  injection Hl as <-.
  apply bind_ok in H as (offset & st0 & Ho & H).
  injection Ho as <- <-.
  apply bind_ok in H as (width & st0 & Hwd & H).
  unfold get_regwidth in Hwd.
  destruct (regwidth (add_warnings st ws1)) as [w|]; [|discriminate].
  injection Hwd as <- <-.
  apply bind_ok in H as ([] & st0 & Hs & H).
  injection Hs as <-.
  apply bind_ok in H as (desc & st0 & Hde & H).
  apply lift_ok in Hde as [Hde ->].
  unfold Py.item in Hde.
  destruct (Py.get "desc" d) as [desc'|] eqn:Edesc; [|discriminate].
  injection Hde as ->.
  apply bind_ok in H as (rr & st2 & Hrr & H).
  assert (register_resval d = Ok rr) as Hrv.
  { unfold register_resval. destruct (Py.get "resval" d) as [v|].
    - apply lift_ok in Hrr. exact (proj1 Hrr).
    - now injection Hrr as <- _. }
  unfold add_fields in H.
  apply bind_ok in H as (fields & st0 & Hf & H).
  apply lift_ok in Hf as [Hf ->].
  apply bind_ok in H as (Fs & st3 & HFs & H).
  injection H as <- <-.
  exists d, name, desc, rr, fields. do 2 eexists.
  splits; try reflexivity; try assumption.
  - now destruct (Py.eq_str (get_or_none "hwext" d) "true").
  - now destruct (Py.eq_str (get_or_none "hwext" d) "true").
  - now destruct (Py.eq_str (get_or_none "hwext" d) "true").
  - now destruct (Py.eq_str (get_or_none "hwext" d) "true").
  - now destruct (Py.eq_str (get_or_none "hwext" d) "true").
  - destruct (Py.eq_str (get_or_none "hwext" d) "true"); exact HFs.
Qed.

(** ** One document *)

Lemma root_definition_children (tree : Py.dict) (name : value) :
  a_children (root_definition tree name) = [].
Proof.
  unfold root_definition.
  destruct (Py.contains "human_name" tree),
    (Py.get "one_paragraph_desc" tree), (Py.get "one_line_desc" tree);
    reflexivity.
Qed.

(** What a successful [import_file] has done: the signals, then the
    registers from offset 0 at the document's register width, then the root
    registered. *)
Lemma import_file_ok (tree : Py.dict) (st st' : importer) :
  import_file sw hw known tree st = Ok (tt, st') ->
  exists name C1 tree1 ws width C2 st2,
    Py.get "name" tree = Some name /\ Py.truthy name = true /\
    (exists sA sA',
        add_signals known (root_definition tree name) tree sA
        = Ok ((C1, tree1), sA')) /\
    regs_of (a_children C1) = [] /\
    (forall k, String.eqb k "available_input_list" = false ->
               String.eqb k "available_output_list" = false ->
               String.eqb k "available_inout_list" = false ->
               String.eqb k "interrupt_list" = false ->
               Py.get k tree1 = Py.get k tree) /\
    (forall v, Py.get "interrupt_list" tree = Some v ->
       exists v', Py.get "interrupt_list" tree1 = Some v'
                  /\ Py.len v' = Py.len v) /\
    document_regwidth tree = Ok width /\
    add_registers sw hw C1 tree1
      {| regwidth := Some width; addroffset := 0;
         warnings := warnings st ++ ws; roots := roots st |}
    = Ok (C2, st2) /\
    st' = with_root st2 C2.
Proof.
  unfold import_file, import_ip. intros H.
  apply bind_ok in H as ([] & st0 & H0 & H). injection H0 as <-.
  apply bind_ok in H as ([] & st0 & H0 & H). injection H0 as <-.
  apply bind_ok in H as ([] & st1 & Hw & H).
  apply (writer_frame _ _ _ _ (writer_warn_unsupported_all _ _ _)) in Hw
    as [ws0 ->].
  apply bind_ok in H as (name & st0 & Hn & H).
  apply lift_ok in Hn as [Hn ->]. unfold Py.item in Hn.
  destruct (Py.get "name" tree) as [name'|] eqn:En; [|discriminate].
  injection Hn as ->.
  apply bind_ok in H as ([] & st0 & Ht & H).
  destruct (Py.truthy name) eqn:Etr; [|discriminate].
  injection Ht as <-.
  apply bind_ok in H as ([C1 tree1] & st1 & Hs & H).
  pose proof Hs as Hs'.
  apply add_signals_facts in Hs' as (Hregs & Hk & _ & Hil & ws1 & ->).
  apply bind_ok in H as (width & st0 & Hwd & H).
  match type of Hwd with
  | _ ?s = _ => assert (document_regwidth tree = Ok width /\ st0 = s)
      as [Hdw Hst0]
  end.
  { unfold document_regwidth.
    rewrite (Hk "regwidth" eq_refl eq_refl eq_refl eq_refl) in Hwd.
    destruct (Py.get "regwidth" tree) as [v|].
    - apply lift_ok in Hwd. exact Hwd.
    - injection Hwd as <- <-. split; reflexivity. }
  subst st0.
  apply bind_ok in H as ([] & st0 & H0 & H). injection H0 as <-.
  apply bind_ok in H as (C2 & st2 & Hr & H).
  injection H as <-.
  exists name, C1, tree1, (ws0 ++ ws1), width, C2, st2.
  fold (root_definition tree name) in Hs, Hregs.
  splits; try assumption; try reflexivity.
  - eexists; eexists; exact Hs.
  - rewrite Hregs, root_definition_children. reflexivity.
  - cbn [add_warnings regwidth addroffset warnings roots] in Hr.
    rewrite <- app_assoc in Hr. exact Hr.
Qed.

(** ** Claim C1 *)

(** The registers of an imported document and where they sit: the three
    interrupt registers, then the user registers in declaration order, the
    k-th at [k * (regwidth // 8)]. *)
Lemma import_file_offsets (tree : Py.dict) (st st' : importer) :
  import_file sw hw known tree st = Ok (tt, st') ->
  exists width C registers R_state R_enable R_test Rs,
    document_regwidth tree = Ok width /\
    roots st' = roots st ++ [C] /\
    rbind (Py.item "registers" tree) Py.iter = Ok registers /\
    regs_of (a_children C) = [R_state; R_enable; R_test] ++ Rs /\
    r_inst_name R_state = "intr_state" /\
    r_inst_name R_enable = "intr_enable" /\
    r_inst_name R_test = "intr_test" /\
    List.length Rs = List.length registers /\
    (forall k R, nth_error Rs k = Some R ->
       exists rd name, nth_error registers k = Some rd /\
         Py.subscript rd "name" = Ok (VStr name) /\
         r_inst_name R = Py.lower name) /\
    (forall k R, nth_error (regs_of (a_children C)) k = Some R ->
       r_addr_offset R = Z.of_nat k * (width / 8)) /\
    addroffset st'
    = Z.of_nat (List.length (regs_of (a_children C))) * (width / 8).
Proof.
  intros H.
  apply import_file_ok in H
    as (name & C1 & tree1 & ws & width & C2 & st2
        & Hn & Htr & _ & Hregs & Hk & Hil & Hdw & Hr & ->).
  apply add_registers_ok in Hr
    as (il & n & intrs & fs & Rs1 & st1 & registers & Rs2
        & Hil1 & Hlen & Hle & Hit & Hfs & HR1 & Hreg & HR2 & ->).
  (* the names, from the declarations *)
  pose proof (for_each_ok _ _ _ _ _ HR1) as [Hl1 Hn1].
  pose proof (for_each_ok _ _ _ _ _ HR2) as [Hl2 Hn2].
  destruct Rs1 as [|Ra [|Rb [|Rc [|Rd Rs1]]]]; try discriminate. clear Hl1.
  assert (r_inst_name Ra = "intr_state" /\ r_inst_name Rb = "intr_enable"
          /\ r_inst_name Rc = "intr_test") as (Hna & Hnb & Hnc).
  { splits.
    - destruct (Hn1 0%nat Ra eq_refl) as (x & sti & sti' & Hx & Hc).
      injection Hx as <-. apply create_register_ok in Hc
        as (d & nm & ? & ? & ? & ? & ? & Hd & Hnm & Hin & _).
      injection Hd as <-. injection Hnm as <-. exact Hin.
    - destruct (Hn1 1%nat Rb eq_refl) as (x & sti & sti' & Hx & Hc).
      injection Hx as <-. apply create_register_ok in Hc
        as (d & nm & ? & ? & ? & ? & ? & Hd & Hnm & Hin & _).
      injection Hd as <-. injection Hnm as <-. exact Hin.
    - destruct (Hn1 2%nat Rc eq_refl) as (x & sti & sti' & Hx & Hc).
      injection Hx as <-. apply create_register_ok in Hc
        as (d & nm & ? & ? & ? & ? & ? & Hd & Hnm & Hin & _).
      injection Hd as <-. injection Hnm as <-. exact Hin. }
  (* the offsets, from the counter *)
  destruct (create_registers_shape (intr_regs fs)) as [r1 [Hs1 Hp1]].
  match type of HR1 with
  | for_each _ _ ?s = _ => rewrite (Hs1 s width eq_refl) in HR1
  end.
  destruct r1 as [[mks1 wsa]|e]; [|discriminate].
  injection HR1 as HRs1 <-.
  destruct (Hp1 _ _ eq_refl) as [Hlm1 Hall1].
  destruct (create_registers_shape registers) as [r2 [Hs2 Hp2]].
  match type of HR2 with
  | for_each _ _ ?s = _ => rewrite (Hs2 s width eq_refl) in HR2
  end.
  destruct r2 as [[mks2 wsb]|e]; [|discriminate].
  injection HR2 as HRs2 <-.
  destruct (Hp2 _ _ eq_refl) as [Hlm2 Hall2].
  cbn [after_registers addroffset] in *.
  assert (regs_of (a_children
            (add_children (add_children C1 (map CReg [Ra; Rb; Rc]))
               (map CReg Rs2)))
          = place 0 (width / 8) (mks1 ++ mks2)) as Hall.
  { cbn [add_children a_children].
    rewrite !regs_of_app, !regs_of_regs, Hregs, place_app.
    rewrite ?Z.add_0_l in *. now rewrite HRs1, HRs2. }
  assert (rbind (Py.item "registers" tree) Py.iter = Ok registers) as Hreg'.
  { unfold Py.item in *.
    now rewrite <- (Hk "registers" eq_refl eq_refl eq_refl eq_refl). }
  exists width, (add_children (add_children C1 (map CReg [Ra; Rb; Rc]))
                   (map CReg Rs2)), registers, Ra, Rb, Rc, Rs2.
  splits; try assumption; try reflexivity.
  - cbn [add_children a_children].
    now rewrite !regs_of_app, !regs_of_regs, Hregs.
  - intros k R HkR. destruct (Hn2 k R HkR) as (rd & sti & sti' & Hrd & Hc).
    apply create_register_ok in Hc
      as (d & nm & ? & ? & ? & ? & ? & -> & Hnm & Hin & _).
    exists (VDict d), nm. splits; try assumption.
    simpl. unfold Py.item. now rewrite Hnm.
  - intros k R HkR. rewrite Hall in HkR.
    rewrite (place_nth 0 (width / 8) (mks1 ++ mks2)
               ltac:(apply Forall_app; now split) k R HkR). lia.
  - rewrite Hall, place_length, length_app.
    cbn [with_root addroffset after_registers]. rewrite Hlm1.
    simpl List.length. lia.
Qed.

(** C1 (as amended). For every imported document, the k-th emitted register
    (0-indexed, the three synthesized interrupt registers first, then the
    user registers in declaration order) is instantiated at byte offset
    [k * (regwidth // 8)], where [regwidth] is the document's [regwidth]
    key or 32 by default: the counter starts at 0 and moves on by
    [regwidth // 8] after every register.  When [regwidth] is at least 8
    the offsets go up strictly, so that none is used twice; when it is
    between 0 and 7 every register sits at offset 0. *)
Theorem C1_register_offsets (tree : Py.dict) (st st' : importer) :
  import_file sw hw known tree st = Ok (tt, st') ->
  exists width C registers R_state R_enable R_test Rs,
    document_regwidth tree = Ok width /\
    roots st' = roots st ++ [C] /\
    rbind (Py.item "registers" tree) Py.iter = Ok registers /\
    regs_of (a_children C) = [R_state; R_enable; R_test] ++ Rs /\
    r_inst_name R_state = "intr_state" /\
    r_inst_name R_enable = "intr_enable" /\
    r_inst_name R_test = "intr_test" /\
    List.length Rs = List.length registers /\
    (forall k R, nth_error Rs k = Some R ->
       exists rd name, nth_error registers k = Some rd /\
         Py.subscript rd "name" = Ok (VStr name) /\
         r_inst_name R = Py.lower name) /\
    (forall k R, nth_error (regs_of (a_children C)) k = Some R ->
       r_addr_offset R = Z.of_nat k * (width / 8)) /\
    addroffset st'
    = Z.of_nat (List.length (regs_of (a_children C))) * (width / 8) /\
    (forall k R R',
       nth_error (regs_of (a_children C)) k = Some R ->
       nth_error (regs_of (a_children C)) (S k) = Some R' ->
       r_addr_offset R' = r_addr_offset R + width / 8) /\
    (8 <= width ->
     forall j k Rj Rk,
       (j < k)%nat ->
       nth_error (regs_of (a_children C)) j = Some Rj ->
       nth_error (regs_of (a_children C)) k = Some Rk ->
       r_addr_offset Rj < r_addr_offset Rk) /\
    (0 <= width < 8 ->
     forall k R, nth_error (regs_of (a_children C)) k = Some R ->
       r_addr_offset R = 0).
Proof.
  intros H. apply import_file_offsets in H
    as (width & C & registers & Ra & Rb & Rc & Rs & Hw & Hroots & Hreg
        & Hregs & Hna & Hnb & Hnc & Hlen & Hnames & Hoff & Hend).
  exists width, C, registers, Ra, Rb, Rc, Rs.
  repeat (split; [assumption|]).
  split; [|split].
  - intros k R R' HR HR'.
    rewrite (Hoff _ _ HR), (Hoff _ _ HR'), Nat2Z.inj_succ. ring.
  - intros Hwide j k Rj Rk Hjk HRj HRk.
    rewrite (Hoff _ _ HRj), (Hoff _ _ HRk).
    assert (1 <= width / 8) by (apply Z.div_le_lower_bound; lia).
    apply Z.mul_lt_mono_pos_r; lia.
  - intros Hnarrow k R HR.
    rewrite (Hoff _ _ HR), (Z.div_small width 8) by lia. ring.
Qed.

(** The fields of a register, each made by [add_fields] from the
    declaration at its index. *)
Lemma register_fields_ok (rd : value) (st st' : importer) (R : Reg) :
  create_register sw hw rd st = Ok (R, st') ->
  exists d name rr fields,
    rd = VDict d /\ Py.get "name" d = Some (VStr name) /\
    r_inst_name R = Py.lower name /\ r_type_name R = Py.lower name /\
    register_resval d = Ok rr /\
    rbind (Py.item "fields" d) Py.iter = Ok fields /\
    List.length (r_children R) = List.length fields /\
    forall i F, nth_error (r_children R) i = Some F ->
      exists fdv sti sti',
        nth_error fields i = Some fdv /\
        add_field sw hw (get_or_none "hwqe" d) (get_or_none "swaccess" d)
          (get_or_none "hwaccess" d) rr i fdv sti = Ok (F, sti').
Proof.
  intros H. apply create_register_ok in H
    as (d & name & desc & rr & fields & sta & stb
        & -> & Hn & Hi & Ht & _ & _ & _ & _ & Hrr & Hf & HFs).
  apply for_each_enum_ok in HFs as [Hlen Hnth].
  exists d, name, rr, fields. splits; try assumption; reflexivity.
Qed.

(** ** Claim C4 *)

(** C4. For every field, a [bits] string of the form ["hi:lo"] yields
    bit offset [lo] and bit width [hi - lo + 1]; a single bit index ["n"]
    yields bit offset [n] and bit width 1; any other form of [bits] string
    is a fatal parse error.  The two forms are stated for the decimal
    text of [hi], [lo] and [n], and for every text [int] reads; a field is
    made with the offset and width of its [bits], and no field is made
    from a [bits] string of another form. *)
Theorem C4_bit_range :
  (forall hi lo : nat,
      bit_range (VStr (Py.str hi ++ String ":" (Py.str lo)))
      = Ok (Z.of_nat lo, (Z.of_nat hi - Z.of_nat lo) + 1)) /\
  (forall n : nat, bit_range (VStr (Py.str n)) = Ok (Z.of_nat n, 1)) /\
  (forall s offset width,
      bit_range (VStr s) = Ok (offset, width) <-> bits_form s offset width) /\
  (forall hwqe dsw dhw rr cnt fdv st F st',
      add_field sw hw hwqe dsw dhw rr cnt fdv st = Ok (F, st') ->
      exists fd bits,
        fdv = VDict fd /\ Py.get "bits" fd = Some bits /\
        bit_range bits = Ok (f_bit_offset F, f_bit_width F)) /\
  (forall hwqe dsw dhw rr cnt fd s st,
      Py.get "bits" fd = Some (VStr s) ->
      (forall offset width, ~ bits_form s offset width) ->
      exists e, add_field sw hw hwqe dsw dhw rr cnt (VDict fd) st = Raise e).
Proof.
  splits.
  - exact bit_range_high_low.
  - exact bit_range_index.
  - exact bit_range_forms.
  - intros hwqe dsw dhw rr cnt fdv st F st' H.
    apply add_field_ok in H
      as (fd & bits & ? & ? & ? & ? & ? & ? & ? & ? & ? & ?
          & -> & Hb & Hr & _).
    now exists fd, bits.
  - intros hwqe dsw dhw rr cnt fd s st Hb Hform.
    destruct (add_field sw hw hwqe dsw dhw rr cnt (VDict fd) st)
      as [[F st']|e] eqn:E; [|now exists e].
    exfalso. apply add_field_ok in E
      as (fd' & bits & ? & ? & ? & ? & ? & ? & ? & ? & ? & ?
          & Hfd & Hb' & Hr & _).
    injection Hfd as <-. rewrite Hb in Hb'. injection Hb' as <-.
    apply bit_range_forms in Hr. exact (Hform _ _ Hr).
Qed.

(** ** Claim C5 *)

Lemma inherit_mask (r o w : Z) :
  0 <= o -> 0 <= w ->
  Z.shiftr (Z.land r (Z.shiftl (2 ^ w - 1) o)) o
  = Z.land (Z.shiftr r o) (Z.shiftl 1 w - 1).
Proof.
  intros Ho Hw.
  rewrite Z.shiftr_land, Z.shiftr_shiftl_l by lia.
  rewrite Z.sub_diag, Z.shiftl_0_r, Z.shiftl_1_l. reflexivity.
Qed.

Lemma inherited_resval_ok (rr v : value) (o w : Z) :
  inherited_resval rr o w = Ok v ->
  0 <= o /\ 0 <= w /\
  exists r, Py.as_int rr = Ok r /\
            v = VInt (Z.land (Z.shiftr r o) (Z.shiftl 1 w - 1)).
Proof.
  unfold inherited_resval.
  destruct (w <? 0) eqn:Ew; [discriminate|].
  destruct (o <? 0) eqn:Eo; [discriminate|].
  apply Z.ltb_ge in Ew, Eo.
  destruct (Py.as_int rr) as [r|]; simpl; [|discriminate].
  intros H; injection H as <-. splits; try assumption.
  exists r. split; [reflexivity|]. now rewrite inherit_mask.
Qed.

(** C5. For every field declaration that has no [resval] key, the field's
    assigned reset value equals
    [(register_resval >> bit_offset) & ((1 << bit_width) - 1)], where
    [register_resval] is the owning register's [resval] (or 0 when the
    register has none). *)
Theorem C5_inherited_reset (rd : value) (st st' : importer) (R : Reg) :
  create_register sw hw rd st = Ok (R, st') ->
  exists d register_resval_ fields,
    rd = VDict d /\ register_resval d = Ok register_resval_ /\
    rbind (Py.item "fields" d) Py.iter = Ok fields /\
    List.length (r_children R) = List.length fields /\
    forall i F, nth_error (r_children R) i = Some F ->
      exists fd, nth_error fields i = Some (VDict fd) /\
        (Py.get "resval" fd = None ->
         exists r, Py.as_int register_resval_ = Ok r /\
           0 <= f_bit_offset F /\ 0 <= f_bit_width F /\
           property "reset" (f_properties F)
           = Some (PObj (VInt (Z.land (Z.shiftr r (f_bit_offset F))
                                 (Z.shiftl 1 (f_bit_width F) - 1))))).
Proof.
  intros H. apply register_fields_ok in H
    as (d & name & rr & fields & -> & _ & _ & _ & Hrr & Hf & Hlen & Hnth).
  exists d, rr, fields. splits; try assumption; try reflexivity.
  intros i F HF. destruct (Hnth i F HF) as (fdv & sti & sti' & Hx & Hb).
  apply add_field_ok in Hb
    as (fd & bits & inst & swv & onw & onr & hwv & we & resval & encode
        & st1 & st2 & -> & _ & _ & _ & _ & _ & _ & _ & Hres & _ & Hprops).
  exists fd. split; [exact Hx|]. intros Hnone.
  unfold field_resval in Hres. rewrite Hnone in Hres.
  apply lift_ok in Hres as [Hres _].
  apply inherited_resval_ok in Hres as (Ho & Hw & r & Hr & ->).
  exists r. splits; try assumption.
  rewrite Hprops. apply property_reset.
Qed.

(** ** Claim C6 *)

(** C6. For every field whose effective software-access token (the
    field's, else the register's) is [ro] and whose effective
    hardware-access token is [hwo] or [hro], the [we] property is never
    assigned, even when the hardware-access table yields one; for every
    other token combination the table's write-enable value, when present,
    is assigned. *)
Theorem C6_write_enable (rd : value) (st st' : importer) (R : Reg) :
  create_register sw hw rd st = Ok (R, st') ->
  exists d fields,
    rd = VDict d /\
    rbind (Py.item "fields" d) Py.iter = Ok fields /\
    forall i F, nth_error (r_children R) i = Some F ->
      exists fd hwv we,
        nth_error fields i = Some (VDict fd) /\
        let swaccess := effective "swaccess" fd (get_or_none "swaccess" d) in
        let hwaccess := effective "hwaccess" fd (get_or_none "hwaccess" d) in
        hw hwaccess = Ok (hwv, we) /\
        property "we" (f_properties F)
        = if Py.eq_str swaccess "ro"
             && (Py.eq_str hwaccess "hwo" || Py.eq_str hwaccess "hro")
          then None
          else if Py.is_none we then None else Some (PObj we).
Proof.
  intros H. apply register_fields_ok in H
    as (d & name & rr & fields & -> & _ & _ & _ & Hrr & Hf & Hlen & Hnth).
  exists d, fields. splits; try assumption; try reflexivity.
  intros i F HF. destruct (Hnth i F HF) as (fdv & sti & sti' & Hx & Hb).
  apply add_field_ok in Hb
    as (fd & bits & inst & swv & onw & onr & hwv & we & resval & encode
        & st1 & st2 & -> & _ & _ & _ & _ & _ & _ & Hhw & _ & Henc & Hprops).
  exists fd, hwv, we. split; [exact Hx|]. cbv zeta. split; [exact Hhw|].
  rewrite Hprops. apply property_we.
  destruct (Py.contains "enum" fd).
  - destruct Henc as (enum & st3 & _ & ->). reflexivity.
  - now subst encode.
Qed.

(** ** Claim C10 *)


(** ** Making a field and a register *)

Lemma warn_unsupported_all_ok (keys : list string) (tree : Py.dict)
  (sc : scope) :
  exists ws, forall st,
    warn_unsupported_all keys tree sc st = Ok (tt, add_warnings st ws).
Proof.
  induction keys as [|key keys [ws IH]]; simpl.
  - exists []. intros st. unfold ret. now rewrite add_warnings_nil.
  - unfold warn_unsupported, bind. destruct (Py.contains key tree).
    + exists (Unsupported_key sc key :: ws). intros st.
      unfold warning. rewrite IH. unfold add_warnings; simpl.
      now rewrite <- app_assoc.
    + exists ws. intros st. unfold ret. apply IH.
Qed.

Lemma field_resval_declared (fd : Py.dict) (rr v r : value) (o w : Z)
  (st : importer) :
  Py.get "resval" fd = Some v -> reset_value v = Ok r ->
  field_resval fd rr o w st
  = Ok (r, add_warnings st (if Py.eq_str v "x"
                            then [Unsupported_resval v] else [])).
Proof.
  intros Hg Hr. unfold field_resval, reset_value in *. rewrite Hg.
  destruct (Py.eq_str v "x"); unfold bind, warning, ret, lift; simpl.
  - simpl in Hr. injection Hr as <-. reflexivity.
  - rewrite Hr. now rewrite add_warnings_nil.
Qed.

Lemma field_resval_ok (fd : Py.dict) (rr r : value) (o w : Z)
  (st st' : importer) :
  field_resval fd rr o w st = Ok (r, st') ->
  match Py.get "resval" fd with
  | Some v => reset_value v = Ok r
  | None => inherited_resval rr o w = Ok r
  end.
Proof.
  unfold field_resval, reset_value. destruct (Py.get "resval" fd) as [v|].
  - intros H. apply bind_ok in H as (v' & st0 & Hv & H).
    apply lift_ok in H as [H _].
    destruct (Py.eq_str v "x").
    + apply bind_ok in Hv as (? & ? & _ & Hv). injection Hv as <- _.
      exact H.
    + injection Hv as <- _. exact H.
  - intros H. apply lift_ok in H. exact (proj1 H).
Qed.

(** A field declaration without enumeration whose parts are all readable
    makes a field, on every state. *)
Lemma add_field_made (hwqe dsw dhw rr : value) (cnt : nat) (fd : Py.dict)
  (bits : value) (o w : Z) (inst : string) (swr : value * value * value)
  (hwr : value * value) (r : value) (st : importer) :
  Py.get "bits" fd = Some bits -> bit_range bits = Ok (o, w) ->
  Py.lower_of (field_name_of fd cnt) = Ok inst ->
  sw (effective "swaccess" fd dsw) = Ok swr ->
  hw (effective "hwaccess" fd dhw) = Ok hwr ->
  match Py.get "resval" fd with
  | Some v => reset_value v = Ok r
  | None => inherited_resval rr o w = Ok r
  end ->
  Py.contains "enum" fd = false ->
  exists F ws,
    add_field sw hw hwqe dsw dhw rr cnt (VDict fd) st
    = Ok (F, add_warnings st ws).
Proof.
  intros Hb Hr Hl Hs Hh Hres He.
  destruct (warn_unsupported_all_ok unsupported_field_props fd
              (Field_scope (field_name_of fd cnt))) as [ws0 Hw].
  destruct swr as [[swv onw] onr], hwr as [hwv we].
  unfold add_field, bind.
  fold (field_name_of fd cnt). fold (effective "swaccess" fd dsw).
  fold (effective "hwaccess" fd dhw).
  rewrite Hw. unfold Py.item. rewrite Hb. cbn [rbind]. rewrite Hr.
  cbn [lift]. rewrite Hl. cbn [lift]. rewrite Hs. cbn [lift].
  rewrite Hh. cbn [lift]. rewrite He.
  destruct (Py.get "resval" fd) as [v|] eqn:Ev.
  - rewrite (field_resval_declared fd rr v r o w _ Ev Hres).
    unfold ret. rewrite add_warnings_app. eexists; eexists; reflexivity.
  - unfold field_resval. rewrite Ev, Hres. cbn [lift]. unfold ret.
    eexists; eexists; reflexivity.
Qed.

Lemma for_each_enum_made {A B} (body : nat -> A -> M B) (l : list A) :
  forall cnt,
    (forall i x, nth_error l i = Some x ->
       forall st, exists y ws,
         body (cnt + i)%nat x st = Ok (y, add_warnings st ws)) ->
    forall st, exists ys ws,
      for_each_enum body cnt l st = Ok (ys, add_warnings st ws).
Proof.
  induction l as [|x l IH]; intros cnt Hb st; simpl.
  - exists [], []. unfold ret. now rewrite add_warnings_nil.
  - destruct (Hb O x eq_refl st) as (y & ws & Hy).
    rewrite Nat.add_0_r in Hy.
    destruct (IH (S cnt)
                ltac:(intros i x' Hx st0;
                      replace (S cnt + i)%nat with (cnt + S i)%nat by lia;
                      exact (Hb (S i) x' Hx st0))
                (add_warnings st ws)) as (ys & ws' & Hys).
    exists (y :: ys), (ws ++ ws'). unfold bind. rewrite Hy, Hys.
    unfold ret. now rewrite add_warnings_app.
Qed.

(** A register declaration whose parts are all readable and whose fields
    can all be made makes a register, on every state that has a register
    width. *)
Lemma create_register_made (d : Py.dict) (name : string) (desc rr : value)
  (fields : list value) (st : importer) (w : Z) :
  regwidth st = Some w ->
  Py.get "name" d = Some (VStr name) -> Py.get "desc" d = Some desc ->
  register_resval d = Ok rr ->
  rbind (Py.item "fields" d) Py.iter = Ok fields ->
  (forall st0, exists Fs ws,
      for_each_enum
        (add_field sw hw (get_or_none "hwqe" d) (get_or_none "swaccess" d)
           (get_or_none "hwaccess" d) rr) O fields st0
      = Ok (Fs, add_warnings st0 ws)) ->
  exists R ws,
    create_register sw hw (VDict d) st = Ok (R, after_register st w ws).
Proof.
  intros Hst Hn Hd Hrr Hf HFs.
  destruct (warn_unsupported_all_ok unsupported_reg_props d
              (Register_scope (VStr name))) as [ws0 Hw].
  unfold create_register, bind, get_addroffset, get_regwidth, set_addroffset.
  cbn [Py.subscript]. unfold Py.item. rewrite Hn. cbn [lift Py.as_dict].
  rewrite Hw. cbn [Py.lower_of lift add_warnings regwidth addroffset].
  rewrite Hst, Hd. cbn [lift].
  unfold register_resval in Hrr.
  assert (match Py.get "resval" d with
          | Some v => lift (hex_or_dec_to_dec v)
          | None => ret (VInt 0)
          end = fun st0 => Ok (rr, st0)) as ->.
  { destruct (Py.get "resval" d) as [v|].
    - unfold lift. now rewrite Hrr.
    - now injection Hrr as <-. }
  unfold add_fields, bind. rewrite Hf. cbn [lift].
  match goal with
  | |- context [for_each_enum ?b O fields ?s] =>
      destruct (HFs s) as (Fs & ws1 & HF)
  end.
  rewrite HF. unfold ret.
  eexists; exists (ws0 ++ ws1). f_equal. f_equal.
  unfold after_register, add_warnings; simpl.
  now rewrite Hst, app_assoc.
Qed.

(** ** The interrupt registers *)

Lemma interrupt_fields_ok (cnt : nat) (intr : value)
  (f : value * value * value) :
  interrupt_fields cnt intr = Ok f ->
  exists d name desc,
    intr = VDict d /\ Py.get "name" d = Some name /\
    Py.get "desc" d = Some desc /\ f = fields_of_interrupt d name desc cnt.
Proof.
  unfold interrupt_fields. destruct intr as [| | | | | |d]; try discriminate.
  simpl. unfold Py.item.
  destruct (Py.get "name" d) as [name|] eqn:En; [|discriminate].
  destruct (Py.get "desc" d) as [desc|] eqn:Ed; [|discriminate].
  simpl. intros H. injection H as <-.
  exists d, name, desc. splits; try assumption; reflexivity.
Qed.

Lemma interrupt_fields_all_ok (intrs : list value) :
  forall cnt fs,
    interrupt_fields_all cnt intrs = Ok fs ->
    List.length fs = List.length intrs /\
    forall i intr, nth_error intrs i = Some intr ->
      exists d name desc,
        intr = VDict d /\ Py.get "name" d = Some name /\
        Py.get "desc" d = Some desc /\
        nth_error fs i = Some (fields_of_interrupt d name desc (cnt + i)).
Proof.
  induction intrs as [|intr intrs IH]; intros cnt fs H; simpl in H.
  - injection H as <-. split; [reflexivity|]. intros [|i] ? Hi; discriminate.
  - apply rbind_ok in H as (f & Hf & H).
    apply rbind_ok in H as (fs' & Hfs & H). injection H as <-.
    apply IH in Hfs as [Hlen Hnth]. split; [simpl; now rewrite Hlen|].
    intros [|i] x Hx; simpl in Hx.
    + injection Hx as <-.
      apply interrupt_fields_ok in Hf as (d & name & desc & -> & Hn & Hd & ->).
      exists d, name, desc. rewrite Nat.add_0_r. now splits.
    + destruct (Hnth i x Hx) as (d & name & desc & -> & Hn & Hd & Hi).
      exists d, name, desc. splits; try assumption; try reflexivity.
      simpl. now replace (cnt + S i)%nat with (S cnt + i)%nat by lia.
Qed.

Lemma interrupt_fields_all_made (intrs : list value) :
  Forall wf_interrupt intrs ->
  forall cnt, exists fs, interrupt_fields_all cnt intrs = Ok fs.
Proof.
  induction 1 as [|intr intrs (d & name & desc & r & -> & Hn & Hd & _) _ IH];
    intros cnt; simpl.
  - now exists [].
  - destruct (IH (S cnt)) as [fs Hfs]. rewrite Hfs.
    unfold interrupt_fields. simpl. unfold Py.item. rewrite Hn, Hd. simpl.
    eexists; reflexivity.
Qed.

Lemma nth_error_map_inv {A B} (f : A -> B) (l : list A) (i : nat) (y : B) :
  nth_error (map f l) i = Some y ->
  exists x, nth_error l i = Some x /\ y = f x.
Proof.
  rewrite nth_error_map. destruct (nth_error l i) as [x|]; [|discriminate].
  intros H; injection H as <-. now exists x.
Qed.

Lemma nth_error_in_range {A} (l : list A) (i : nat) :
  (i < List.length l)%nat -> exists x, nth_error l i = Some x.
Proof.
  intros H. destruct (nth_error l i) as [x|] eqn:E; [now exists x|].
  apply nth_error_None in E. lia.
Qed.

(** The field loop of an interrupt register goes through: [pick] selects
    the state, the enable or the test declaration of each interrupt. *)
Lemma interrupt_fields_loop_made (swtok hwtok : value)
  (pick : value * value * value -> value) (intrs : list value)
  (fs : list (value * value * value)) :
  Forall wf_interrupt intrs ->
  interrupt_fields_all O intrs = Ok fs ->
  pick = (fun f => fst (fst f)) \/ pick = (fun f => snd (fst f))
    \/ pick = (fun f => snd f) ->
  is_ok (sw swtok) = true -> is_ok (hw hwtok) = true ->
  forall st0, exists Fs ws,
    for_each_enum (add_field sw hw VNone swtok hwtok (VInt 0)) O
      (map pick fs) st0
    = Ok (Fs, add_warnings st0 ws).
Proof.
  intros Hwf Hfs Hpick Hsw Hhw.
  destruct (sw swtok) as [swr|] eqn:Es; [|discriminate].
  destruct (hw hwtok) as [hwr|] eqn:Eh; [|discriminate].
  apply interrupt_fields_all_ok in Hfs as [Hlen Hnth].
  apply for_each_enum_made. intros i x Hx st.
  apply nth_error_map_inv in Hx as (f & Hf & ->).
  destruct (nth_error_in_range intrs i) as [intr Hi].
  { rewrite <- Hlen. apply nth_error_Some. congruence. }
  destruct (Hnth i intr Hi) as (d & name & desc & -> & Hn & Hd & Hf').
  rewrite Hf in Hf'. injection Hf' as ->.
  rewrite Forall_forall in Hwf.
  destruct (Hwf _ (nth_error_In _ _ Hi))
    as (d' & nm & desc' & r & Hd' & Hn' & _ & Hr).
  injection Hd' as <-. rewrite Hn in Hn'. injection Hn' as ->.
  simpl Nat.add.
  assert (inherited_resval (VInt 0) (Z.of_nat i) 1
          = Ok (VInt (Z.shiftr (Z.land 0 (Z.shiftl (2 ^ 1 - 1) (Z.of_nat i)))
                        (Z.of_nat i)))) as Hinh.
  { unfold inherited_resval. simpl (1 <? 0).
    destruct (Z.of_nat i <? 0) eqn:E; [apply Z.ltb_lt in E; lia|].
    reflexivity. }
  destruct Hpick as [->|[->| ->]]; cbn [fields_of_interrupt fst snd].
  - eapply add_field_made with (bits := VStr (Py.str i)) (r := r);
      try reflexivity; try eassumption.
    apply bit_range_index.
  - eapply add_field_made with (bits := VStr (Py.str i));
      try reflexivity; try eassumption.
    + apply bit_range_index.
    + exact Hinh.
  - eapply add_field_made with (bits := VStr (Py.str i));
      try reflexivity; try eassumption.
    + apply bit_range_index.
    + exact Hinh.
Qed.

Lemma synthesized_field_facts (hwqe dsw dhw rr : value) (i : nat)
  (fd : Py.dict) (name : string) (desc : value) (st st' : importer)
  (F : Field) :
  add_field sw hw hwqe dsw dhw rr i (VDict fd) st = Ok (F, st') ->
  Py.get "name" fd = Some (VStr name) -> Py.get "desc" fd = Some desc ->
  Py.get "bits" fd = Some (VStr (Py.str i)) ->
  Py.get "swaccess" fd = None -> Py.get "hwaccess" fd = None ->
  Py.contains "enum" fd = false ->
  interrupt_bit F i name desc /\ has_access sw hw F dsw dhw /\
  match Py.get "resval" fd with
  | Some v => exists r, reset_value v = Ok r /\
                        property "reset" (f_properties F) = Some (PObj r)
  | None => True
  end.
Proof.
  intros H Hn Hd Hb Hs Hh He.
  apply add_field_ok in H
    as (fd' & bits & inst & swv & onw & onr & hwv & we & resval & encode
        & st1 & st2 & Hfd & Hbits & Hrange & Hl & Hin & Htn & Hsw & Hhw
        & Hres & Henc & Hprops).
  injection Hfd as <-. rewrite Hb in Hbits. injection Hbits as <-.
  rewrite bit_range_index in Hrange. injection Hrange as Ho Hw.
  unfold field_name_of in Hl. rewrite Hn in Hl. injection Hl as <-.
  unfold effective in Hsw, Hhw, Hprops. rewrite Hs in Hsw, Hprops.
  rewrite Hh in Hhw, Hprops.
  rewrite He in Henc. subst encode.
  splits.
  - unfold interrupt_bit. splits; try congruence.
    rewrite Hprops, property_desc by reflexivity. now rewrite Hd.
  - exists swv, onw, onr, hwv, we. rewrite Hprops.
    split; [exact Hsw|]. split; [exact Hhw|].
    split; [apply property_sw_hw|].
    split; [apply property_side_effects|].
    split; [apply property_side_effects|].
    split; [apply property_sw_hw|].
    now apply property_we.
  - apply field_resval_ok in Hres.
    destruct (Py.get "resval" fd) as [v|]; [|exact I].
    exists resval. split; [exact Hres|].
    rewrite Hprops. apply property_reset.
Qed.

(** The three interrupt registers are made, whatever the state they start
    from. *)
Lemma intr_regs_made (intrs : list value) (fs : list (value * value * value))
  (st : importer) (w : Z) :
  Forall wf_interrupt intrs -> interrupt_fields_all O intrs = Ok fs ->
  regwidth st = Some w ->
  is_ok (sw (VStr "rw1c")) = true -> is_ok (sw (VStr "rw")) = true ->
  is_ok (sw (VStr "wo")) = true ->
  is_ok (hw (VStr "hrw")) = true -> is_ok (hw (VStr "hro")) = true ->
  exists R_state R_enable R_test ws,
    for_each (create_register sw hw) (intr_regs fs) st
    = Ok ([R_state; R_enable; R_test], after_registers st w 3 ws).
Proof.
  intros Hwf Hfs Hst H1 H2 H3 H4 H5.
  pose proof (interrupt_fields_loop_made (VStr "rw1c") (VStr "hrw")
                (fun f => fst (fst f)) intrs fs Hwf Hfs
                ltac:(now left) H1 H4) as La.
  pose proof (interrupt_fields_loop_made (VStr "rw") (VStr "hro")
                (fun f => snd (fst f)) intrs fs Hwf Hfs
                ltac:(right; now left) H2 H5) as Lb.
  pose proof (interrupt_fields_loop_made (VStr "wo") (VStr "hro")
                (fun f => snd f) intrs fs Hwf Hfs
                ltac:(right; now right) H3 H5) as Lc.
  unfold intr_regs. cbn [for_each]. unfold bind.
  edestruct (create_register_made
               [("name", VStr "intr_state");
                ("desc", VStr "Interrupt state register.");
                ("swaccess", VStr "rw1c"); ("hwaccess", VStr "hrw");
                ("fields", VList (map (fun f => fst (fst f)) fs))]
               "intr_state" _ (VInt 0) _ st w Hst eq_refl eq_refl eq_refl
               eq_refl La) as (Ra & wsa & Ha).
  rewrite Ha.
  edestruct (create_register_made
               [("name", VStr "intr_enable");
                ("desc", VStr "Interrupt enable register.");
                ("swaccess", VStr "rw"); ("hwaccess", VStr "hro");
                ("fields", VList (map (fun f => snd (fst f)) fs))]
               "intr_enable" _ (VInt 0) _ (after_register st w wsa) w
               eq_refl eq_refl eq_refl eq_refl eq_refl Lb)
    as (Rb & wsb & Hb).
  rewrite Hb.
  edestruct (create_register_made
               [("name", VStr "intr_test");
                ("desc", VStr "Interrupt test register.");
                ("swaccess", VStr "wo"); ("hwaccess", VStr "hro");
                ("hwext", VStr "true");
                ("fields", VList (map (fun f => snd f) fs))]
               "intr_test" _ (VInt 0) _
               (after_register (after_register st w wsa) w wsb) w
               eq_refl eq_refl eq_refl eq_refl eq_refl Lc)
    as (Rc & wsc & Hc).
  rewrite Hc. unfold ret.
  exists Ra, Rb, Rc, (wsa ++ wsb ++ wsc). do 2 f_equal.
  unfold after_registers, after_register.
  cbn [regwidth addroffset warnings roots].
  rewrite !app_assoc. f_equal. change (Z.of_nat 3) with 3. lia.
Qed.

(** The facts about the field of one interrupt in one of the three
    registers. *)
Lemma interrupt_register_bit (R : Reg) (rd : Py.dict) (st st' : importer)
  (pick : value * value * value -> value)
  (intrs : list value) (fs : list (value * value * value)) :
  create_register sw hw (VDict rd) st = Ok (R, st') ->
  interrupt_fields_all O intrs = Ok fs ->
  Py.get "fields" rd = Some (VList (map pick fs)) ->
  pick = (fun f => fst (fst f)) \/ pick = (fun f => snd (fst f))
    \/ pick = (fun f => snd f) ->
  List.length (r_children R) = List.length intrs /\
  forall i d name desc,
    nth_error intrs i = Some (VDict d) ->
    Py.get "name" d = Some (VStr name) -> Py.get "desc" d = Some desc ->
    exists F,
      nth_error (r_children R) i = Some F /\
      interrupt_bit F i name desc /\
      has_access sw hw F (get_or_none "swaccess" rd)
        (get_or_none "hwaccess" rd) /\
      (pick = (fun f => fst (fst f)) ->
       exists r, reset_value (declared_default d) = Ok r /\
                 property "reset" (f_properties F) = Some (PObj r)).
Proof.
  intros HR Hfs Hfields Hpick.
  apply register_fields_ok in HR
    as (d0 & rname & rr & fields & Hd0 & _ & _ & _ & _ & Hf & Hlen & Hnth).
  injection Hd0 as <-.
  unfold Py.item in Hf. rewrite Hfields in Hf. simpl in Hf.
  injection Hf as <-.
  apply interrupt_fields_all_ok in Hfs as [Hlfs Hnfs].
  rewrite length_map, Hlfs in Hlen. split; [exact Hlen|].
  intros i d name desc Hi Hn Hd.
  destruct (nth_error_in_range (r_children R) i) as [F HF].
  { rewrite Hlen. apply nth_error_Some. congruence. }
  exists F. split; [exact HF|].
  destruct (Hnth i F HF) as (fdv & sti & sti' & Hx & Hb).
  apply nth_error_map_inv in Hx as (f & Hf & ->).
  destruct (Hnfs i _ Hi) as (d' & name' & desc' & Hd' & Hn' & Hdesc' & Hf').
  injection Hd' as <-. rewrite Hn in Hn'. injection Hn' as <-.
  rewrite Hd in Hdesc'. injection Hdesc' as <-.
  rewrite Hf in Hf'. injection Hf' as ->. simpl Nat.add in Hb.
  destruct Hpick as [->|[->| ->]]; cbn [fields_of_interrupt fst snd] in Hb;
    apply synthesized_field_facts with (name := name) (desc := desc) in Hb
      as (Hbit & Hacc & Hres); try reflexivity;
    splits; try assumption.
  - intros _. exact Hres.
  - intros Hp. exfalso.
    pose proof (f_equal (fun p => p (VNone, VBool true, VNone)) Hp) as Hp'.
    discriminate Hp'.
  - intros Hp. exfalso.
    pose proof (f_equal (fun p => p (VNone, VNone, VBool true)) Hp) as Hp'.
    discriminate Hp'.
Qed.

(** ** Claim C2 *)

(** C2 (as amended). For every interrupt list of length n (n <= 32) whose
    entries are mappings with a string name, a description and a default
    that reads as a reset value if there is one, exactly three registers
    are synthesized and emitted before any user-declared register, in
    order [intr_state] (software access [rw1c], hardware access [hrw]),
    [intr_enable] ([rw], [hro]) and [intr_test] ([wo], [hro], marked
    external); each contains n one-bit fields where field i is at bit
    position i under the lowercased name of interrupt i and with its
    description, and carries the access properties the tables give for
    the register's two tokens ([sw], [onread], [onwrite], [hw], [we]); the
    reset value of the [intr_state] field is the interrupt's declared
    default read as a reset value, or 0 when no default is declared. *)
Theorem C2_interrupt_registers (node : Addrmap) (tree : Py.dict)
  (intrs : list value) (st : importer) (w : Z) :
  Py.get "interrupt_list" tree = Some (VList intrs) ->
  (List.length intrs <= 32)%nat ->
  Forall wf_interrupt intrs ->
  regwidth st = Some w ->
  is_ok (sw (VStr "rw1c")) = true -> is_ok (sw (VStr "rw")) = true ->
  is_ok (sw (VStr "wo")) = true ->
  is_ok (hw (VStr "hrw")) = true -> is_ok (hw (VStr "hro")) = true ->
  exists R_state R_enable R_test st1,
    (forall node' st',
        add_registers sw hw node tree st = Ok (node', st') <->
        exists registers Rs,
          rbind (Py.item "registers" tree) Py.iter = Ok registers /\
          for_each (create_register sw hw) registers st1 = Ok (Rs, st') /\
          node' = add_children
                    (add_children node
                       (map CReg [R_state; R_enable; R_test]))
                    (map CReg Rs)) /\
    (r_inst_name R_state = "intr_state" /\ r_external R_state = false) /\
    (r_inst_name R_enable = "intr_enable" /\ r_external R_enable = false) /\
    (r_inst_name R_test = "intr_test" /\ r_external R_test = true) /\
    List.length (r_children R_state) = List.length intrs /\
    List.length (r_children R_enable) = List.length intrs /\
    List.length (r_children R_test) = List.length intrs /\
    forall i d name desc,
      nth_error intrs i = Some (VDict d) ->
      Py.get "name" d = Some (VStr name) -> Py.get "desc" d = Some desc ->
      exists F_state F_enable F_test r,
        nth_error (r_children R_state) i = Some F_state /\
        nth_error (r_children R_enable) i = Some F_enable /\
        nth_error (r_children R_test) i = Some F_test /\
        interrupt_bit F_state i name desc /\
        interrupt_bit F_enable i name desc /\
        interrupt_bit F_test i name desc /\
        has_access sw hw F_state (VStr "rw1c") (VStr "hrw") /\
        has_access sw hw F_enable (VStr "rw") (VStr "hro") /\
        has_access sw hw F_test (VStr "wo") (VStr "hro") /\
        reset_value (declared_default d) = Ok r /\
        property "reset" (f_properties F_state) = Some (PObj r).
Proof.
  intros Hil Hle Hwf Hst H1 H2 H3 H4 H5.
  destruct (interrupt_fields_all_made intrs Hwf O) as [fs Hfs].
  destruct (intr_regs_made intrs fs st w Hwf Hfs Hst H1 H2 H3 H4 H5)
    as (Ra & Rb & Rc & ws & HR).
  exists Ra, Rb, Rc, (after_registers st w 3 ws).
  pose proof (for_each_ok _ _ _ _ _ HR) as [_ Hn].
  destruct (Hn 0%nat Ra eq_refl) as (xa & sa & sa' & Hxa & Hca).
  destruct (Hn 1%nat Rb eq_refl) as (xb & sb & sb' & Hxb & Hcb).
  destruct (Hn 2%nat Rc eq_refl) as (xc & sc & sc' & Hxc & Hcc).
  injection Hxa as <-. injection Hxb as <-. injection Hxc as <-.
  destruct (interrupt_register_bit _ _ _ _ _ intrs fs Hca Hfs eq_refl
              ltac:(now left)) as [Hla Hba].
  destruct (interrupt_register_bit _ _ _ _ _ intrs fs Hcb Hfs eq_refl
              ltac:(right; now left)) as [Hlb Hbb].
  destruct (interrupt_register_bit _ _ _ _ _ intrs fs Hcc Hfs eq_refl
              ltac:(right; now right)) as [Hlc Hbc].
  assert (r_inst_name Ra = "intr_state" /\ r_external Ra = false) as [? ?].
  { apply create_register_ok in Hca
      as (d & nm & ? & ? & ? & ? & ? & Hd & Hnm & Hin & _ & _ & Hex & _).
    injection Hd as <-. injection Hnm as <-. split; [exact Hin|exact Hex]. }
  assert (r_inst_name Rb = "intr_enable" /\ r_external Rb = false) as [? ?].
  { apply create_register_ok in Hcb
      as (d & nm & ? & ? & ? & ? & ? & Hd & Hnm & Hin & _ & _ & Hex & _).
    injection Hd as <-. injection Hnm as <-. split; [exact Hin|exact Hex]. }
  assert (r_inst_name Rc = "intr_test" /\ r_external Rc = true) as [? ?].
  { apply create_register_ok in Hcc
      as (d & nm & ? & ? & ? & ? & ? & Hd & Hnm & Hin & _ & _ & Hex & _).
    injection Hd as <-. injection Hnm as <-. split; [exact Hin|exact Hex]. }
  splits; try assumption.
  - intros node' st'. split.
    + intros Hadd. apply add_registers_ok in Hadd
        as (il & n & intrs' & fs' & Rs1 & st1 & registers & Rs2
            & Hil' & _ & _ & Hit & Hfs' & HR1 & Hreg & HR2 & ->).
      rewrite Hil in Hil'. injection Hil' as <-. simpl in Hit.
      injection Hit as <-. rewrite Hfs in Hfs'. injection Hfs' as <-.
      rewrite HR in HR1. injection HR1 as <- <-.
      now exists registers, Rs2.
    + intros (registers & Rs & Hreg & HRs & ->).
      unfold add_registers, bind. unfold Py.item at 1. rewrite Hil.
      cbn [lift Py.len]. apply Nat.leb_le in Hle. rewrite Hle.
      cbn [ret Py.iter lift]. rewrite Hfs. cbn [lift]. rewrite HR.
      rewrite Hreg. cbn [lift]. rewrite HRs. reflexivity.
  - intros i d name desc Hi Hnm Hd.
    destruct (Hba i d name desc Hi Hnm Hd) as (Fa & HFa & Bita & Acca & Resa).
    destruct (Hbb i d name desc Hi Hnm Hd) as (Fb & HFb & Bitb & Accb & _).
    destruct (Hbc i d name desc Hi Hnm Hd) as (Fc & HFc & Bitc & Accc & _).
    destruct (Resa eq_refl) as (r & Hr & Hreset).
    exists Fa, Fb, Fc, r. now splits.
Qed.

(** ** Documents that differ in their interrupts *)

Lemma set_set_comm (k1 k2 : string) (v1 v2 : value) (d : Py.dict) :
  String.eqb k1 k2 = false ->
  Py.contains k1 d = true -> Py.contains k2 d = true ->
  Py.set k1 v1 (Py.set k2 v2 d) = Py.set k2 v2 (Py.set k1 v1 d).
Proof.
  intros Hne. unfold Py.contains.
  induction d as [|[k v] d IH]; simpl; [discriminate|].
  destruct (String.eqb k1 k) eqn:E1, (String.eqb k2 k) eqn:E2; simpl;
    rewrite ?E1, ?E2; try reflexivity.
  - apply String.eqb_eq in E1, E2. subst. now rewrite String.eqb_refl in Hne.
  - intros H1 H2. now rewrite IH.
Qed.

Lemma writer_transfer {A} (m : M A) (s0 s0' : importer) (a : A) :
  writer m -> m s0 = Ok (a, s0') ->
  forall s, exists ws, m s = Ok (a, add_warnings s ws).
Proof.
  intros [[[a0 ws]|e] Hm] H s; rewrite Hm in H; simpl in H; [|discriminate].
  injection H as <- _. exists ws. now rewrite Hm.
Qed.

(** The signal of a well-formed interrupt is made, and what
    [create_signal] writes to the entry leaves it well-formed. *)
Lemma create_signal_interrupt (intr : value) :
  wf_interrupt intr ->
  forall s, exists sig intr' ws,
    create_signal known intr "interrupt" s
    = Ok ((sig, intr'), add_warnings s ws) /\ wf_interrupt intr'.
Proof.
  intros (d & name & desc & r & -> & Hn & Hd & Hr) s.
  destruct (warn_unsupported_all_ok unsupported_signal_props d
              (Signal_scope (VStr name))) as [ws Hw].
  unfold create_signal, bind. cbn [Py.subscript]. unfold Py.item.
  rewrite Hn. cbn [lift Py.as_dict]. rewrite Hw.
  cbn [String.eqb Ascii.eqb Bool.eqb]. unfold ret.
  do 2 eexists. exists ws. split; [reflexivity|].
  eexists _, name, desc, r. split; [reflexivity|].
  assert (forall k, String.eqb k "signalwidth" = false ->
                    String.eqb k "output" = false ->
                    Py.get k
                      (if Py.contains "output"
                            (if Py.contains "width" d then d
                             else Py.set "signalwidth" (VInt 1) d)
                       then if Py.contains "width" d then d
                            else Py.set "signalwidth" (VInt 1) d
                       else Py.set "output" (VBool true)
                              (if Py.contains "width" d then d
                               else Py.set "signalwidth" (VInt 1) d))
                    = Py.get k d) as Hget.
  { intros k Hk1 Hk2.
    destruct (Py.contains "width" d);
      match goal with
      | |- context [if ?b then _ else _] => destruct b
      end; rewrite ?get_set, ?Hk1, ?Hk2; reflexivity. }
  unfold declared_default in *. rewrite !Hget by reflexivity. now splits.
Qed.

Lemma create_signals_interrupts (intrs : list value) :
  Forall wf_interrupt intrs ->
  forall s, exists made ws,
    for_each (fun i => create_signal known i "interrupt") intrs s
    = Ok (made, add_warnings s ws) /\
    List.length made = List.length intrs /\
    Forall wf_interrupt (map snd made).
Proof.
  induction 1 as [|intr intrs Hwf _ IH]; intros s; simpl.
  - exists [], []. unfold ret. rewrite add_warnings_nil. now splits.
  - destruct (create_signal_interrupt intr Hwf s)
      as (sig & intr' & ws & Hc & Hwf').
    destruct (IH (add_warnings s ws)) as (made & ws' & Hm & Hlen & Hall).
    exists ((sig, intr') :: made), (ws ++ ws'). unfold bind.
    rewrite Hc, Hm. unfold ret. rewrite add_warnings_app.
    splits; [reflexivity|simpl; now rewrite Hlen|].
    simpl. now constructor.
Qed.

(** One list of plain signals goes through on a document as it does on
    the same document without its interrupts. *)
Lemma add_signal_list_transfer (lt ty : string) (node node0 node0' : Addrmap)
  (t t0' : Py.dict) (y : value) (s s0 s0' : importer) :
  String.eqb lt "interrupt_list" = false ->
  Py.contains "interrupt_list" t = true ->
  add_signal_list known lt ty node0 (Py.set "interrupt_list" y t) s0
  = Ok ((node0', t0'), s0') ->
  exists node' t' ws,
    add_signal_list known lt ty node t s
    = Ok ((node', t'), add_warnings s ws) /\
    t0' = Py.set "interrupt_list" y t' /\
    Py.get "interrupt_list" t' = Py.get "interrupt_list" t /\
    regs_of (a_children node') = regs_of (a_children node) /\
    (forall k, String.eqb k lt = false -> Py.get k t' = Py.get k t).
Proof.
  intros Hne Hc H. unfold add_signal_list in *.
  rewrite get_set, Hne in H.
  destruct (Py.get lt t) as [v|] eqn:Ev.
  - apply bind_ok in H as (entries & s1 & He & H).
    apply lift_ok in He as [He ->].
    apply bind_ok in H as (made & s2 & Hm & H).
    injection H as <- <- <-.
    destruct (writer_transfer _ _ _ _
                (writer_for_each _ _ (fun x => writer_create_signal x ty))
                Hm s) as [ws Hs].
    unfold bind. rewrite He. cbn [lift]. rewrite Hs. unfold ret.
    do 2 eexists. exists ws. split; [reflexivity|].
    assert (String.eqb "interrupt_list" lt = false) as Hne'.
    { now rewrite String.eqb_sym. }
    splits.
    + destruct v; try reflexivity.
      apply set_set_comm; try assumption.
      unfold Py.contains. now rewrite Ev.
    + destruct v; try reflexivity. rewrite get_set. now rewrite Hne'.
    + simpl. rewrite regs_of_app, regs_of_signal_children. apply app_nil_r.
    + intros k Hk. destruct v; try reflexivity. rewrite get_set.
      now rewrite Hk.
  - injection H as <- <- <-. exists node, t, []. unfold ret.
    rewrite add_warnings_nil. now splits.
Qed.

(** [add_signals] goes through on a document with well-formed interrupts
    if it does on the same document without them. *)
Lemma add_signals_transfer (tree : Py.dict) (intrs : list value)
  (node0 C0' : Addrmap) (t0' : Py.dict) (s0 s0' : importer) :
  Py.get "interrupt_list" tree = Some (VList intrs) ->
  Forall wf_interrupt intrs ->
  add_signals known node0 (Py.set "interrupt_list" (VList []) tree) s0
  = Ok ((C0', t0'), s0') ->
  forall node s, exists C' t' ws intrs',
    add_signals known node tree s = Ok ((C', t'), add_warnings s ws) /\
    regs_of (a_children C') = regs_of (a_children node) /\
    Py.get "interrupt_list" t' = Some (VList intrs') /\
    List.length intrs' = List.length intrs /\
    Forall wf_interrupt intrs' /\
    (forall k, String.eqb k "available_input_list" = false ->
               String.eqb k "available_output_list" = false ->
               String.eqb k "available_inout_list" = false ->
               String.eqb k "interrupt_list" = false ->
               Py.get k t' = Py.get k tree).
Proof.
  intros Hil Hwf H node s. unfold add_signals in H.
  apply bind_ok in H as (n0 & s1 & Hc & H).
  rewrite get_set in Hc. cbn [String.eqb Ascii.eqb Bool.eqb] in Hc.
  assert (exists n ws,
             match Py.get "clocking" tree with
             | Some clocking =>
                 entries <- lift (Py.iter clocking) ;;
                 made <- for_each (add_clocking_entry known) entries ;;
                 ret (add_children node (map CSignal (List.concat made)))
             | None => ret node
             end s = Ok (n, add_warnings s ws) /\
             regs_of (a_children n) = regs_of (a_children node))
    as (n & ws0 & Hcn & Hrn).
  { destruct (Py.get "clocking" tree) as [clocking|].
    - apply bind_ok in Hc as (entries & s2 & He & Hc).
      apply lift_ok in He as [He ->].
      apply bind_ok in Hc as (made & s3 & Hm & Hc).
      assert (writer (for_each (add_clocking_entry known) entries)) as Wm.
      { apply writer_for_each. intros x. unfold add_clocking_entry.
        repeat first [apply writer_create_signal | writer_step]. }
      destruct (writer_transfer _ _ _ _ Wm Hm s) as [ws Hs].
      unfold bind. rewrite He. cbn [lift]. rewrite Hs. unfold ret.
      eexists; exists ws. split; [reflexivity|].
      simpl. rewrite regs_of_app, regs_of_signals. apply app_nil_r.
    - exists node, []. unfold ret. rewrite add_warnings_nil. now split. }
  assert (Py.contains "interrupt_list" tree = true) as Hct.
  { unfold Py.contains. now rewrite Hil. }
  apply bind_ok in H as ([n1 t1] & s2 & H1 & H).
  apply (add_signal_list_transfer _ _ n _ _ _ _ _ (add_warnings s ws0))
    in H1 as (n1' & t1' & ws1 & H1 & -> & Hi1 & Hr1 & Hk1);
    [|reflexivity|exact Hct].
  assert (Py.contains "interrupt_list" t1' = true) as Hct1.
  { unfold Py.contains. now rewrite Hi1, Hil. }
  apply bind_ok in H as ([n2 t2] & s3 & H2 & H).
  apply (add_signal_list_transfer _ _ n1' _ _ _ _ _
           (add_warnings (add_warnings s ws0) ws1))
    in H2 as (n2' & t2' & ws2 & H2 & -> & Hi2 & Hr2 & Hk2);
    [|reflexivity|exact Hct1].
  assert (Py.contains "interrupt_list" t2' = true) as Hct2.
  { unfold Py.contains. now rewrite Hi2, Hi1, Hil. }
  apply bind_ok in H as ([n3 t3] & s4 & H3 & H).
  apply (add_signal_list_transfer _ _ n2' _ _ _ _ _
           (add_warnings (add_warnings (add_warnings s ws0) ws1) ws2))
    in H3 as (n3' & t3' & ws3 & H3 & -> & Hi3 & Hr3 & Hk3);
    [|reflexivity|exact Hct2].
  clear H.
  destruct (create_signals_interrupts intrs Hwf
              (add_warnings
                 (add_warnings (add_warnings (add_warnings s ws0) ws1) ws2)
                 ws3)) as (made & ws4 & Hm & Hlen & Hall).
  unfold add_signals.
  rewrite (bind_made _ _ _ _ _ Hcn). cbn beta.
  rewrite (bind_made _ _ _ _ _ H1). cbn beta iota.
  rewrite (bind_made _ _ _ _ _ H2). cbn beta iota.
  rewrite (bind_made _ _ _ _ _ H3). cbn beta iota.
  unfold add_signal_list, bind. rewrite Hi3, Hi2, Hi1, Hil.
  cbn [Py.iter lift]. rewrite Hm. unfold ret.
  rewrite !add_warnings_app.
  do 2 eexists. exists (ws0 ++ ws1 ++ ws2 ++ ws3 ++ ws4), (map snd made).
  splits.
  - reflexivity.
  - simpl. rewrite regs_of_app, regs_of_signal_children, app_nil_r.
    congruence.
  - rewrite get_set. now rewrite String.eqb_refl.
  - now rewrite length_map.
  - exact Hall.
  - intros k Ha Hb Hc' Hd. rewrite get_set, Hd.
    now rewrite Hk3, Hk2, Hk1.
Qed.

(** [add_registers], put together from its parts. *)
Lemma add_registers_made (node : Addrmap) (tree : Py.dict)
  (intrs registers : list value) (fs : list (value * value * value))
  (Rs1 Rs2 : list Reg) (st st1 st' : importer) :
  Py.get "interrupt_list" tree = Some (VList intrs) ->
  (List.length intrs <= 32)%nat ->
  interrupt_fields_all O intrs = Ok fs ->
  for_each (create_register sw hw) (intr_regs fs) st = Ok (Rs1, st1) ->
  rbind (Py.item "registers" tree) Py.iter = Ok registers ->
  for_each (create_register sw hw) registers st1 = Ok (Rs2, st') ->
  add_registers sw hw node tree st
  = Ok (add_children (add_children node (map CReg Rs1)) (map CReg Rs2), st').
Proof.
  intros Hil Hle Hfs HR1 Hreg HR2.
  unfold add_registers, bind. unfold Py.item at 1. rewrite Hil.
  cbn [lift Py.len]. apply Nat.leb_le in Hle. rewrite Hle.
  cbn [ret Py.iter lift]. rewrite Hfs. cbn [lift]. rewrite HR1, Hreg.
  cbn [lift]. now rewrite HR2.
Qed.

Lemma warn_unsupported_all_set (keys : list string) (k : string)
  (v : value) (tree : Py.dict) (sc : scope) :
  Py.contains k tree = true ->
  warn_unsupported_all keys (Py.set k v tree) sc
  = warn_unsupported_all keys tree sc.
Proof.
  intros Hc. induction keys as [|key keys IH]; simpl; [reflexivity|].
  rewrite IH. unfold warn_unsupported. rewrite contains_set.
  destruct (String.eqb key k) eqn:E; [|reflexivity].
  apply String.eqb_eq in E. subst key. now rewrite Hc.
Qed.

(** ** Claim C3 *)

(** C3. Translation of a document succeeds for every interrupt list with
    at most 32 entries (exactly 32 included), and fails fatally, with no
    partial model, for every interrupt list with 33 or more entries.
    Success is that of the interrupts: the entries are well-formed, the
    access tables know the five tokens of the interrupt registers, and the
    document translates when its interrupt list is emptied. *)
Theorem C3_interrupt_limit (tree : Py.dict) (intrs : list value)
  (st : importer) :
  Py.get "interrupt_list" tree = Some (VList intrs) ->
  ((32 < List.length intrs)%nat ->
   exists e, import_file sw hw known tree st = Raise e) /\
  ((List.length intrs <= 32)%nat ->
   Forall wf_interrupt intrs ->
   is_ok (sw (VStr "rw1c")) = true -> is_ok (sw (VStr "rw")) = true ->
   is_ok (sw (VStr "wo")) = true ->
   is_ok (hw (VStr "hrw")) = true -> is_ok (hw (VStr "hro")) = true ->
   (exists st0,
       import_file sw hw known (Py.set "interrupt_list" (VList []) tree) st
       = Ok (tt, st0)) ->
   exists st', import_file sw hw known tree st = Ok (tt, st')).
Proof.
  intros Hil. split.
  - intros Hlt.
    destruct (import_file sw hw known tree st) as [[[] st']|e] eqn:E;
      [exfalso|now exists e].
    apply import_file_ok in E
      as (name & C1 & tree1 & ws & width & C2 & st2
          & _ & _ & _ & _ & _ & Hil1 & _ & Hr & _).
    destruct (Hil1 _ Hil) as (v' & Hv' & Hlen).
    apply add_registers_ok in Hr
      as (il & n & ? & ? & ? & ? & ? & ? & Hil' & Hn & Hle & _).
    rewrite Hv' in Hil'. injection Hil' as <-.
    rewrite Hlen in Hn. simpl in Hn. injection Hn as <-. lia.
  - intros Hle Hwf H1 H2 H3 H4 H5 [st0 H0].
    assert (Py.contains "interrupt_list" tree = true) as Hct.
    { unfold Py.contains. now rewrite Hil. }
    apply import_file_ok in H0
      as (name & C1_0 & t1_0 & ws_0 & width & C2_0 & st2_0
          & Hn & Htr & (sA & sA' & Hs0) & _ & Hk0 & _ & Hdw & Hr0 & _).
    rewrite get_set in Hn. cbn [String.eqb Ascii.eqb Bool.eqb] in Hn.
    (* the user registers, as the emptied document runs them *)
    apply add_registers_ok in Hr0
      as (il0 & n0 & intrs0 & fs0 & Rs1_0 & st1_0 & registers & Rs2_0
          & _ & _ & _ & _ & _ & HR1_0 & Hreg0 & HR2_0 & _).
    destruct (create_registers_shape (intr_regs fs0)) as [r1 [Hs1 _]].
    match type of HR1_0 with
    | for_each _ _ ?s = _ => rewrite (Hs1 s width eq_refl) in HR1_0
    end.
    destruct r1 as [[mks1 wsa]|e]; [|discriminate].
    injection HR1_0 as _ <-.
    destruct (create_registers_shape registers) as [r2 [Hs2 _]].
    match type of HR2_0 with
    | for_each _ _ ?s = _ => rewrite (Hs2 s width eq_refl) in HR2_0
    end.
    destruct r2 as [[mks2 wsb]|e]; [|discriminate]. clear HR2_0.
    assert (Py.get "registers" t1_0 = Py.get "registers" tree) as Hregs.
    { rewrite (Hk0 "registers" eq_refl eq_refl eq_refl eq_refl).
      now rewrite get_set. }
    assert (document_regwidth tree = Ok width) as Hdw'.
    { unfold document_regwidth in *. now rewrite get_set in Hdw. }
    (* the document itself *)
    destruct (warn_unsupported_all_ok unsupported_addrmap_props tree
                Addrmap_scope) as [ws0 Hw].
    unfold import_file, import_ip.
    rewrite (bind_made _ _ _ _ _ eq_refl). cbn beta.
    rewrite (bind_made _ _ _ _ _ eq_refl). cbn beta.
    rewrite (bind_made _ _ _ _ _ (Hw _)). cbn beta.
    unfold Py.item at 1. rewrite Hn.
    rewrite (bind_made _ _ _ _ _ eq_refl). cbn beta. rewrite Htr.
    rewrite (bind_made _ _ _ _ _ eq_refl). cbn beta.
    cbn [regwidth addroffset warnings roots].
    match goal with
    | |- context [bind (add_signals known ?n tree) _ ?s] =>
        destruct (add_signals_transfer tree intrs _ _ _ _ _ Hil Hwf Hs0 n s)
          as (C1 & t1 & ws1 & intrs' & Hs & _ & Hil' & Hlen' & Hwf' & Hk)
    end.
    rewrite (bind_made _ _ _ _ _ Hs). cbn beta iota.
    assert (match Py.get "regwidth" t1 with
            | Some v => lift (Py.int v)
            | None => ret 32
            end = fun s => Ok (width, s)) as ->.
    { rewrite (Hk "regwidth" eq_refl eq_refl eq_refl eq_refl).
      unfold document_regwidth in Hdw'.
      destruct (Py.get "regwidth" tree) as [v|].
      - unfold lift. now rewrite Hdw'.
      - now injection Hdw' as <-. }
    rewrite (bind_made _ _ _ _ _ eq_refl). cbn beta.
    rewrite (bind_made _ _ _ _ _ eq_refl). cbn beta.
    (* the registers *)
    destruct (interrupt_fields_all_made intrs' Hwf' O) as [fs Hfs].
    assert (rbind (Py.item "registers" t1) Py.iter = Ok registers) as Hreg1.
    { unfold Py.item in *.
      rewrite (Hk "registers" eq_refl eq_refl eq_refl eq_refl), <- Hregs.
      exact Hreg0. }
    match goal with
    | |- context [bind (add_registers sw hw C1 t1) _ ?s] =>
        destruct (intr_regs_made intrs' fs s width Hwf' Hfs eq_refl
                    H1 H2 H3 H4 H5) as (Ra & Rb & Rc & wsi & HR1);
        pose proof (Hs2 (after_registers s width 3 wsi) width eq_refl) as HR2;
        rewrite (bind_made _ _ _ _ _
                   (add_registers_made C1 t1 intrs' registers fs _ _ s _ _
                      Hil' ltac:(lia) Hfs HR1 Hreg1 HR2))
    end.
    cbn beta. eexists. reflexivity.
Qed.

(** ** The document name *)

(** A document without a [name] key ends in the [KeyError] of
    [tree['name']], before the check that would report it. *)
Lemma import_file_name_missing (tree : Py.dict) (st : importer) :
  Py.get "name" tree = None ->
  import_file sw hw known tree st = Raise (KeyError "name").
Proof.
  intros Hn.
  destruct (warn_unsupported_all_ok unsupported_addrmap_props tree
              Addrmap_scope) as [ws Hw].
  unfold import_file, import_ip.
  rewrite (bind_made _ _ _ _ _ eq_refl). cbn beta.
  rewrite (bind_made _ _ _ _ _ eq_refl). cbn beta.
  rewrite (bind_made _ _ _ _ _ (Hw _)). cbn beta.
  unfold bind, Py.item. now rewrite Hn.
Qed.

(** A document whose [name] is empty (or any other false value) is
    refused through [msg.fatal]. *)
Lemma import_file_name_empty (tree : Py.dict) (name : value) (st : importer) :
  Py.get "name" tree = Some name -> Py.truthy name = false ->
  import_file sw hw known tree st
  = Raise (RDLCompileError "memoryMap is missing required tag 'name'").
Proof.
  intros Hn Ht.
  destruct (warn_unsupported_all_ok unsupported_addrmap_props tree
              Addrmap_scope) as [ws Hw].
  unfold import_file, import_ip.
  rewrite (bind_made _ _ _ _ _ eq_refl). cbn beta.
  rewrite (bind_made _ _ _ _ _ eq_refl). cbn beta.
  rewrite (bind_made _ _ _ _ _ (Hw _)). cbn beta.
  unfold Py.item at 1. rewrite Hn.
  rewrite (bind_made _ _ _ _ _ eq_refl). cbn beta. rewrite Ht.
  reflexivity.
Qed.

(** ** The properties of a signal *)

Lemma property_app (k : string) (ps qs : properties) :
  property k (ps ++ qs)
  = match property k ps with
    | Some v => Some v
    | None => property k qs
    end.
Proof.
  induction ps as [|[k0 v0] ps IH]; simpl; [reflexivity|].
  destruct (String.eqb k k0); [reflexivity|exact IH].
Qed.

Lemma forward_keeps (k : string) (d : Py.dict) :
  forall sig v,
    property k (s_properties sig) = Some v ->
    property k (s_properties (fold_left (forward known) d sig)) = Some v.
Proof.
  induction d as [|[k0 v0] d IH]; intros sig v H; simpl; [exact H|].
  apply IH. unfold forward. simpl.
  destruct (known k0 && negb (String.eqb k0 "name")); [|exact H].
  simpl. now rewrite property_app, H.
Qed.

(** A key of the entry is forwarded, with the entry's value, exactly when
    the registry knows it and it is not [name]. *)
Lemma forward_property (k : string) (d : Py.dict) :
  forall sig,
    property k (s_properties sig) = None ->
    property k (s_properties (fold_left (forward known) d sig))
    = if known k && negb (String.eqb k "name")
      then option_map PObj (Py.get k d)
      else None.
Proof.
  induction d as [|[k0 v0] d IH]; intros sig H.
  - simpl. rewrite H. now destruct (known k && negb (String.eqb k "name")).
  - cbn [fold_left Py.get]. destruct (String.eqb k k0) eqn:E.
    + apply String.eqb_eq in E. subst k0. unfold forward at 2.
      cbn [fst snd option_map].
      destruct (known k && negb (String.eqb k "name")) eqn:Ek.
      * apply forward_keeps. cbn [assign_signal s_properties].
        rewrite property_app, H. cbn [property]. now rewrite String.eqb_refl.
      * rewrite IH by exact H. reflexivity.
    + apply IH. unfold forward. cbn [fst snd].
      destruct (known k0 && negb (String.eqb k0 "name")); [|exact H].
      cbn [assign_signal s_properties].
      rewrite property_app, H. cbn [property]. now rewrite E.
Qed.

Lemma forward_names (d : Py.dict) :
  forall sig,
    s_type_name (fold_left (forward known) d sig) = s_type_name sig /\
    s_inst_name (fold_left (forward known) d sig) = s_inst_name sig.
Proof.
  induction d as [|kv d IH]; intros sig; simpl; [now split|].
  destruct (IH (forward known sig kv)) as [-> ->]. unfold forward.
  now destruct (known (fst kv) && negb (String.eqb (fst kv) "name")).
Qed.

(** What a signal that [create_signal] has made is made of. *)
Lemma create_signal_ok (sig_dict : value) (sig_type : string)
  (st st' : importer) (sig : Signal) (e : value) :
  create_signal known sig_dict sig_type st = Ok ((sig, e), st') ->
  exists d name,
    sig_dict = VDict d /\ Py.get "name" d = Some name /\
    s_type_name sig = name /\
    let direction := if String.eqb sig_type "interrupt" then "output"
                     else sig_type in
    s_inst_name sig = (if String.eqb sig_type "interrupt"
                       then IntrPort name else Named name) /\
    e = VDict (written_entry d direction) /\
    forall k,
      property k (s_properties sig)
      = if known k && negb (String.eqb k "name")
        then option_map PObj (Py.get k (written_entry d direction))
        else None.
Proof.
  unfold create_signal. intros H.
  apply bind_ok in H as (name & st0 & Hn & H).
  apply lift_ok in Hn as [Hn ->].
  apply bind_ok in H as (d & st0 & Hd & H).
  apply lift_ok in Hd as [Hd ->].
  destruct sig_dict as [| | | | | |d']; try discriminate.
  injection Hd as ->. simpl in Hn. unfold Py.item in Hn.
  destruct (Py.get "name" d) as [name'|] eqn:En; [|discriminate].
  injection Hn as ->.
  apply bind_ok in H as ([] & st1 & _ & H).
  exists d, name. split; [reflexivity|]. split; [exact En|].
  destruct (String.eqb sig_type "interrupt"); cbv zeta;
    injection H as <- <- _;
    (split; [exact (proj1 (forward_names _ _))|]);
    (split; [exact (proj2 (forward_names _ _))|]);
    (split; [reflexivity|]);
    intros k; apply (forward_property k); reflexivity.
Qed.

(** The width of a signal: 1 under [signalwidth] when the entry declares
    no width; when it declares one, [signalwidth] is not assigned from it
    (the entry's own [signalwidth] key, if any, is what is forwarded), and
    the declared value goes out under [width] if the registry has a
    property of that name. *)
Lemma create_signal_width (d : Py.dict) (sig_type : string)
  (st st' : importer) (sig : Signal) (e : value) :
  create_signal known (VDict d) sig_type st = Ok ((sig, e), st') ->
  String.eqb sig_type "input" || String.eqb sig_type "output"
    || String.eqb sig_type "inout" || String.eqb sig_type "interrupt" = true ->
  match Py.get "width" d with
  | None =>
      property "signalwidth" (s_properties sig)
      = if known "signalwidth" then Some (PObj (VInt 1)) else None
  | Some width =>
      property "signalwidth" (s_properties sig)
      = (if known "signalwidth"
         then option_map PObj (Py.get "signalwidth" d) else None) /\
      property "width" (s_properties sig)
      = if known "width" then Some (PObj width) else None
  end.
Proof.
  intros H Hty. apply create_signal_ok in H
    as (d' & name & Hd & _ & _ & _ & _ & Hp).
  injection Hd as <-.
  assert (forall k, String.eqb k "input" = false ->
                    String.eqb k "output" = false ->
                    String.eqb k "inout" = false ->
                    Py.get k (written_entry d
                                (if String.eqb sig_type "interrupt"
                                 then "output" else sig_type))
                    = Py.get k (if Py.contains "width" d then d
                                else Py.set "signalwidth" (VInt 1) d)) as Hg.
  { intros k Hi Ho Hio. unfold written_entry.
    match goal with
    | |- context [if Py.contains ?t ?x then _ else _] =>
        destruct (Py.contains t x); [reflexivity|]
    end.
    rewrite get_set.
    destruct (String.eqb sig_type "interrupt") eqn:E1; [now rewrite Ho|].
    destruct (String.eqb sig_type "input") eqn:E2;
      [apply String.eqb_eq in E2; subst; now rewrite Hi|].
    destruct (String.eqb sig_type "output") eqn:E3;
      [apply String.eqb_eq in E3; subst; now rewrite Ho|].
    destruct (String.eqb sig_type "inout") eqn:E4;
      [apply String.eqb_eq in E4; subst; now rewrite Hio|].
    discriminate. }
  unfold Py.contains in Hg.
  destruct (Py.get "width" d) as [width|] eqn:Ew.
  - split; rewrite Hp, Hg by reflexivity; cbn [String.eqb Ascii.eqb Bool.eqb];
      rewrite ?andb_true_r; [reflexivity|now rewrite Ew].
  - rewrite Hp, Hg by reflexivity. cbn [String.eqb Ascii.eqb Bool.eqb].
    rewrite andb_true_r, get_set. reflexivity.
Qed.

(** ** Reset values *)

Lemma hex_or_dec_to_dec_int (z : Z) : hex_or_dec_to_dec (VInt z) = Ok (VInt z).
Proof. reflexivity. Qed.

Lemma hex_or_dec_to_dec_decimal (n : nat) :
  hex_or_dec_to_dec (VStr (Py.str n)) = Ok (VInt (Z.of_nat n)).
Proof.
  unfold hex_or_dec_to_dec.
  destruct (str_shape n) as (ds & c0 & Heq & Hall & _).
  assert (Py.startswith "0x" (Py.str n) = false) as ->.
  { rewrite Heq. cbn [all_digits] in Hall.
    apply andb_true_iff in Hall as [H0 Hds].
    unfold Py.startswith. destruct ds as [|c1 ds]; cbn [String.prefix].
    - now destruct (Ascii.ascii_dec "0" c0).
    - cbn [all_digits] in Hds. apply andb_true_iff in Hds as [H1 _].
      destruct (Ascii.ascii_dec "0" c0); [|reflexivity].
      destruct (Ascii.ascii_dec "x" c1) as [<-|]; [discriminate|].
      reflexivity. }
  now rewrite int_of_string_str.
Qed.

(** At field level, [x] is read as 0 and a warning is sent. *)
Lemma field_resval_x (fd : Py.dict) (rr : value) (o w : Z) (st : importer) :
  Py.get "resval" fd = Some (VStr "x") ->
  field_resval fd rr o w st
  = Ok (VInt 0, add_warnings st [Unsupported_resval (VStr "x")]).
Proof.
  intros H. now rewrite (field_resval_declared fd rr _ (VInt 0) o w st H).
Qed.

(** At register level, [x] is handed to [int] and refused. *)
Lemma create_register_resval_x (d : Py.dict) (name : string) (desc : value)
  (st : importer) (w : Z) :
  regwidth st = Some w ->
  Py.get "name" d = Some (VStr name) -> Py.get "desc" d = Some desc ->
  Py.get "resval" d = Some (VStr "x") ->
  create_register sw hw (VDict d) st = Raise ValueError.
Proof.
  intros Hst Hn Hd Hr.
  destruct (warn_unsupported_all_ok unsupported_reg_props d
              (Register_scope (VStr name))) as [ws0 Hw].
  unfold create_register, bind, get_addroffset, get_regwidth, set_addroffset.
  cbn [Py.subscript]. unfold Py.item. rewrite Hn. cbn [lift Py.as_dict].
  rewrite Hw. cbn [Py.lower_of lift add_warnings regwidth addroffset].
  rewrite Hst, Hd, Hr. reflexivity.
Qed.

End Properties.

(** * The claims at concrete documents *)

Lemma status_made_ok :
  create_register spec_sw_from_access spec_hw_from_access status_reg ready
  = Ok (status_made, status_left).
Proof. vm_compute. reflexivity. Qed.

Lemma uart_imported_ok :
  import_file spec_sw_from_access spec_hw_from_access spec_lookup_property
    uart new_importer = Ok (tt, uart_imported).
Proof. vm_compute. reflexivity. Qed.

(** The document of section 8: the registers sit at 0, 4, 8 and 12, each
    above the one before. *)
Lemma C1_register_offsets_witness :
  exists C,
    roots uart_imported = [C] /\
    map r_inst_name (regs_of (a_children C))
    = ["intr_state"; "intr_enable"; "intr_test"; "ctrl"] /\
    (forall k R, nth_error (regs_of (a_children C)) k = Some R ->
       r_addr_offset R = Z.of_nat k * (32 / 8)) /\
    (forall j k Rj Rk,
       (j < k)%nat ->
       nth_error (regs_of (a_children C)) j = Some Rj ->
       nth_error (regs_of (a_children C)) k = Some Rk ->
       r_addr_offset Rj < r_addr_offset Rk).
Proof.
  destruct (C1_register_offsets spec_sw_from_access spec_hw_from_access
              spec_lookup_property uart new_importer uart_imported
              uart_imported_ok)
    as (width & C & registers & Ra & Rb & Rc & Rs & Hw & Hroots & _ & _ & _
        & _ & _ & _ & _ & Hoff & _ & _ & Hup & _).
  injection Hw as <-. exists C. split; [exact Hroots|].
  split; [|split; [exact Hoff|exact (Hup ltac:(lia))]].
  vm_compute in Hroots. injection Hroots as <-. reflexivity.
Defined.

(** A document of register width 4: the counter moves on by [4 // 8 = 0],
    and the four registers sit at the same offset. *)
Lemma C1_counterexample :
  match import_file spec_sw_from_access spec_hw_from_access
          spec_lookup_property cramped new_importer with
  | Ok (_, st) =>
      map (fun C => map (fun R => (r_inst_name R, r_addr_offset R))
                      (regs_of (a_children C))) (roots st)
  | Raise _ => []
  end = [[("intr_state", 0); ("intr_enable", 0); ("intr_test", 0);
          ("ctrl", 0)]].
Proof. vm_compute. reflexivity. Qed.

Lemma uart_interrupts_wf :
  Forall wf_interrupt
    [VDict [("name", VStr "tx_done"); ("desc", VStr "d")];
     VDict [("name", VStr "rx_full"); ("desc", VStr "d");
            ("default", VInt 1)]].
Proof.
  repeat constructor.
  - exists [("name", VStr "tx_done"); ("desc", VStr "d")], "tx_done",
      (VStr "d"), (VInt 0). repeat split.
  - exists [("name", VStr "rx_full"); ("desc", VStr "d");
            ("default", VInt 1)], "rx_full", (VStr "d"), (VInt 1).
    repeat split.
Defined.

(** The interrupts of the document of section 8: bit 1 of [intr_state] is
    [rx_full], with reset value 1; it is cleared by writing one and written
    by hardware under a write-enable, while bit 1 of [intr_enable] and of
    [intr_test] have no side effect and no write-enable. *)
Lemma C2_interrupt_registers_witness :
  exists R_state R_enable R_test F_state F_enable F_test,
    map r_inst_name [R_state; R_enable; R_test]
    = ["intr_state"; "intr_enable"; "intr_test"] /\
    map r_external [R_state; R_enable; R_test] = [false; false; true] /\
    nth_error (r_children R_state) 1 = Some F_state /\
    nth_error (r_children R_enable) 1 = Some F_enable /\
    nth_error (r_children R_test) 1 = Some F_test /\
    interrupt_bit F_state 1 "rx_full" (VStr "d") /\
    property "reset" (f_properties F_state) = Some (PObj (VInt 1)) /\
    map (fun k => property k (f_properties F_state))
      ["sw"; "onread"; "onwrite"; "hw"; "we"]
    = [Some (PObj (VSym "rw")); None; Some (PObj (VSym "woclr"));
       Some (PObj (VSym "rw")); Some (PObj (VBool true))] /\
    map (fun k => property k (f_properties F_enable))
      ["sw"; "onread"; "onwrite"; "hw"; "we"]
    = [Some (PObj (VSym "rw")); None; None; Some (PObj (VSym "r")); None] /\
    map (fun k => property k (f_properties F_test))
      ["sw"; "onread"; "onwrite"; "hw"; "we"]
    = [Some (PObj (VSym "w")); None; None; Some (PObj (VSym "r")); None].
Proof.
  destruct (C2_interrupt_registers spec_sw_from_access spec_hw_from_access
              (create_addrmap_definition (VStr "uart")) uart _ ready 32
              eq_refl ltac:(simpl; lia) uart_interrupts_wf eq_refl
              eq_refl eq_refl eq_refl eq_refl eq_refl)
    as (Ra & Rb & Rc & st1 & _ & [Hna Hea] & [Hnb Heb] & [Hnc Hec]
        & _ & _ & _ & Hbits).
  destruct (Hbits 1%nat _ "rx_full" (VStr "d") eq_refl eq_refl eq_refl)
    as (Fa & Fb & Fc & r & HFa & HFb & HFc & Hbit & _ & _ & Ha & Hb & Hc
        & Hr & Hreset).
  injection Hr as <-.
  destruct Ha as (sa & wa & ra & ha & ea & Hsa & Hha & Pa1 & Pa2 & Pa3
                  & Pa4 & Pa5).
  injection Hsa as <- <- <-. injection Hha as <- <-.
  destruct Hb as (sb & wb & rb & hb & eb & Hsb & Hhb & Pb1 & Pb2 & Pb3
                  & Pb4 & Pb5).
  injection Hsb as <- <- <-. injection Hhb as <- <-.
  destruct Hc as (sc & wc & rc & hc & ec & Hsc & Hhc & Pc1 & Pc2 & Pc3
                  & Pc4 & Pc5).
  injection Hsc as <- <- <-. injection Hhc as <- <-.
  exists Ra, Rb, Rc, Fa, Fb, Fc. cbn [map].
  rewrite Hna, Hnb, Hnc, Hea, Heb, Hec.
  rewrite Pa1, Pa2, Pa3, Pa4, Pa5, Pb1, Pb2, Pb3, Pb4, Pb5,
    Pc1, Pc2, Pc3, Pc4, Pc5.
  repeat (split; [first [reflexivity|assumption]|]). reflexivity.
Defined.

(** An interrupt named in upper case: its bits go by the lowercased
    name, not by the interrupt's name. *)
Lemma C2_counterexample :
  match import_file spec_sw_from_access spec_hw_from_access
          spec_lookup_property shouting new_importer with
  | Ok (_, st) =>
      map (fun C => map (fun R => map f_inst_name (r_children R))
                      (regs_of (a_children C))) (roots st)
  | Raise _ => []
  end = [[["tx_done"]; ["tx_done"]; ["tx_done"]]]
  /\ String.eqb "tx_done" "TX_Done" = false.
Proof. split; vm_compute; reflexivity. Qed.

Lemma crowded_wf (n : nat) : Forall wf_interrupt (repeat irq n).
Proof.
  apply Forall_forall. intros x Hx. apply repeat_spec in Hx. subst x.
  exists [("name", VStr "irq"); ("desc", VStr "d")], "irq", (VStr "d"),
    (VInt 0). repeat split.
Defined.

(** 33 interrupts are refused, 32 go through. *)
Lemma C3_interrupt_limit_witness :
  (exists e,
      import_file spec_sw_from_access spec_hw_from_access
        spec_lookup_property (crowded 33) new_importer = Raise e) /\
  (exists st',
      import_file spec_sw_from_access spec_hw_from_access
        spec_lookup_property (crowded 32) new_importer = Ok (tt, st')).
Proof.
  split.
  - apply (proj1 (C3_interrupt_limit spec_sw_from_access
                    spec_hw_from_access spec_lookup_property (crowded 33)
                    (repeat irq 33) new_importer eq_refl)).
    apply Nat.ltb_lt. reflexivity.
  - apply (proj2 (C3_interrupt_limit spec_sw_from_access
                    spec_hw_from_access spec_lookup_property (crowded 32)
                    (repeat irq 32) new_importer eq_refl));
      try reflexivity.
    + apply crowded_wf.
    + eexists. vm_compute. reflexivity.
Defined.

(** Bits [31:16], bit [7], and a range of three parts. *)
Lemma C4_bit_range_witness :
  bit_range (VStr "31:16") = Ok (16, 16) /\
  bit_range (VStr "7") = Ok (7, 1) /\
  exists e,
    add_field spec_sw_from_access spec_hw_from_access VNone (VStr "rw")
      (VStr "hro") (VInt 0) 0 (VDict [("bits", VStr "1:2:3")]) ready
    = Raise e.
Proof.
  pose proof (C4_bit_range spec_sw_from_access spec_hw_from_access)
    as (Hrange & Hindex & _ & _ & Hother).
  split; [exact (Hrange 31%nat 16%nat)|].
  split; [exact (Hindex 7%nat)|].
  apply (Hother VNone (VStr "rw") (VStr "hro") (VInt 0) 0%nat
           [("bits", VStr "1:2:3")] "1:2:3" ready eq_refl).
  intros offset width [(a & b & hi & lo & Hs & _)|(a & n & Hs & _)];
    vm_compute in Hs; discriminate Hs.
Defined.

(** A field at bits [7:4] of a register that resets to [0xA5] resets to
    [0xA]. *)
Lemma C5_inherited_reset_witness :
  exists F,
    nth_error (r_children status_made) 0 = Some F /\
    f_bit_offset F = 4 /\ f_bit_width F = 4 /\
    property "reset" (f_properties F)
    = Some (PObj (VInt (Z.land (Z.shiftr 165 4) (Z.shiftl 1 4 - 1)))).
Proof.
  destruct (C5_inherited_reset spec_sw_from_access spec_hw_from_access
              status_reg ready status_left status_made status_made_ok)
    as (d & rr & fields & Hd & Hrr & Hf & _ & Hnth).
  injection Hd as <-. vm_compute in Hrr. injection Hrr as <-.
  vm_compute in Hf. injection Hf as <-.
  eexists. split; [reflexivity|].
  destruct (Hnth 0%nat _ eq_refl) as (fd & Hfd & Hres).
  injection Hfd as <-.
  destruct (Hres eq_refl) as (r & Hr & _ & _ & Hreset).
  injection Hr as <-. split; [reflexivity|]. split; [reflexivity|].
  exact Hreset.
Defined.

(** A read-only field that hardware writes: the table has a write-enable
    for [hwo], the field has none. *)
Lemma C6_write_enable_witness :
  spec_hw_from_access (VStr "hwo") = Ok (VSym "w", VBool true) /\
  exists F,
    nth_error (r_children status_made) 0 = Some F /\
    property "we" (f_properties F) = None.
Proof.
  split; [reflexivity|].
  destruct (C6_write_enable spec_sw_from_access spec_hw_from_access
              status_reg ready status_left status_made status_made_ok)
    as (d & fields & Hd & Hf & Hnth).
  injection Hd as <-. vm_compute in Hf. injection Hf as <-.
  eexists. split; [reflexivity|].
  destruct (Hnth 0%nat _ eq_refl) as (fd & hwv & we & Hfd & _ & Hwe).
  injection Hfd as <-. exact Hwe.
Defined.


(** ** Claim C7 *)

(** C7, at a document without a [name] key: the import ends in the
    [KeyError] of the lookup, not in a fatal message of the diagnostics
    interface; that message is what a document with an empty name gets. *)
Theorem C7_missing_name_is_a_KeyError :
  import_file spec_sw_from_access spec_hw_from_access spec_lookup_property
    nameless new_importer = Raise (KeyError "name") /\
  import_file spec_sw_from_access spec_hw_from_access spec_lookup_property
    empty_name new_importer
  = Raise (RDLCompileError "memoryMap is missing required tag 'name'").
Proof.
  split.
  - now apply import_file_name_missing.
  - now apply import_file_name_empty with (name := VStr EmptyString).
Qed.

(** ** Claim C8 *)

(** C8, at an input that declares a width of 8: whatever the registry,
    [signalwidth] is not assigned, and with the registry of the
    specification the signal carries the direction flag only; an input
    without a width gets [signalwidth] 1. *)
Theorem C8_declared_width_is_not_assigned :
  (forall known,
      match create_signal known wide_input "input" new_importer with
      | Ok (sig, _, _) => property "signalwidth" (s_properties sig)
      | Raise _ => Some (PObj VNone)
      end = None) /\
  match create_signal spec_lookup_property wide_input "input"
          new_importer with
  | Ok (sig, _, _) => s_properties sig
  | Raise _ => []
  end = [("input", PObj (VBool true))] /\
  match create_signal spec_lookup_property plain_input "input"
          new_importer with
  | Ok (sig, _, _) => s_properties sig
  | Raise _ => []
  end = [("desc", PObj (VStr "d")); ("signalwidth", PObj (VInt 1));
         ("input", PObj (VBool true))].
Proof.
  split; [|split; reflexivity].
  intros known.
  destruct (create_signal known wide_input "input" new_importer)
    as [[[sig e] st']|err] eqn:E.
  - apply create_signal_width in E; [|reflexivity].
    simpl in E. destruct E as [E _]. rewrite E.
    now destruct (known "signalwidth").
  - exfalso. vm_compute in E. discriminate E.
Qed.

(** ** Claim C9 *)

(** C9, at a register whose own [resval] is [x]: [create_register] hands
    the text to [int] and ends in its [ValueError]; the same [x] on a field
    is read as 0 with a warning. *)
Theorem C9_register_resval_x_is_refused :
  create_register spec_sw_from_access spec_hw_from_access undefined_reg ready
  = Raise ValueError /\
  match create_register spec_sw_from_access spec_hw_from_access
          undefined_field ready with
  | Ok (R, st) =>
      (map (fun F => property "reset" (f_properties F)) (r_children R),
       warnings st)
  | Raise _ => ([], [])
  end = ([Some (PObj (VInt 0))], [Unsupported_resval (VStr "x")]).
Proof.
  split.
  - now apply create_register_resval_x with (name := "r") (desc := VStr "d")
                                           (w := 32).
  - reflexivity.
Qed.

(** * Further properties of the importer *)

Section Further.

Variable sw : value -> result (value * value * value).
Variable hw : value -> result (value * value).
Variable known : string -> bool.

(** ** Reset-value texts *)

(** X1. [hex_or_dec_to_dec] turns every string it accepts into an integer and
    hands any other value on as it is; applied to its own result it changes
    nothing. *)
Theorem hex_or_dec_to_dec_result (v w : value) :
  hex_or_dec_to_dec v = Ok w ->
  match v with
  | VStr _ => exists z, w = VInt z
  | _ => w = v
  end /\ hex_or_dec_to_dec w = Ok w.
Proof.
  intros H. destruct v as [| b | z | s | s | l | d];
    try (injection H as <-; split; reflexivity).
  unfold hex_or_dec_to_dec in H.
  destruct (Py.startswith "0x" s);
    apply rbind_ok in H as (z & _ & H); injection H as <-;
    (split; [now exists z | reflexivity]).
Qed.

Lemma hex_digit_not_underscore (c : ascii) :
  is_hex_digit c = true -> Ascii.eqb c "_" = false.
Proof.
  intros H. destruct (Ascii.eqb_spec c "_") as [->|]; [|reflexivity].
  vm_compute in H. discriminate H.
Qed.

Lemma scan_hex (s : string) :
  all_hex s = true ->
  forall acc b, (b = true -> s <> EmptyString) ->
    Py.scan_digits 16 b acc s = Some (hex_number acc s, EmptyString).
Proof.
  induction s as [|c s IH]; intros Hall acc b Hb.
  - destruct b; [now elim Hb|reflexivity].
  - cbn [all_hex] in Hall. apply andb_true_iff in Hall as [Hc Hs].
    cbn [Py.scan_digits hex_number].
    rewrite (hex_digit_not_underscore c Hc).
    unfold is_hex_digit in Hc.
    destruct (Py.digit_value c) as [d|]; [|discriminate Hc].
    rewrite Hc. apply IH; [exact Hs|discriminate].
Qed.

Lemma int_of_string_hex_first (c : ascii) (s : string) :
  is_hex_digit c = true ->
  Py.int_of_string 16 (String "0" (String "x" (String c s)))
  = match Py.scan_digits 16 false 0 (String c s) with
    | None => Raise ValueError
    | Some (z, rest) =>
        if (String.length rest =? String.length (String c s))%nat
        then Raise ValueError
        else match Py.skip_space rest with
             | EmptyString => Ok (1 * z)
             | _ => Raise ValueError
             end
    end.
Proof.
  destruct c as [[] [] [] [] [] [] [] []]; intros H;
    try (vm_compute in H; discriminate H); reflexivity.
Qed.

(** X2. A reset value written as [0x] and hexadecimal digits, in either case,
    is read as the number the digits write in base 16. *)
Theorem hex_or_dec_to_dec_hex (s : string) :
  s <> EmptyString -> all_hex s = true ->
  hex_or_dec_to_dec (VStr ("0x" ++ s)) = Ok (VInt (hex_number 0 s)).
Proof.
  intros Hne Hall. destruct s as [|c s]; [now elim Hne|].
  change ("0x" ++ String c s)%string
    with (String "0" (String "x" (String c s))).
  unfold hex_or_dec_to_dec.
  change (Py.startswith "0x" (String "0" (String "x" (String c s))))
    with true.
  cbn iota. pose proof Hall as Hall'. cbn [all_hex] in Hall'.
  apply andb_true_iff in Hall' as [Hc _].
  rewrite (int_of_string_hex_first c s Hc).
  rewrite (scan_hex (String c s) Hall 0 false) by discriminate.
  cbn [String.length Nat.eqb Py.skip_space rbind].
  f_equal. f_equal. now destruct (hex_number 0 (String c s)).
Qed.

(** X3. The prefix is matched as written: behind an upper-case [0X], or a
    sign, a hexadecimal text is read in base 10 and refused. *)
Theorem hex_or_dec_to_dec_prefix (s : string) :
  hex_or_dec_to_dec (VStr ("0X" ++ s)) = Raise ValueError /\
  hex_or_dec_to_dec (VStr ("-0x" ++ s)) = Raise ValueError.
Proof.
  assert (forall n : nat, (n =? S n)%nat = false) as Hn.
  { intros n. apply Nat.eqb_neq. lia. }
  split.
  - change ("0X" ++ s)%string with (String "0" (String "X" s)).
    unfold hex_or_dec_to_dec.
    change (Py.startswith "0x" (String "0" (String "X" s))) with false.
    cbn iota. unfold Py.int_of_string. cbn. now rewrite Hn.
  - change ("-0x" ++ s)%string with (String "-" (String "0" (String "x" s))).
    unfold hex_or_dec_to_dec.
    change (Py.startswith "0x" (String "-" (String "0" (String "x" s))))
      with false.
    cbn iota. unfold Py.int_of_string. cbn. now rewrite Hn.
Qed.

(** ** Warnings about unsupported keys *)

Lemma warn_unsupported_all_exact (keys : list string) (tree : Py.dict)
  (sc : scope) :
  forall st,
    warn_unsupported_all keys tree sc st
    = Ok (tt, add_warnings st
                (map (Unsupported_key sc) (present_keys keys tree))).
Proof.
  induction keys as [|key keys IH]; intros st.
  - cbn. now rewrite add_warnings_nil.
  - cbn [warn_unsupported_all present_keys filter].
    fold (present_keys keys tree).
    unfold bind, warn_unsupported.
    destruct (Py.contains key tree).
    + cbn [warning]. rewrite IH. cbn [map]. f_equal. f_equal.
      unfold add_warnings; cbn. now rewrite <- app_assoc.
    + cbn [ret]. apply IH.
Qed.

(** ** Signals *)

(** What [create_signal] does with a mapping that has a [name]. *)
Lemma create_signal_run (d : Py.dict) (name : value) (sig_type : string)
  (st : importer) :
  Py.get "name" d = Some name ->
  let direction := if String.eqb sig_type "interrupt" then "output"
                   else sig_type in
  create_signal known (VDict d) sig_type st
  = Ok ((fold_left (forward known) (written_entry d direction)
           (instantiate_signal name
              (if String.eqb sig_type "interrupt"
               then IntrPort name else Named name)),
         VDict (written_entry d direction)),
        add_warnings st
          (map (Unsupported_key (Signal_scope name))
             (present_keys unsupported_signal_props d))).
Proof.
  intros Hn. unfold create_signal, bind.
  cbn [Py.subscript]. unfold Py.item. rewrite Hn.
  cbn [lift Py.as_dict]. rewrite warn_unsupported_all_exact.
  unfold written_entry.
  destruct (String.eqb sig_type "interrupt"); reflexivity.
Qed.

(** X4. [create_signal] takes every entry that is a mapping with a [name]:
    its own code checks no other key (the primitives of [systemrdl] are
    taken to record what they are given).  It sends one warning per
    unsupported key the entry has, names the signal after the entry, and
    leaves the entry with a [signalwidth] of 1 if it has no [width] and
    with its direction flag. *)
Theorem create_signal_named (d : Py.dict) (name : value) (sig_type : string)
  (st : importer) :
  Py.get "name" d = Some name ->
  exists sig,
    create_signal known (VDict d) sig_type st
    = Ok ((sig,
           VDict (written_entry d (if String.eqb sig_type "interrupt"
                                   then "output" else sig_type))),
          add_warnings st
            (map (Unsupported_key (Signal_scope name))
               (present_keys unsupported_signal_props d))) /\
    s_type_name sig = name /\
    s_inst_name sig = (if String.eqb sig_type "interrupt"
                       then IntrPort name else Named name).
Proof.
  intros Hn. eexists. split; [exact (create_signal_run d name _ st Hn)|].
  split; [exact (proj1 (forward_names known _ _))
         |exact (proj2 (forward_names known _ _))].
Qed.

Lemma get_written_entry (k direction : string) (d : Py.dict) :
  String.eqb k "signalwidth" = false -> String.eqb k direction = false ->
  Py.get k (written_entry d direction) = Py.get k d.
Proof.
  intros Hs Hd. unfold written_entry.
  destruct (Py.contains "width" d);
    [destruct (Py.contains direction d)
    |destruct (Py.contains direction (Py.set "signalwidth" (VInt 1) d))];
    rewrite ?get_set, ?Hs, ?Hd; reflexivity.
Qed.

Lemma get_written_direction (direction : string) (d : Py.dict) :
  String.eqb direction "signalwidth" = false ->
  Py.get direction (written_entry d direction)
  = Some match Py.get direction d with
         | Some v => v
         | None => VBool true
         end.
Proof.
  intros Hs. unfold written_entry.
  assert (forall d', Py.get direction d' = Py.get direction d ->
            Py.get direction
              (if Py.contains direction d' then d'
               else Py.set direction (VBool true) d')
            = Some match Py.get direction d with
                   | Some v => v
                   | None => VBool true
                   end) as H.
  { intros d' E. unfold Py.contains. rewrite E.
    destruct (Py.get direction d) as [v|]; [exact E|].
    rewrite get_set, String.eqb_refl. reflexivity. }
  destruct (Py.contains "width" d); apply H; [reflexivity|].
  now rewrite get_set, Hs.
Qed.

(** X5. An interrupt becomes a signal under the port name [intr_<name>_o], typed
    by the interrupt's name, and is an output: the flag [output] is
    assigned ([True], or what the entry itself has under that key) whenever
    the registry has the property.  The entry's [name] is never assigned
    as a property. *)
Theorem interrupt_signal_is_output (d : Py.dict) (st st' : importer)
  (sig : Signal) (e : value) :
  create_signal known (VDict d) "interrupt" st = Ok ((sig, e), st') ->
  exists name,
    Py.get "name" d = Some name /\
    s_type_name sig = name /\ s_inst_name sig = IntrPort name /\
    property "output" (s_properties sig)
    = (if known "output"
       then Some (PObj match Py.get "output" d with
                       | Some v => v
                       | None => VBool true
                       end)
       else None) /\
    property "name" (s_properties sig) = None.
Proof.
  intros H. apply create_signal_ok in H
    as (d' & name & Hd & Hn & Ht & Hi & _ & Hp).
  injection Hd as <-. exists name.
  cbn [String.eqb Ascii.eqb Bool.eqb] in Hi, Hp.
  splits; try assumption.
  - rewrite Hp. cbn [String.eqb Ascii.eqb Bool.eqb negb].
    rewrite andb_true_r.
    destruct (known "output"); [|reflexivity].
    now rewrite get_written_direction.
  - rewrite Hp. rewrite String.eqb_refl. cbn [negb].
    now rewrite andb_false_r.
Qed.

Lemma clocking_pair_signal (kv : string * value) (st : importer) :
  exists sig e,
    create_signal known (VDict (clocking_sig_dict (fst kv) (snd kv)))
      "input" st = Ok ((sig, e), st) /\
    clocking_signal known kv sig.
Proof.
  destruct kv as [key v]. cbn [fst snd].
  assert (Py.get "name" (clocking_sig_dict key v) = Some v) as Hn.
  { unfold clocking_sig_dict.
    destruct (String.eqb key "clock"); [reflexivity|].
    destruct (String.eqb key "reset"); [|reflexivity].
    destruct (Py.eq_str v "rst_ni"); reflexivity. }
  assert (present_keys unsupported_signal_props (clocking_sig_dict key v)
          = []) as Hk.
  { unfold clocking_sig_dict.
    destruct (String.eqb key "clock"); [reflexivity|].
    destruct (String.eqb key "reset"); [|reflexivity].
    destruct (Py.eq_str v "rst_ni"); reflexivity. }
  pose proof (create_signal_run _ v "input" st Hn) as H. cbv zeta in H.
  rewrite Hk in H. cbn [map] in H. rewrite add_warnings_nil in H.
  match type of H with
  | _ = Ok (?made, _, _) => remember made as sig eqn:Es; clear Es
  end.
  exists sig. eexists. split; [exact H|].
  apply create_signal_ok in H as (d' & name & Hd & Hn' & Ht & Hi & _ & Hp).
  injection Hd as <-. rewrite Hn in Hn'. injection Hn' as <-.
  cbn [String.eqb Ascii.eqb Bool.eqb] in Hi, Hp.
  unfold clocking_signal, flag. cbn [fst snd]. cbv zeta.
  rewrite !Hp. clear Hp.
  unfold clocking_sig_dict.
  destruct (String.eqb key "clock") eqn:Ec.
  { apply String.eqb_eq in Ec. subst key.
    splits; try assumption; cbn;
      repeat match goal with
             | |- context [known ?k] => destruct (known k)
             end; reflexivity. }
  destruct (String.eqb key "reset") eqn:Er.
  { destruct (Py.eq_str v "rst_ni");
      splits; try assumption; cbn;
        repeat match goal with
               | |- context [known ?k] => destruct (known k)
               end; reflexivity. }
  splits; try assumption; cbn;
    repeat match goal with
           | |- context [known ?k] => destruct (known k)
           end; reflexivity.
Qed.

(** X6. A [clocking] entry that is a mapping gives one input signal per
    [role: name] pair, in order; the importer's code raises nothing there
    and sends no warning.  A reset is active low only under the name
    [rst_ni]. *)
Theorem add_clocking_entry_signals (items : Py.dict) (st : importer) :
  exists sigs,
    add_clocking_entry known (VDict items) st = Ok (sigs, st) /\
    Forall2 (clocking_signal known) items sigs.
Proof.
  unfold add_clocking_entry, bind. cbn [Py.as_dict lift].
  induction items as [|kv items (sigs & IH & Hall)].
  - exists []. split; [reflexivity|constructor].
  - destruct (clocking_pair_signal kv st) as (sig & e & H & Hc).
    exists (sig :: sigs). split; [|now constructor].
    cbn [for_each]. unfold bind. cbn beta. rewrite H. cbn beta iota.
    unfold ret at 1. rewrite IH. reflexivity.
Qed.

(** ** Registers *)

(** X7. A register declaration without a [desc] is refused: the lookup of the
    key ends the import in its [KeyError]. *)
Theorem create_register_needs_desc (d : Py.dict) (name : string)
  (st : importer) (w : Z) :
  regwidth st = Some w ->
  Py.get "name" d = Some (VStr name) -> Py.get "desc" d = None ->
  create_register sw hw (VDict d) st = Raise (KeyError "desc").
Proof.
  intros Hst Hn Hd.
  unfold create_register, bind, get_addroffset, get_regwidth, set_addroffset.
  cbn [Py.subscript]. unfold Py.item. rewrite Hn. cbn [lift Py.as_dict].
  rewrite warn_unsupported_all_exact.
  cbn [Py.lower_of lift add_warnings regwidth addroffset].
  rewrite Hst, Hd. reflexivity.
Qed.

(** X8. So is a register declaration without [fields], once its name, its
    description and its reset value have been read. *)
Theorem create_register_needs_fields (d : Py.dict) (name : string)
  (desc rr : value) (st : importer) (w : Z) :
  regwidth st = Some w ->
  Py.get "name" d = Some (VStr name) -> Py.get "desc" d = Some desc ->
  register_resval d = Ok rr -> Py.get "fields" d = None ->
  create_register sw hw (VDict d) st = Raise (KeyError "fields").
Proof.
  intros Hst Hn Hd Hr Hf.
  unfold create_register, bind, get_addroffset, get_regwidth, set_addroffset.
  cbn [Py.subscript]. unfold Py.item. rewrite Hn. cbn [lift Py.as_dict].
  rewrite warn_unsupported_all_exact.
  cbn [Py.lower_of lift add_warnings regwidth addroffset].
  rewrite Hst, Hd. unfold register_resval in Hr.
  unfold add_fields, bind, Py.item.
  destruct (Py.get "resval" d) as [v|].
  - unfold lift at 1. rewrite Hr. now rewrite Hf.
  - cbn [ret]. now rewrite Hf.
Qed.

(** X9. A register carries one property, its description, and is external
    exactly when its [hwext] is the string [true]; the access tokens and the
    reset value of the declaration are not properties of the register. *)
Theorem register_external (rd : value) (st st' : importer) (R : Reg) :
  create_register sw hw rd st = Ok (R, st') ->
  exists d desc,
    rd = VDict d /\ Py.get "desc" d = Some desc /\
    r_properties R = [("desc", PObj desc)] /\
    (r_external R = true <-> Py.get "hwext" d = Some (VStr "true")).
Proof.
  intros H. apply create_register_ok in H
    as (d & name & desc & rr & fields & sta & stb
        & -> & _ & _ & _ & _ & He & Hd & Hp & _).
  exists d, desc. splits; try assumption; try reflexivity.
  rewrite He. unfold get_or_none, Py.eq_str.
  destruct (Py.get "hwext" d) as [[| | |s| | |]|];
    try (split; discriminate).
  rewrite String.eqb_eq. split; [now intros ->|now intros [= ->]].
Qed.

(** ** Fields *)

(** The properties of a field that [add_fields] has made. *)
Lemma add_field_properties (hwqe dsw dhw rr : value) (cnt : nat)
  (fdv : value) (st st' : importer) (F : Field) :
  add_field sw hw hwqe dsw dhw rr cnt fdv st = Ok (F, st') ->
  exists fd swv onwrite onread hwv we resval,
    fdv = VDict fd /\
    sw (effective "swaccess" fd dsw) = Ok (swv, onwrite, onread) /\
    hw (effective "hwaccess" fd dhw) = Ok (hwv, we) /\
    match Py.get "resval" fd with
    | Some v => reset_value v = Ok resval
    | None => inherited_resval rr (f_bit_offset F) (f_bit_width F)
              = Ok resval
    end /\
    property "sw" (f_properties F) = Some (PObj swv) /\
    property "onread" (f_properties F)
    = (if Py.is_none onread then None else Some (PObj onread)) /\
    property "onwrite" (f_properties F)
    = (if Py.is_none onwrite then None else Some (PObj onwrite)) /\
    property "hw" (f_properties F) = Some (PObj hwv) /\
    property "reset" (f_properties F) = Some (PObj resval) /\
    property "swmod" (f_properties F)
    = (if Py.eq_str hwqe "true" then Some (PObj (VBool true)) else None).
Proof.
  intros H. apply add_field_ok in H
    as (fd & bits & inst & swv & onw & onr & hwv & we & resval & encode
        & st1 & st2 & -> & _ & _ & _ & _ & _ & Hs & Hh & Hr & Henc & Hprops).
  exists fd, swv, onw, onr, hwv, we, resval.
  apply field_resval_ok in Hr.
  assert (encode = [] \/ exists enum, encode = [("encode", PEnum enum)])
    as Hcases.
  { destruct (Py.contains "enum" fd); [right|now left].
    destruct Henc as (enum & _ & _ & ->). now exists enum. }
  splits; try assumption; try reflexivity;
    rewrite Hprops; unfold field_props, we_props, opt_prop;
    destruct Hcases as [->|[enum ->]];
    destruct (Py.get "desc" fd), (Py.is_none onr), (Py.is_none onw),
      (Py.eq_str (effective "swaccess" fd dsw) "ro"
       && (Py.eq_str (effective "hwaccess" fd dhw) "hwo"
           || Py.eq_str (effective "hwaccess" fd dhw) "hro")),
      (Py.is_none we), (Py.eq_str hwqe "true"); reflexivity.
Qed.

(** X10. The access of a field is looked up under its own tokens, else under
    the register's: [sw] and [hw] are what the tables give, and the side
    effects [onread] and [onwrite] are assigned when the table has one. *)
Theorem field_access_properties (rd : value) (st st' : importer) (R : Reg) :
  create_register sw hw rd st = Ok (R, st') ->
  exists d fields,
    rd = VDict d /\
    rbind (Py.item "fields" d) Py.iter = Ok fields /\
    forall i F, nth_error (r_children R) i = Some F ->
      exists fd swv onwrite onread hwv we,
        nth_error fields i = Some (VDict fd) /\
        sw (effective "swaccess" fd (get_or_none "swaccess" d))
        = Ok (swv, onwrite, onread) /\
        hw (effective "hwaccess" fd (get_or_none "hwaccess" d))
        = Ok (hwv, we) /\
        property "sw" (f_properties F) = Some (PObj swv) /\
        property "onread" (f_properties F)
        = (if Py.is_none onread then None else Some (PObj onread)) /\
        property "onwrite" (f_properties F)
        = (if Py.is_none onwrite then None else Some (PObj onwrite)) /\
        property "hw" (f_properties F) = Some (PObj hwv).
Proof.
  intros H. apply register_fields_ok in H
    as (d & name & rr & fields & -> & _ & _ & _ & _ & Hf & _ & Hnth).
  exists d, fields. splits; try assumption; try reflexivity.
  intros i F HF. destruct (Hnth i F HF) as (fdv & sti & sti' & Hx & Hb).
  apply add_field_properties in Hb
    as (fd & swv & onw & onr & hwv & we & resval & -> & Hs & Hh & _
        & Psw & Pr & Pw & Phw & _).
  exists fd, swv, onw, onr, hwv, we. splits; assumption.
Qed.

(** X11. A register whose [hwqe] is the string [true] gives every one of its
    fields the property [swmod]; any other register gives it to none. *)
Theorem register_swmod (rd : value) (st st' : importer) (R : Reg) :
  create_register sw hw rd st = Ok (R, st') ->
  exists d,
    rd = VDict d /\
    forall F, In F (r_children R) ->
      property "swmod" (f_properties F)
      = if Py.eq_str (get_or_none "hwqe" d) "true"
        then Some (PObj (VBool true)) else None.
Proof.
  intros H. apply register_fields_ok in H
    as (d & name & rr & fields & -> & _ & _ & _ & _ & _ & _ & Hnth).
  exists d. split; [reflexivity|].
  intros F HF. apply In_nth_error in HF as [i HF].
  destruct (Hnth i F HF) as (fdv & sti & sti' & _ & Hb).
  apply add_field_properties in Hb
    as (fd & swv & onw & onr & hwv & we & resval & _ & _ & _ & _
        & _ & _ & _ & _ & _ & Pm).
  exact Pm.
Qed.

(** X12. A field that declares a [resval] is reset to it, read by the
    reset-value rules ([x] as 0), whatever the register's reset value and
    the field's width. *)
Theorem field_declared_reset (rd : value) (st st' : importer) (R : Reg) :
  create_register sw hw rd st = Ok (R, st') ->
  exists d fields,
    rd = VDict d /\
    rbind (Py.item "fields" d) Py.iter = Ok fields /\
    forall i F, nth_error (r_children R) i = Some F ->
      exists fd,
        nth_error fields i = Some (VDict fd) /\
        forall v, Py.get "resval" fd = Some v ->
          exists r,
            reset_value v = Ok r /\
            property "reset" (f_properties F) = Some (PObj r) /\
            (Py.eq_str v "x" = true -> r = VInt 0).
Proof.
  intros H. apply register_fields_ok in H
    as (d & name & rr & fields & -> & _ & _ & _ & _ & Hf & _ & Hnth).
  exists d, fields. splits; try assumption; try reflexivity.
  intros i F HF. destruct (Hnth i F HF) as (fdv & sti & sti' & Hx & Hb).
  apply add_field_properties in Hb
    as (fd & swv & onw & onr & hwv & we & resval & -> & _ & _ & Hr
        & _ & _ & _ & _ & Pr & _).
  exists fd. split; [assumption|]. intros v Hv. rewrite Hv in Hr.
  exists resval. splits; try assumption.
  intros Hx'. unfold reset_value in Hr. rewrite Hx' in Hr.
  now injection Hr as <-.
Qed.

(** X13. The reset value a field takes from its register is made of the
    register's bits at the field's positions, and fits the field's width. *)
Theorem inherited_resval_bits (rr v : value) (o w : Z) :
  inherited_resval rr o w = Ok v ->
  exists r z,
    Py.as_int rr = Ok r /\ v = VInt z /\ 0 <= z < 2 ^ w /\
    forall i, 0 <= i -> Z.testbit z i = (i <? w) && Z.testbit r (i + o).
Proof.
  intros H. apply inherited_resval_ok in H as (Ho & Hw & r & Hr & ->).
  exists r, (Z.land (Z.shiftr r o) (Z.shiftl 1 w - 1)).
  assert (Z.shiftl 1 w - 1 = Z.ones w) as ->.
  { rewrite Z.ones_equiv, Z.shiftl_1_l. lia. }
  split; [assumption|]. split; [reflexivity|]. split.
  - rewrite Z.land_ones by assumption. apply Z.mod_pos_bound.
    apply Z.pow_pos_nonneg; lia.
  - intros i Hi.
    rewrite Z.land_spec, Z.shiftr_spec, Z.testbit_ones_nonneg by assumption.
    apply andb_comm.
Qed.

(** X14. A field declaration without [bits] is refused with the [KeyError] of
    the lookup. *)
Theorem add_field_needs_bits (hwqe dsw dhw rr : value) (cnt : nat)
  (fd : Py.dict) (st : importer) :
  Py.get "bits" fd = None ->
  add_field sw hw hwqe dsw dhw rr cnt (VDict fd) st = Raise (KeyError "bits").
Proof.
  intros Hb. unfold add_field, bind.
  rewrite warn_unsupported_all_exact. unfold Py.item. rewrite Hb.
  reflexivity.
Qed.

(** ** Enumerations *)

Lemma parse_enum_member_ok (x : value) (st st' : importer)
  (m : UserEnumMember) :
  parse_enum_member x st = Ok (m, st') ->
  exists ed nm,
    x = VDict ed /\ Py.get "name" ed = Some (VStr nm) /\
    nm <> EmptyString /\ m_name m = member_name nm /\
    rbind (Py.item "value" ed) Py.int = Ok (m_value m) /\
    Py.get "desc" ed = Some (m_desc m) /\
    st' = add_warnings st (if leading_digit nm
                           then [Enum_name_digit nm] else []).
Proof.
  unfold parse_enum_member. intros H.
  apply bind_ok in H as (name0 & st0 & Hn & H).
  apply lift_ok in Hn as [Hn ->].
  apply bind_ok in H as (ed & st0 & Hd & H).
  apply lift_ok in Hd as [Hd ->].
  destruct x as [| | | | | |ed']; try discriminate.
  injection Hd as ->. cbn [Py.subscript] in Hn. unfold Py.item in Hn.
  destruct (Py.get "name" ed) as [name0'|] eqn:En; [|discriminate].
  injection Hn as ->.
  apply bind_ok in H as (name1 & st1 & Hm & H).
  apply bind_ok in H as (v & st2 & Hv & H).
  apply lift_ok in Hv as [Hv ->].
  apply bind_ok in H as (desc & st2 & Hdesc & H).
  apply lift_ok in Hdesc as [Hdesc ->].
  injection H as <- <-. unfold Py.item in Hdesc.
  destruct (Py.get "desc" ed) as [desc'|] eqn:Edesc; [|discriminate].
  injection Hdesc as ->.
  destruct name0 as [| | |s| | |]; try discriminate.
  destruct s as [|c s]; [discriminate|].
  exists ed, (String c s). unfold member_name, leading_digit.
  destruct (Py.is_digit c).
  - apply bind_ok in Hm as ([] & st0 & Hw & Hm).
    injection Hw as <-. injection Hm as <- <-.
    splits; try assumption; try reflexivity; discriminate.
  - injection Hm as <- <-. rewrite add_warnings_nil.
    splits; try assumption; try reflexivity; discriminate.
Qed.

Lemma member_name_not_digit (nm : string) :
  leading_digit (member_name nm) = false.
Proof.
  destruct nm as [|c s]; [reflexivity|].
  unfold member_name. cbn [leading_digit].
  destruct (Py.is_digit c) eqn:E; [reflexivity|].
  cbn [Py.lower leading_digit].
  destruct c as [[] [] [] [] [] [] [] []];
    try reflexivity; discriminate E.
Qed.

Lemma parse_enum_name (fd : Py.dict) (st st' : importer) (enum : UserEnum) :
  parse_enum fd st = Ok (enum, st') ->
  exists fname,
    Py.get "name" fd = Some (VStr fname) /\
    e_type_name enum = (Py.lower fname ++ "_e")%string.
Proof.
  unfold parse_enum. intros H.
  apply bind_ok in H as (entries & st0 & _ & H).
  apply bind_ok in H as (members & st1 & _ & H).
  apply bind_ok in H as (name & st2 & Hn & H).
  apply lift_ok in Hn as [Hn ->]. injection H as <- _.
  apply rbind_ok in Hn as (v & Hv & Hl). unfold Py.item in Hv.
  destruct (Py.get "name" fd) as [v'|]; [|discriminate].
  injection Hv as ->.
  destruct v as [| | |fname| | |]; try discriminate.
  injection Hl as <-. now exists fname.
Qed.

(** X15. An enumeration gets one member per entry, in order: under the entry's
    name in lower case, behind an underscore if the name starts with a
    digit, so that no member's name starts with one; with the entry's
    value read by [int] and its description.  The type is named after the
    field's declared name. *)
Theorem parse_enum_members (fd : Py.dict) (st st' : importer)
  (enum : UserEnum) :
  parse_enum fd st = Ok (enum, st') ->
  exists entries fname,
    rbind (Py.item "enum" fd) Py.iter = Ok entries /\
    Py.get "name" fd = Some (VStr fname) /\
    e_type_name enum = (Py.lower fname ++ "_e")%string /\
    List.length (e_members enum) = List.length entries /\
    forall i m, nth_error (e_members enum) i = Some m ->
      exists ed nm,
        nth_error entries i = Some (VDict ed) /\
        Py.get "name" ed = Some (VStr nm) /\
        m_name m = member_name nm /\
        leading_digit (m_name m) = false /\
        rbind (Py.item "value" ed) Py.int = Ok (m_value m) /\
        Py.get "desc" ed = Some (m_desc m).
Proof.
  unfold parse_enum. intros H.
  apply bind_ok in H as (entries & st0 & He & H).
  apply lift_ok in He as [He ->].
  apply bind_ok in H as (members & st1 & Hm & H).
  apply bind_ok in H as (name & st2 & Hn & H).
  apply lift_ok in Hn as [Hn ->]. injection H as <- _.
  apply rbind_ok in Hn as (v & Hv & Hl). unfold Py.item in Hv.
  destruct (Py.get "name" fd) as [v'|]; [|discriminate].
  injection Hv as ->.
  destruct v as [| | |fname| | |]; try discriminate.
  injection Hl as <-.
  apply for_each_ok in Hm as [Hlen Hnth].
  exists entries, fname. cbn [e_type_name e_members].
  splits; try assumption; try reflexivity.
  intros i m Hi. destruct (Hnth i m Hi) as (x & sti & sti' & Hx & Hb).
  apply parse_enum_member_ok in Hb
    as (ed & nm & -> & Hnm & _ & Hname & Hval & Hdesc & _).
  exists ed, nm. splits; try assumption.
  rewrite Hname. apply member_name_not_digit.
Qed.

(** X16. A field with an enumeration must declare its name: the default name
    [val<N>] is not used for the enumeration's type, and the import ends in
    an exception. *)
Theorem enum_needs_field_name (hwqe dsw dhw rr : value) (cnt : nat)
  (fd : Py.dict) (st : importer) :
  Py.get "name" fd = None -> Py.contains "enum" fd = true ->
  exists e, add_field sw hw hwqe dsw dhw rr cnt (VDict fd) st = Raise e.
Proof.
  intros Hn He.
  destruct (add_field sw hw hwqe dsw dhw rr cnt (VDict fd) st)
    as [[F st']|e] eqn:E; [exfalso|now exists e].
  apply add_field_ok in E
    as (fd' & bits & inst & swv & onw & onr & hwv & we & resval & encode
        & st1 & st2 & Hfd & _ & _ & _ & _ & _ & _ & _ & _ & Henc & _).
  injection Hfd as <-. rewrite He in Henc.
  destruct Henc as (enum & st3 & Hp & _).
  apply parse_enum_name in Hp as (fname & Hname & _).
  congruence.
Qed.

(** ** Interrupts *)

Lemma add_children_app (C : Addrmap) (cs cs' : list component) :
  add_children (add_children C cs) cs' = add_children C (cs ++ cs').
Proof.
  unfold add_children; cbn. now rewrite app_assoc.
Qed.

Lemma add_children_nil (C : Addrmap) : add_children C [] = C.
Proof.
  destruct C. unfold add_children; cbn. now rewrite app_nil_r.
Qed.

(** X17. [add_registers] goes through only if the interrupt list has at most 32
    entries and every entry is a mapping with a string [name], a [desc],
    and a [default] that reads as a reset value if it has one. *)
Theorem add_registers_interrupts_wf (node node' : Addrmap) (tree : Py.dict)
  (intrs : list value) (st st' : importer) :
  add_registers sw hw node tree st = Ok (node', st') ->
  Py.get "interrupt_list" tree = Some (VList intrs) ->
  (List.length intrs <= 32)%nat /\ Forall wf_interrupt intrs.
Proof.
  intros H Hil. apply add_registers_ok in H
    as (il & n & intrs0 & fs & Rs1 & st1 & registers & Rs2
        & Hil' & Hlen & Hn & Hit & Hfs & HRs & _).
  rewrite Hil in Hil'. injection Hil' as <-.
  injection Hlen as <-. injection Hit as <-.
  split; [exact Hn|].
  apply for_each_ok in HRs as [HlenR HnthR].
  destruct Rs1 as [|R Rs1]; [discriminate HlenR|].
  destruct (HnthR 0%nat R eq_refl) as (x & sti & sti' & Hx & HR).
  injection Hx as <-.
  apply register_fields_ok in HR
    as (d & name & rr & fields & Hd & _ & _ & _ & _ & Hf & Hlenf & Hnth).
  injection Hd as <-. injection Hf as <-.
  apply interrupt_fields_all_ok in Hfs as [Hlenfs Hfs].
  apply Forall_forall. intros intr Hin.
  apply In_nth_error in Hin as [i Hi].
  destruct (Hfs i intr Hi) as (di & iname & desc & -> & Hname & Hdesc & Hfi).
  assert (nth_error (map (fun f => fst (fst f)) fs) i
          = Some (VDict (status_field iname desc i (declared_default di))))
    as Hfield.
  { now rewrite nth_error_map, Hfi. }
  destruct (nth_error_in_range (r_children R) i) as [F HF].
  { rewrite Hlenf, length_map, Hlenfs. apply nth_error_Some. congruence. }
  destruct (Hnth i F HF) as (fdv & stj & stj' & Hfdv & Hb).
  rewrite Hfield in Hfdv. injection Hfdv as <-.
  pose proof Hb as Hb'.
  apply add_field_ok in Hb
    as (fd & bits & inst & swv & onw & onr & hwv & we & resval & encode
        & st2 & st3 & Hfd & _ & _ & Hl & _).
  injection Hfd as <-. unfold field_name_of in Hl. cbn in Hl.
  destruct iname as [| | |s| | |]; try discriminate Hl.
  apply add_field_properties in Hb'
    as (fd & swv' & onw' & onr' & hwv' & we' & resval' & Hfd & _ & _ & Hr
        & _).
  injection Hfd as <-. cbn in Hr.
  exists di, s, desc, resval'. splits; try assumption; reflexivity.
Qed.

(** ** The signals and the root of a document *)

Lemma for_each_Forall2 {A B} (body : A -> M B) (l : list A) :
  forall st ys st',
    for_each body l st = Ok (ys, st') ->
    Forall2 (fun x y => exists sti sti', body x sti = Ok (y, sti')) l ys.
Proof.
  induction l as [|x l IH]; intros st ys st' H.
  - injection H as <- _. constructor.
  - cbn [for_each] in H.
    apply bind_ok in H as (y & st1 & Hy & H).
    apply bind_ok in H as (ys' & st2 & Hys & H).
    injection H as <- _. constructor; [now exists st, st1|].
    exact (IH _ _ _ Hys).
Qed.

Lemma add_signal_list_signals (lt ty : string) (node node' : Addrmap)
  (tree tree' : Py.dict) (st st' : importer) :
  add_signal_list known lt ty node tree st = Ok ((node', tree'), st') ->
  exists sigs,
    node' = add_children node (map CSignal sigs) /\
    signals_of_list lt ty tree sigs.
Proof.
  intros H. unfold signals_of_list.
  apply add_signal_list_ok in H
    as [(Hg & -> & _ & _)|(v & entries & made & Hg & Hit & Hm & -> & _)].
  - exists []. rewrite Hg. now rewrite add_children_nil.
  - exists (map fst made). rewrite Hg, map_map.
    split; [reflexivity|]. exists entries. split; [exact Hit|].
    apply for_each_Forall2 in Hm. clear - Hm.
    induction Hm as [|entry [sig e] entries made (sti & sti' & Hc) _ IH];
      [constructor|].
    cbn [map fst]. constructor; [|exact IH].
    apply create_signal_ok in Hc as (d & name & -> & Hn & Ht & Hi & _).
    now exists d, name.
Qed.


Lemma add_signals_children (node node' : Addrmap) (tree tree' : Py.dict)
  (st st' : importer) :
  add_signals known node tree st = Ok ((node', tree'), st') ->
  exists sigs, node' = add_children node (map CSignal sigs).
Proof.
  intros H. unfold add_signals in H.
  apply bind_ok in H as (node0 & st0 & H0 & H).
  assert (exists clk, node0 = add_children node (map CSignal clk))
    as (clk & ->).
  { destruct (Py.get "clocking" tree) as [clocking|].
    - apply bind_ok in H0 as (entries & ? & _ & H0).
      apply bind_ok in H0 as (made & ? & _ & H0).
      injection H0 as <- _. now exists (List.concat made).
    - injection H0 as <- _. exists []. now rewrite add_children_nil. }
  apply bind_ok in H as ([node1 tree1] & st1 & H1 & H).
  apply bind_ok in H as ([node2 tree2] & st2 & H2 & H).
  apply bind_ok in H as ([node3 tree3] & st3 & H3 & H).
  apply add_signal_list_signals in H1 as (ins & -> & _).
  apply add_signal_list_signals in H2 as (outs & -> & _).
  apply add_signal_list_signals in H3 as (inouts & -> & _).
  apply add_signal_list_signals in H as (intrs & -> & _).
  exists (clk ++ ins ++ outs ++ inouts ++ intrs).
  now rewrite !add_children_app, <- !map_app.
Qed.

Lemma add_registers_state (node node' : Addrmap) (tree : Py.dict)
  (st st' : importer) (w : Z) :
  regwidth st = Some w ->
  add_registers sw hw node tree st = Ok (node', st') ->
  exists Rs ws,
    node' = add_children node (map CReg Rs) /\
    st' = after_registers st w (List.length Rs) ws.
Proof.
  intros Hw H. apply add_registers_ok in H
    as (il & n & intrs & fs & Rs1 & st1 & registers & Rs2
        & _ & _ & _ & _ & _ & HR1 & _ & HR2 & ->).
  destruct (create_registers_shape sw hw (intr_regs fs)) as [r1 [Hs1 _]].
  rewrite (Hs1 st w Hw) in HR1.
  destruct r1 as [[mks1 wsa]|e]; [|discriminate].
  injection HR1 as <- <-.
  destruct (create_registers_shape sw hw registers) as [r2 [Hs2 _]].
  rewrite (Hs2 (after_registers st w (List.length mks1) wsa) w eq_refl)
    in HR2.
  destruct r2 as [[mks2 wsb]|e]; [|discriminate].
  injection HR2 as <- <-.
  eexists. exists (wsa ++ wsb).
  rewrite add_children_app, <- map_app. split; [reflexivity|].
  unfold after_registers. cbn [regwidth addroffset warnings roots].
  rewrite length_app, !place_length, <- app_assoc. f_equal. lia.
Qed.

(** X19. The root component of an imported document: it is typed by the
    document's [name]; its children are the signals, then the registers;
    when the document has a [human_name], the property [name] is assigned,
    from the document's [name]; the description is the document's
    [one_paragraph_desc], else its [one_line_desc]. *)
Theorem import_file_root (tree : Py.dict) (st st' : importer) :
  import_file sw hw known tree st = Ok (tt, st') ->
  exists name C sigs Rs,
    Py.get "name" tree = Some name /\
    roots st' = roots st ++ [C] /\
    a_type_name C = name /\
    a_children C = map CSignal sigs ++ map CReg Rs /\
    property "name" (a_properties C)
    = (if Py.contains "human_name" tree then Some (PObj name) else None) /\
    property "desc" (a_properties C)
    = match Py.get "one_paragraph_desc" tree with
      | Some desc => Some (PObj desc)
      | None => option_map PObj (Py.get "one_line_desc" tree)
      end.
Proof.
  intros H. apply import_file_ok in H
    as (name & C1 & tree1 & ws & width & C2 & st2
        & Hn & _ & (sA & sA' & Hs) & _ & _ & _ & _ & Hr & ->).
  apply add_signals_children in Hs as (sigs & ->).
  apply add_registers_state with (w := width) in Hr
    as (Rs & wsr & -> & ->); [|reflexivity].
  exists name. eexists. exists sigs, Rs.
  split; [exact Hn|]. split; [reflexivity|].
  cbn [add_children a_type_name a_children a_properties].
  rewrite root_definition_children.
  unfold root_definition, Py.contains.
  destruct (Py.get "human_name" tree), (Py.get "one_paragraph_desc" tree),
    (Py.get "one_line_desc" tree); splits; reflexivity.
Qed.

(** X20. A document is imported only if it has a [name] that is not empty, an
    [interrupt_list] and a [registers] list, even if both are empty. *)
Theorem import_file_required_keys (tree : Py.dict) (st st' : importer) :
  import_file sw hw known tree st = Ok (tt, st') ->
  exists name interrupt_list registers,
    Py.get "name" tree = Some name /\ Py.truthy name = true /\
    Py.get "interrupt_list" tree = Some interrupt_list /\
    Py.get "registers" tree = Some registers.
Proof.
  intros H. apply import_file_ok in H
    as (name & C1 & tree1 & ws & width & C2 & st2
        & Hn & Htr & (sA & sA' & Hs) & _ & Hk & _ & _ & Hr & _).
  apply add_signals_facts in Hs as (_ & _ & Hnone & _).
  apply add_registers_ok in Hr
    as (il & n & intrs & fs & Rs1 & st1 & registers & Rs2
        & Hil & _ & _ & _ & _ & _ & Hreg & _).
  rewrite <- (Hk "registers" eq_refl eq_refl eq_refl eq_refl).
  apply rbind_ok in Hreg as (rv & Hrv & _). unfold Py.item in Hrv.
  destruct (Py.get "registers" tree1) as [rv'|]; [|discriminate].
  destruct (Py.get "interrupt_list" tree) as [ilv|] eqn:Eil.
  - now exists name, ilv, rv'.
  - rewrite (Hnone eq_refl) in Hil. discriminate.
Qed.

(** ** One document after another *)

Ltac run_equations :=
  cbn [lift ret raise emit fst snd];
  repeat (match goal with H : ?l = _ |- context [?l] => rewrite H end;
          cbn [lift ret raise emit fst snd]);
  try reflexivity.

Ltac run_registers := unfold add_registers, bind; run_equations.

(** What [add_registers] does is decided by the document: the importer's
    state supplies the offset of the first register and takes the
    warnings. *)
Lemma add_registers_shape (node : Addrmap) (tree : Py.dict) :
  exists r : result (list (Z -> Reg) * list message),
    forall st w, regwidth st = Some w ->
      add_registers sw hw node tree st
      = match r with
        | Ok (mks, ws) =>
            Ok (add_children node
                  (map CReg (place (addroffset st) (w / 8) mks)),
                after_registers st w (List.length mks) ws)
        | Raise e => Raise e
        end.
Proof.
  destruct (Py.item "interrupt_list" tree) as [il|e] eqn:E1;
    [|exists (Raise e); intros st w Hw; run_registers].
  destruct (Py.len il) as [n|e] eqn:E2;
    [|exists (Raise e); intros st w Hw; run_registers].
  destruct (n <=? 32)%nat eqn:E3.
  2:{ destruct (Py.item "name" tree) as [name|e] eqn:E4;
        [exists (Raise (AssertionError name))|exists (Raise e)];
        intros st w Hw; run_registers. }
  destruct (Py.iter il) as [intrs|e] eqn:E5;
    [|exists (Raise e); intros st w Hw; run_registers].
  destruct (interrupt_fields_all O intrs) as [fs|e] eqn:E6;
    [|exists (Raise e); intros st w Hw; run_registers].
  destruct (create_registers_shape sw hw (intr_regs fs))
    as [[[mks1 ws1]|e] [Hs1 _]].
  2:{ exists (Raise e). intros st w Hw. run_registers.
      now rewrite (Hs1 st w Hw). }
  destruct (rbind (Py.item "registers" tree) Py.iter)
    as [registers|e] eqn:E7.
  2:{ exists (Raise e). intros st w Hw. run_registers.
      rewrite (Hs1 st w Hw). run_equations. }
  destruct (create_registers_shape sw hw registers)
    as [[[mks2 ws2]|e] [Hs2 _]].
  2:{ exists (Raise e). intros st w Hw. run_registers.
      rewrite (Hs1 st w Hw). run_equations.
      now rewrite (Hs2 (after_registers st w (List.length mks1) ws1) w
                     eq_refl). }
  exists (Ok (mks1 ++ mks2, ws1 ++ ws2)). intros st w Hw.
  run_registers. rewrite (Hs1 st w Hw). run_equations.
  rewrite (Hs2 (after_registers st w (List.length mks1) ws1) w eq_refl).
  rewrite add_children_app, <- map_app, place_app.
  unfold after_registers. cbn [regwidth addroffset warnings roots ret].
  rewrite length_app, <- app_assoc. unfold ret. do 3 f_equal. lia.
Qed.

Lemma import_file_unfold (tree : Py.dict) (st : importer) :
  import_file sw hw known tree st
  = (warn_unsupported_all unsupported_addrmap_props tree Addrmap_scope ;;
     name <- lift (Py.item "name" tree) ;;
     (if Py.truthy name then ret tt
      else fatal "memoryMap is missing required tag 'name'") ;;
     made <- add_signals known (root_definition tree name) tree ;;
     width <- match Py.get "regwidth" (snd made) with
              | Some v => lift (Py.int v)
              | None => ret 32
              end ;;
     set_regwidth (Some width) ;;
     C_def <- add_registers sw hw (fst made) (snd made) ;;
     register_root_component C_def)
      {| regwidth := None; addroffset := 0; warnings := warnings st;
         roots := roots st |}.
Proof.
  unfold import_file, import_ip, bind, set_regwidth, set_addroffset.
  cbn [regwidth addroffset warnings roots].
  destruct (warn_unsupported_all _ _ _ _) as [[[] s1]|e]; [|reflexivity].
  destruct (lift _ _) as [[name s2]|e]; [|reflexivity].
  destruct (if Py.truthy name then _ else _) as [[[] s3]|e]; [|reflexivity].
  unfold root_definition.
  destruct (add_signals known _ tree s3) as [[[C1 tree1] s4]|e];
    reflexivity.
Qed.

(** The outcome of [import_file] is decided by the document: the exception,
    or the root component, the warnings, the register width and the final
    offset.  The importer's state only receives them. *)
Lemma import_file_shape (tree : Py.dict) :
  exists r : result (Addrmap * list message * Z * nat),
    forall st,
      import_file sw hw known tree st
      = match r with
        | Ok (C, ws, w, n) =>
            Ok (tt, {| regwidth := Some w;
                       addroffset := Z.of_nat n * (w / 8);
                       warnings :=
                         warnings st
                         ++ map (Unsupported_key Addrmap_scope)
                              (present_keys unsupported_addrmap_props tree)
                         ++ ws;
                       roots := roots st ++ [C] |})
        | Raise e => Raise e
        end.
Proof.
  destruct (Py.item "name" tree) as [name|e] eqn:E1.
  2:{ exists (Raise e). intros st. rewrite import_file_unfold.
      unfold bind. rewrite warn_unsupported_all_exact, E1. reflexivity. }
  destruct (Py.truthy name) eqn:E2.
  2:{ eexists (Raise _). intros st. rewrite import_file_unfold.
      unfold bind. rewrite warn_unsupported_all_exact, E1. cbn [lift].
      rewrite E2. reflexivity. }
  destruct (writer_add_signals known (root_definition tree name) tree)
    as [[[[C1 tree1] ws1]|e] Hs].
  2:{ exists (Raise e). intros st. rewrite import_file_unfold.
      unfold bind. rewrite warn_unsupported_all_exact, E1. cbn [lift].
      rewrite E2. cbn [ret]. now rewrite Hs. }
  assert (exists rw : result Z,
             forall s, match Py.get "regwidth" tree1 with
                       | Some v => lift (Py.int v)
                       | None => ret 32
                       end s
                       = match rw with
                         | Ok w => Ok (w, s)
                         | Raise e => Raise e
                         end) as [[w|e] Hw].
  { destruct (Py.get "regwidth" tree1) as [v|].
    - exists (Py.int v). intros s. unfold lift. now destruct (Py.int v).
    - now exists (Ok 32). }
  2:{ exists (Raise e). intros st. rewrite import_file_unfold.
      unfold bind. rewrite warn_unsupported_all_exact, E1. cbn [lift].
      rewrite E2. cbn [ret]. rewrite Hs. cbn [emit snd]. now rewrite Hw. }
  destruct (add_registers_shape C1 tree1) as [[[mks ws2]|e] Hr].
  2:{ exists (Raise e). intros st. rewrite import_file_unfold.
      unfold bind. rewrite warn_unsupported_all_exact, E1. cbn [lift].
      rewrite E2. cbn [ret]. rewrite Hs. cbn [emit snd fst]. rewrite Hw.
      unfold set_regwidth. erewrite Hr by reflexivity. reflexivity. }
  exists (Ok (add_children C1 (map CReg (place 0 (w / 8) mks)),
              ws1 ++ ws2, w, List.length mks)).
  intros st. rewrite import_file_unfold.
  unfold bind. rewrite warn_unsupported_all_exact, E1. cbn [lift].
  rewrite E2. cbn [ret]. rewrite Hs. cbn [emit snd fst]. rewrite Hw.
  unfold set_regwidth. erewrite Hr by reflexivity.
  unfold register_root_component, after_registers, add_warnings.
  cbn [regwidth addroffset warnings roots].
  now rewrite <- !app_assoc.
Qed.


(** X21. Whatever the importer's attributes are when [import_file] is
    called, a document has the same outcome: the same exception, or the
    same root component, the same warnings, the same register width and
    the same final offset.  The register width and the offset counter of an
    earlier import do not leak into the next one.  (Registering a root is
    modelled as appending it to the list of roots.) *)
Theorem import_file_state_independent (tree : Py.dict) (st s : importer) :
  match import_file sw hw known tree st, import_file sw hw known tree s with
  | Ok (_, st'), Ok (_, s') =>
      exists C ws,
        roots st' = roots st ++ [C] /\ roots s' = roots s ++ [C] /\
        warnings st' = warnings st ++ ws /\
        warnings s' = warnings s ++ ws /\
        regwidth s' = regwidth st' /\ addroffset s' = addroffset st'
  | Raise e, Raise e' => e = e'
  | _, _ => False
  end.
Proof.
  destruct (import_file_shape tree) as [[[[[C ws] w] n]|e] H];
    rewrite !H; [|reflexivity].
  eexists. eexists. splits; reflexivity.
Qed.

(** X22. A successful import sends one warning per unsupported top-level key
    the document has, in the order of the importer's list and before any
    other warning, and takes none of the earlier warnings away. *)
Theorem import_file_warnings (tree : Py.dict) (st st' : importer) :
  import_file sw hw known tree st = Ok (tt, st') ->
  exists ws,
    warnings st'
    = warnings st
      ++ map (Unsupported_key Addrmap_scope)
           (present_keys unsupported_addrmap_props tree)
      ++ ws.
Proof.
  intros H0.
  destruct (import_file_shape tree) as [[[[[C ws] w] n]|e] H];
    rewrite H in H0; [|discriminate].
  exists ws.
  apply (f_equal (fun r => match r with
                           | Ok (_, s) => warnings s
                           | Raise _ => []
                           end)) in H0.
  cbn beta iota in H0. cbn [warnings] in H0. symmetry. exact H0.
Qed.


(** ** The entries [create_signal] writes to *)

Lemma interrupt_fields_written (cnt : nat) (d : Py.dict) :
  interrupt_fields cnt (VDict (written_entry d "output"))
  = interrupt_fields cnt (VDict d).
Proof.
  unfold interrupt_fields. cbn [Py.subscript Py.as_dict rbind].
  unfold Py.item.
  rewrite !(get_written_entry _ "output" d) by reflexivity.
  destruct (Py.get "name" d); [|reflexivity]. cbn [rbind].
  destruct (Py.get "desc" d); reflexivity.
Qed.

Lemma interrupt_fields_all_written (l l' : list value) :
  Forall2 (written "output") l l' ->
  forall cnt, interrupt_fields_all cnt l' = interrupt_fields_all cnt l.
Proof.
  induction 1 as [|e e' l l' (d & -> & ->) _ IH]; intros cnt;
    [reflexivity|].
  cbn [interrupt_fields_all]. now rewrite interrupt_fields_written, IH.
Qed.

Lemma add_signal_list_tree (lt ty : string) (node node' : Addrmap)
  (tree tree' : Py.dict) (st st' : importer) :
  add_signal_list known lt ty node tree st = Ok ((node', tree'), st') ->
  match Py.get lt tree with
  | Some (VList entries) =>
      exists entries',
        tree' = Py.set lt (VList entries') tree /\
        Forall2 (written (if String.eqb ty "interrupt" then "output"
                          else ty)) entries entries'
  | _ => tree' = tree
  end.
Proof.
  intros H. apply add_signal_list_ok in H
    as [(Hg & _ & -> & _)|(v & entries & made & Hg & Hit & Hm & _ & ->)];
    rewrite Hg; [reflexivity|].
  destruct v as [| | | | |l|]; try reflexivity.
  injection Hit as <-. exists (map snd made). split; [reflexivity|].
  apply for_each_Forall2 in Hm. clear - Hm.
  induction Hm as [|entry [sig e] entries made (sti & sti' & Hc) _ IH];
    [constructor|].
  cbn [map snd]. constructor; [|exact IH].
  apply create_signal_ok in Hc as (d & name & -> & _ & _ & _ & -> & _).
  now exists d.
Qed.

Lemma add_registers_same (t1 t2 : Py.dict) :
  Py.get "name" t1 = Py.get "name" t2 ->
  Py.get "registers" t1 = Py.get "registers" t2 ->
  (Py.get "interrupt_list" t1 = Py.get "interrupt_list" t2 \/
   exists l1 l2,
     Py.get "interrupt_list" t1 = Some (VList l1) /\
     Py.get "interrupt_list" t2 = Some (VList l2) /\
     Forall2 (written "output") l2 l1) ->
  forall node s,
    add_registers sw hw node t1 s = add_registers sw hw node t2 s.
Proof.
  intros Hn Hr Hi node s. unfold add_registers, Py.item.
  rewrite Hn, Hr. destruct Hi as [->|(l1 & l2 & -> & -> & Hw)];
    [reflexivity|].
  unfold bind. cbn [lift Py.len Py.iter].
  rewrite (Forall2_length Hw).
  now rewrite (interrupt_fields_all_written _ _ Hw).
Qed.

(** X23. [create_signal] writes to the entries of the document's signal
    lists, the interrupts among them, and [add_registers] reads the
    interrupts after that; what it makes of the document is the same as if
    nothing had been written. *)
Theorem add_signals_keeps_registers (node node' : Addrmap)
  (tree tree' : Py.dict) (st st' : importer) :
  add_signals known node tree st = Ok ((node', tree'), st') ->
  forall n s, add_registers sw hw n tree' s = add_registers sw hw n tree s.
Proof.
  intros H. unfold add_signals in H.
  apply bind_ok in H as (node0 & st0 & _ & H).
  apply bind_ok in H as ([node1 tree1] & st1 & H1 & H).
  apply bind_ok in H as ([node2 tree2] & st2 & H2 & H).
  apply bind_ok in H as ([node3 tree3] & st3 & H3 & H).
  apply add_signal_list_facts in H1 as (_ & Hk1 & _).
  apply add_signal_list_facts in H2 as (_ & Hk2 & _).
  apply add_signal_list_facts in H3 as (_ & Hk3 & _).
  pose proof (add_signal_list_facts _ _ _ _ _ _ _ _ _ H) as (_ & Hk4 & _).
  apply add_signal_list_tree in H.
  assert (forall k,
             String.eqb k "available_input_list" = false ->
             String.eqb k "available_output_list" = false ->
             String.eqb k "available_inout_list" = false ->
             Py.get k tree3 = Py.get k tree) as Hk.
  { intros k Ha Hb Hc. now rewrite Hk3, Hk2, Hk1. }
  apply add_registers_same.
  - now rewrite Hk4, Hk.
  - now rewrite Hk4, Hk.
  - rewrite (Hk "interrupt_list") in H by reflexivity.
    destruct (Py.get "interrupt_list" tree) as [[| | | | |l|]|] eqn:E;
      try (subst tree'; left; rewrite <- E; now apply Hk).
    destruct H as (l' & -> & Hw). right. exists l', l.
    rewrite get_set. cbn [String.eqb Ascii.eqb Bool.eqb].
    splits; try reflexivity. exact Hw.
Qed.

End Further.

(** ** The further properties at concrete documents *)

Lemma hex_or_dec_to_dec_result_witness :
  (exists z, VInt 31 = VInt z) /\
  hex_or_dec_to_dec (VInt 31) = Ok (VInt 31).
Proof.
  exact (hex_or_dec_to_dec_result (VStr "0x1F") (VInt 31) eq_refl).
Defined.

Lemma hex_or_dec_to_dec_hex_witness :
  hex_or_dec_to_dec (VStr "0xfF") = Ok (VInt 255).
Proof.
  apply (hex_or_dec_to_dec_hex "fF"); [discriminate|reflexivity].
Defined.

Lemma create_signal_named_witness :
  exists sig,
    create_signal spec_lookup_property (VDict late_irq) "interrupt"
      new_importer
    = Ok ((sig,
           VDict [("name", VStr "late"); ("desc", VStr "d");
                  ("default", VInt 1); ("signalwidth", VInt 1);
                  ("output", VBool true)]),
          add_warnings new_importer
            [Unsupported_key (Signal_scope (VStr "late")) "default"]) /\
    s_type_name sig = VStr "late" /\
    s_inst_name sig = IntrPort (VStr "late").
Proof.
  exact (create_signal_named spec_lookup_property late_irq (VStr "late")
           "interrupt" new_importer eq_refl).
Defined.

Lemma interrupt_signal_is_output_witness :
  exists sig e st',
    create_signal spec_lookup_property (VDict late_irq) "interrupt"
      new_importer = Ok ((sig, e), st') /\
    s_inst_name sig = IntrPort (VStr "late") /\
    property "output" (s_properties sig) = Some (PObj (VBool true)) /\
    property "name" (s_properties sig) = None.
Proof.
  destruct (create_signal spec_lookup_property (VDict late_irq) "interrupt"
              new_importer) as [[[sig e] st']|err] eqn:E;
    [|vm_compute in E; discriminate E].
  destruct (interrupt_signal_is_output spec_lookup_property late_irq
              new_importer st' sig e E) as (name & Hn & _ & Hi & Ho & Hp).
  injection Hn as <-. exists sig, e, st'.
  split; [reflexivity|]. split; [exact Hi|]. split; [exact Ho|exact Hp].
Defined.

Lemma create_register_needs_desc_witness :
  create_register spec_sw_from_access spec_hw_from_access
    (VDict no_desc_reg) ready = Raise (KeyError "desc").
Proof.
  exact (create_register_needs_desc spec_sw_from_access spec_hw_from_access
           no_desc_reg "r" ready 32 eq_refl eq_refl eq_refl).
Defined.

Lemma create_register_needs_fields_witness :
  create_register spec_sw_from_access spec_hw_from_access
    (VDict no_fields_reg) ready = Raise (KeyError "fields").
Proof.
  exact (create_register_needs_fields spec_sw_from_access
           spec_hw_from_access no_fields_reg "r" (VStr "d") (VInt 0) ready
           32 eq_refl eq_refl eq_refl eq_refl eq_refl).
Defined.

Lemma register_external_witness :
  exists R st',
    create_register spec_sw_from_access spec_hw_from_access external_reg
      ready = Ok (R, st') /\
    r_properties R = [("desc", PObj (VStr "d"))] /\
    r_external R = true.
Proof.
  destruct (create_register spec_sw_from_access spec_hw_from_access
              external_reg ready) as [[R st']|err] eqn:E;
    [|vm_compute in E; discriminate E].
  destruct (register_external spec_sw_from_access spec_hw_from_access
              external_reg ready st' R E) as (d & desc & Hd & Hdesc & Hp & Hx).
  injection Hd as <-. injection Hdesc as <-.
  exists R, st'. split; [reflexivity|]. split; [exact Hp|].
  apply Hx. reflexivity.
Defined.

Lemma field_access_properties_witness :
  exists F,
    nth_error (r_children status_made) 1 = Some F /\
    property "sw" (f_properties F) = Some (PObj (VSym "rw")) /\
    property "hw" (f_properties F) = Some (PObj (VSym "rw")) /\
    property "onread" (f_properties F) = None.
Proof.
  destruct (field_access_properties spec_sw_from_access spec_hw_from_access
              status_reg ready status_left status_made status_made_ok)
    as (d & fields & Hd & Hf & Hnth).
  injection Hd as <-. vm_compute in Hf. injection Hf as <-.
  eexists. split; [reflexivity|].
  destruct (Hnth 1%nat _ eq_refl)
    as (fd & swv & onw & onr & hwv & we & Hfd & Hs & Hh & Psw & Pr & _ & Phw).
  injection Hfd as <-.
  vm_compute in Hs. injection Hs as <- _ <-.
  vm_compute in Hh. injection Hh as <- _.
  split; [exact Psw|]. split; [exact Phw|exact Pr].
Defined.

Lemma register_swmod_witness :
  exists R st',
    create_register spec_sw_from_access spec_hw_from_access external_reg
      ready = Ok (R, st') /\
    forall F, In F (r_children R) ->
      property "swmod" (f_properties F) = Some (PObj (VBool true)).
Proof.
  destruct (create_register spec_sw_from_access spec_hw_from_access
              external_reg ready) as [[R st']|err] eqn:E;
    [|vm_compute in E; discriminate E].
  destruct (register_swmod spec_sw_from_access spec_hw_from_access
              external_reg ready st' R E) as (d & Hd & Hall).
  injection Hd as <-. exists R, st'. split; [reflexivity|exact Hall].
Defined.

Lemma field_declared_reset_witness :
  exists F,
    nth_error (r_children status_made) 1 = Some F /\
    property "reset" (f_properties F) = Some (PObj (VInt 0)).
Proof.
  destruct (field_declared_reset spec_sw_from_access spec_hw_from_access
              status_reg ready status_left status_made status_made_ok)
    as (d & fields & Hd & Hf & Hnth).
  injection Hd as <-. vm_compute in Hf. injection Hf as <-.
  eexists. split; [reflexivity|].
  destruct (Hnth 1%nat _ eq_refl) as (fd & Hfd & Hres).
  injection Hfd as <-.
  destruct (Hres (VStr "x") eq_refl) as (r & _ & Hp & Hx).
  rewrite (Hx eq_refl) in Hp. exact Hp.
Defined.

Lemma inherited_resval_bits_witness :
  0 <= 10 < 2 ^ 4 /\ Z.testbit 10 1 = Z.testbit 165 5.
Proof.
  destruct (inherited_resval_bits (VInt 165) (VInt 10) 4 4 eq_refl)
    as (r & z & Hr & Hv & Hb & Hbits).
  injection Hr as <-. injection Hv as <-.
  split; [exact Hb|]. exact (Hbits 1 ltac:(lia)).
Defined.

Lemma add_field_needs_bits_witness :
  add_field spec_sw_from_access spec_hw_from_access VNone (VStr "rw")
    (VStr "hro") (VInt 0) 0 (VDict [("name", VStr "f")]) ready
  = Raise (KeyError "bits").
Proof.
  exact (add_field_needs_bits spec_sw_from_access spec_hw_from_access VNone
           (VStr "rw") (VStr "hro") (VInt 0) 0%nat [("name", VStr "f")]
           ready eq_refl).
Defined.

Lemma parse_enum_members_witness :
  exists enum st',
    parse_enum mode_field ready = Ok (enum, st') /\
    e_type_name enum = "mode_e" /\
    List.length (e_members enum) = 2%nat /\
    forall m, In m (e_members enum) -> leading_digit (m_name m) = false.
Proof.
  destruct (parse_enum mode_field ready) as [[enum st']|err] eqn:E;
    [|vm_compute in E; discriminate E].
  destruct (parse_enum_members mode_field ready st' enum E)
    as (entries & fname & He & Hn & Ht & Hlen & Hnth).
  injection Hn as <-. vm_compute in He. injection He as <-.
  exists enum, st'. split; [reflexivity|]. split; [exact Ht|].
  split; [exact Hlen|].
  intros m Hm. apply In_nth_error in Hm as [i Hi].
  destruct (Hnth i m Hi) as (ed & nm & _ & _ & _ & Hd & _).
  exact Hd.
Defined.

Lemma enum_needs_field_name_witness :
  exists e,
    add_field spec_sw_from_access spec_hw_from_access VNone (VStr "rw")
      (VStr "hro") (VInt 0) 0 (VDict nameless_enum_field) ready = Raise e.
Proof.
  exact (enum_needs_field_name spec_sw_from_access spec_hw_from_access
           VNone (VStr "rw") (VStr "hro") (VInt 0) 0%nat nameless_enum_field
           ready eq_refl eq_refl).
Defined.

Lemma add_registers_interrupts_wf_witness :
  (List.length [VDict late_irq] <= 32)%nat /\
  Forall wf_interrupt [VDict late_irq].
Proof.
  destruct (add_registers spec_sw_from_access spec_hw_from_access
              (create_addrmap_definition (VStr "wired")) wired ready)
    as [[node' st']|err] eqn:E; [|vm_compute in E; discriminate E].
  exact (add_registers_interrupts_wf spec_sw_from_access
           spec_hw_from_access _ node' wired [VDict late_irq] ready st' E
           eq_refl).
Defined.


Lemma import_file_root_witness :
  exists C st',
    import_file spec_sw_from_access spec_hw_from_access spec_lookup_property
      wired new_importer = Ok (tt, st') /\
    roots st' = [C] /\ a_type_name C = VStr "wired" /\
    property "name" (a_properties C) = Some (PObj (VStr "wired")) /\
    property "desc" (a_properties C) = Some (PObj (VStr "one line")).
Proof.
  destruct (import_file spec_sw_from_access spec_hw_from_access
              spec_lookup_property wired new_importer)
    as [[[] st']|err] eqn:E; [|vm_compute in E; discriminate E].
  destruct (import_file_root spec_sw_from_access spec_hw_from_access
              spec_lookup_property wired new_importer st' E)
    as (name & C & sigs & Rs & Hn & Hroots & Ht & _ & Hpn & Hpd).
  injection Hn as <-. exists C, st'.
  split; [reflexivity|]. split; [exact Hroots|]. split; [exact Ht|].
  split; [exact Hpn|exact Hpd].
Defined.

Lemma import_file_required_keys_witness :
  exists name interrupt_list registers,
    Py.get "name" uart = Some name /\ Py.truthy name = true /\
    Py.get "interrupt_list" uart = Some interrupt_list /\
    Py.get "registers" uart = Some registers.
Proof.
  exact (import_file_required_keys spec_sw_from_access spec_hw_from_access
           spec_lookup_property uart new_importer uart_imported
           uart_imported_ok).
Defined.

Lemma import_file_warnings_witness :
  exists st' ws,
    import_file spec_sw_from_access spec_hw_from_access spec_lookup_property
      wired new_importer = Ok (tt, st') /\
    warnings st' = [Unsupported_key Addrmap_scope "cip_id"] ++ ws.
Proof.
  destruct (import_file spec_sw_from_access spec_hw_from_access
              spec_lookup_property wired new_importer)
    as [[[] st']|err] eqn:E; [|vm_compute in E; discriminate E].
  destruct (import_file_warnings spec_sw_from_access spec_hw_from_access
              spec_lookup_property wired new_importer st' E) as [ws Hws].
  exists st', ws. split; [reflexivity|exact Hws].
Defined.

Lemma add_signals_keeps_registers_witness :
  exists node' tree' st',
    add_signals spec_lookup_property
      (create_addrmap_definition (VStr "wired")) wired new_importer
    = Ok ((node', tree'), st') /\
    Py.get "interrupt_list" tree'
    = Some (VList [VDict (written_entry late_irq "output")]) /\
    add_registers spec_sw_from_access spec_hw_from_access node' tree' ready
    = add_registers spec_sw_from_access spec_hw_from_access node' wired
        ready.
Proof.
  destruct (add_signals spec_lookup_property
              (create_addrmap_definition (VStr "wired")) wired new_importer)
    as [[[node' tree'] st']|err] eqn:E; [|vm_compute in E; discriminate E].
  exists node', tree', st'. split; [reflexivity|]. split.
  - vm_compute in E. injection E as _ <- _. reflexivity.
  - exact (add_signals_keeps_registers spec_sw_from_access
             spec_hw_from_access spec_lookup_property _ node' wired tree'
             new_importer st' E node' ready).
Defined.
